(** * CAMEO_TurkeyandIsrael: the resumable, retrying row-classification scripts

    A shallow embedding of [CAMEO-3.py], [Societal_sentiment.py],
    [CAMEOcode_Hurriyet_1.py], [Filter-3.1.py], [Filter-3.2.py],
    [Filter-3.3.py] and [Filter_Hurriyet_first.py].  Each script reads an
    input table, sends the text of every row to a hosted chat-completion
    endpoint and stores what comes back in a CSV table.

    What the embedding keeps and what it leaves to the platform:
    - the remote service, Python's [str()], [str.strip], [json.loads] and the
      few other builtins the scripts call are fields of the class [Platform];
      every theorem holds for every platform;
    - exceptions are the instances of Python's [Exception] (what a failing
      call raises); the termination of the process from outside is the
      separate outcome [Killed], which no [except] clause catches;
    - a CSV file is the sequence of the lines written to it, each the header
      line or a record line holding the cell values in column order; reading
      the file gives every cell the value pandas infers for it from its
      whole column ([pd_cell]), which need not be the value written;
    - a string is the UTF-8 encoding of a Python [str];
    - console output ([print]) is not modelled. *)

From Stdlib Require Import ZArith QArith List String Ascii DecimalString Lia PrimFloat.
From stdpp Require Import base gmap strings list.

Set Warnings "-register-all,-clear-no-such-hyp".
Local Open Scope Z_scope.

(** ** Python values and exceptions *)

Inductive pyval :=
| PNone
| PBool (b : bool)
| PInt (z : Z)
| PFloat (f : float)
| PStr (s : string)
| PList (l : list pyval)
| PDict (d : list (string * pyval)).

(** An exception: its class name and the text [str(exc)] gives. *)
Record exn := Exn { exn_class : string; exn_msg : string }.

(** How a computation ends: it returns, it raises, or the process was
    terminated while it ran. *)
Inductive result (A : Type) :=
| Ret (a : A)
| Raise (e : exn)
| Killed.
Arguments Ret {A} a.
Arguments Raise {A} e.
Arguments Killed {A}.

(** ** The remote request

    The instruction text and the generation options of a request are fixed by
    the task; [req_inputs] are the row-dependent strings placed in it. *)

Inductive task :=
| TaskCameoEvents
| TaskSummary
| TaskSentiment
| TaskRelevance.

Record request := Request { req_task : task; req_inputs : list string }.

(** ** The platform: remote service and Python builtins *)

Class Platform := {
  (** state of the hosted service *)
  Remote : Type;
  (** [client.chat.completions.create(...)] followed by
      [response.choices[0].message.content]: the content is a string or
      [None]; any exception of the round trip is the left case *)
  chat_create : request -> Remote -> (exn + option string) * Remote;
  (** what [d] seconds of waiting do to the service *)
  elapse : Q -> Remote -> Remote;
  (** [str(v)] for a value that is not a string *)
  py_repr : pyval -> string;
  (** [s.strip()] *)
  py_strip : string -> string;
  (** [json.loads(s)] *)
  json_loads : string -> exn + pyval;
  (** [s.replace(old, new)] *)
  py_replace : string -> string -> string -> string;
  (** [re.search(r"\{.*\}", s, flags=re.DOTALL)], the matched text *)
  re_search_object : string -> option string;
  (** [float(v)] *)
  py_float : pyval -> exn + float;
  (** what [pd.read_csv] makes of the cell written from [v] in a column
      written from [column]: the type of a column is inferred from all its
      cells *)
  pd_cell : forall (column : list pyval) (v : pyval), pyval;
  (** [pd.Series(values).sum()] *)
  pd_sum : list pyval -> exn + pyval;
  (** [json.dumps(v, ensure_ascii=False)] *)
  json_dumps : pyval -> string;
}.

(** ** The world a script runs in *)

Inductive event :=
| EvCall (failure : option exn)   (* one invocation of a remote operation *)
| EvSleep (d : Q).                (* one [time.sleep(d)] *)

Inductive line :=
| HeaderLine (columns : list string)
| RecordLine (cells : list pyval).

Record World `{Platform} := mkWorld {
  remote : Remote;
  trace : list event;
  (** the script's output table; [None] when the file does not exist *)
  out_file : option (list line);
  (** the set object [processed_ids] of [main] *)
  processed_ids : gset string;
  (** [Some n]: the process is terminated at its (n+1)-th effect *)
  kill : option nat;
}.

Definition M `{Platform} (A : Type) : Type := World -> result A * World.

Definition ret `{Platform} {A} (a : A) : M A := fun w => (Ret a, w).

Definition raise `{Platform} {A} (e : exn) : M A := fun w => (Raise e, w).

Definition bind `{Platform} {A B} (m : M A) (k : A -> M B) : M B :=
  fun w =>
    match m w with
    | (Ret a, w') => k a w'
    | (Raise e, w') => (Raise e, w')
    | (Killed, w') => (Killed, w')
    end.

(** [try: body / except Exception as exc: handler(exc)] *)
Definition try_except `{Platform} {A} (body : M A) (handler : exn -> M A) : M A :=
  fun w =>
    match body w with
    | (Raise exc, w') => handler exc w'
    | other => other
    end.

Declare Scope py_scope.
Delimit Scope py_scope with py.
Notation "x <- c1 ;; c2" := (bind c1 (fun x => c2))
  (at level 100, c1 at next level, right associativity) : py_scope.
Notation "c1 ;;; c2" := (bind c1 (fun _ => c2))
  (at level 100, right associativity) : py_scope.
Local Open Scope py_scope.

(** Every effect first asks whether the process is still alive. *)
Definition tick `{Platform} : M unit :=
  fun w =>
    match kill w with
    | None => (Ret tt, w)
    | Some (S n) =>
        (Ret tt, mkWorld _ (remote w) (trace w) (out_file w) (processed_ids w) (Some n))
    | Some O => (Killed, w)
    end.

(** One invocation of a remote operation [f]. *)
Definition remote_call `{Platform} {A} (f : Remote -> (exn + A) * Remote) : M A :=
  tick ;;;
  fun w =>
    let '(o, s') := f (remote w) in
    match o with
    | inl e =>
        (Raise e,
         mkWorld _ s' (trace w ++ [EvCall (Some e)]) (out_file w) (processed_ids w) (kill w))
    | inr a =>
        (Ret a,
         mkWorld _ s' (trace w ++ [EvCall None]) (out_file w) (processed_ids w) (kill w))
    end.

(** [time.sleep(d)] *)
Definition sleep `{Platform} (d : Q) : M unit :=
  tick ;;;
  fun w =>
    (Ret tt,
     mkWorld _ (elapse d (remote w)) (trace w ++ [EvSleep d]) (out_file w)
       (processed_ids w) (kill w)).

(** ** [call_with_retries] (CAMEO-3.py, lines 37-46) *)

Definition MAX_RETRIES : Z := 4.
Definition RETRY_BACKOFF_SECONDS : Z := 5.

Fixpoint range_from (lo : Z) (n : nat) : list Z :=
  match n with
  | O => []
  | S n' => lo :: range_from (lo + 1) n'
  end.

(** [range(lo, hi)] *)
Definition py_range (lo hi : Z) : list Z := range_from lo (Z.to_nat (hi - lo)).

(** The [for attempt in ...] loop over the attempts still to make.  When the
    loop runs out the function falls off its end and returns [None]. *)
Fixpoint retry_loop `{Platform} {A} (fn : M A) (max_attempts : Z) (attempts : list Z)
  : M (option A) :=
  match attempts with
  | [] => ret None
  | attempt :: rest =>
      fun w =>
        match fn w with
        | (Ret v, w') => (Ret (Some v), w')
        | (Raise exc, w') =>
            if attempt =? max_attempts then (Raise exc, w')
            else
              (let wait := RETRY_BACKOFF_SECONDS * attempt in
               sleep (inject_Z wait) ;;;
               retry_loop fn max_attempts rest) w'
        | (Killed, w') => (Killed, w')
        end
  end.

Definition call_with_retries `{Platform} {A} (fn : M A) (max_attempts : Z) : M (option A) :=
  retry_loop fn max_attempts (py_range 1 (max_attempts + 1)).

(** ** Reading a trace *)

(** How many invocations a trace holds. *)
Fixpoint count_calls (evs : list event) : nat :=
  match evs with
  | [] => O
  | EvCall _ :: rest => S (count_calls rest)
  | EvSleep _ :: rest => count_calls rest
  end.

Definition sleeps_of (evs : list event) : list Q :=
  omap (fun ev => match ev with EvSleep d => Some d | EvCall _ => None end) evs.

(** The events a run added to the trace. *)
Definition new_events `{Platform} (w w' : World) : list event :=
  drop (length (trace w)) (trace w').

(** ** Python helpers shared by the scripts *)

Local Open Scope string_scope.
Local Open Scope list_scope.

(** [float("nan")], what pandas puts in a cell that has no value *)
Definition NaN : pyval := PFloat PrimFloat.nan.

(** [str(v)] *)
Definition py_str `{Platform} (v : pyval) : string :=
  match v with
  | PStr s => s
  | other => py_repr other
  end.

(** [bool(v)]: what [if v] and [not v] test *)
Definition truthy (v : pyval) : bool :=
  match v with
  | PNone => false
  | PBool b => b
  | PInt z => negb (Z.eqb z 0)
  | PFloat f => negb (PrimFloat.eqb f 0%float)
  | PStr s => negb (String.eqb s "")
  | PList l => match l with [] => false | _ :: _ => true end
  | PDict d => match d with [] => false | _ :: _ => true end
  end.

Definition py_type_name (v : pyval) : string :=
  match v with
  | PNone => "NoneType"
  | PBool _ => "bool"
  | PInt _ => "int"
  | PFloat _ => "float"
  | PStr _ => "str"
  | PList _ => "list"
  | PDict _ => "dict"
  end.

Definition AttributeError (v : pyval) (attr : string) : exn :=
  Exn "AttributeError"
    ("'" +:+ py_type_name v +:+ "' object has no attribute '" +:+ attr +:+ "'").

(** A Python dict with string keys, and a pandas row, as association lists. *)
Fixpoint lookup_key (k : string) (d : list (string * pyval)) : option pyval :=
  match d with
  | [] => None
  | (k', v) :: rest => if String.eqb k k' then Some v else lookup_key k rest
  end.

(** [v.get(k, dflt)] where [v] came out of [json.loads]: only a dict has
    the method. *)
Definition py_get `{Platform} (v : pyval) (k : string) (dflt : pyval) : M pyval :=
  match v with
  | PDict d => ret (default dflt (lookup_key k d))
  | other => raise (AttributeError other "get")
  end.

(** In UTF-8 a byte [10xxxxxx] continues the character begun before it. *)
Definition is_continuation (c : ascii) : bool :=
  let n := nat_of_ascii c in
  ((128 <=? n)%nat && (n <? 192)%nat)%bool.

(** The first [n] characters of [s], with all their bytes. *)
Fixpoint take_chars (n : nat) (s : string) : string :=
  match s with
  | EmptyString => EmptyString
  | String c rest =>
      if is_continuation c then String c (take_chars n rest)
      else
        match n with
        | O => EmptyString
        | S n' => String c (take_chars n' rest)
        end
  end.

(** The characters of [s], each with all its bytes. *)
Fixpoint py_chars (s : string) : list string :=
  match s with
  | EmptyString => []
  | String c rest =>
      let continued :=
        match rest with
        | String c' _ => is_continuation c'
        | EmptyString => false
        end in
      match py_chars rest with
      | first :: others =>
          if continued then String c first :: others
          else String c EmptyString :: first :: others
      | [] => [String c EmptyString]
      end
  end.

(** The items a [for] loop over [v] visits. *)
Definition py_iter `{Platform} (v : pyval) : M (list pyval) :=
  match v with
  | PList l => ret l
  | PDict d => ret (map (fun kv => PStr (fst kv)) d)
  | PStr s => ret (map PStr (py_chars s))
  | other =>
      raise (Exn "TypeError" ("'" +:+ py_type_name other +:+ "' object is not iterable"))
  end.

(** [json.loads(content)] where [content] may be [None] *)
Definition py_json_loads `{Platform} (content : option string) : M pyval :=
  match content with
  | None =>
      raise (Exn "TypeError"
               "the JSON object must be str, bytes or bytearray, not NoneType")
  | Some s =>
      match json_loads s with
      | inl e => raise e
      | inr v => ret v
      end
  end.

(** ** Tables *)

(** One row of the input table: column name to cell. *)
Definition row : Type := list (string * pyval).

(** [row.get(column, dflt)] *)
Definition row_get (r : row) (column : string) (dflt : pyval) : pyval :=
  default dflt (lookup_key column r).

(** What the process finds when it starts: the credential in the environment
    and the input file (absent, unreadable, or a table). *)
Record Env := mkEnv {
  OPENAI_API_KEY : option string;
  data_csv : option (exn + list row);
}.

Record DataFrame := mkDataFrame {
  df_columns : list string;
  df_rows : list (list pyval);
}.

Definition line_cells (ln : line) : list pyval :=
  match ln with
  | HeaderLine columns => map PStr columns
  | RecordLine cells => cells
  end.

(** The column [i] of the rows of a file, as they were written; a row that
    is too short has no value there. *)
Definition written_column (rows : list (list pyval)) (i : nat) : list pyval :=
  map (fun cells => nth i cells NaN) rows.

(** The rows as [pd.read_csv] gives them: each cell gets the value inferred
    for it from its column. *)
Definition pd_read `{Platform} (rows : list (list pyval)) : list (list pyval) :=
  map (fun cells => imap (fun i v => pd_cell (written_column rows i) v) cells) rows.

(** [pd.read_csv] on the lines of a file: the first line names the columns,
    whatever it is, and every later line is a data row. *)
Definition read_csv `{Platform} (lines : list line) : M DataFrame :=
  match lines with
  | [] => raise (Exn "EmptyDataError" "No columns to parse from file")
  | first :: body =>
      ret (mkDataFrame (map py_str (line_cells first)) (pd_read (map line_cells body)))
  end.

Fixpoint column_index (c : string) (columns : list string) : option nat :=
  match columns with
  | [] => None
  | c' :: rest => if String.eqb c c' then Some O else S <$> column_index c rest
  end.

(** The values of one column, when the frame has it. *)
Definition df_column (df : DataFrame) (c : string) : option (list pyval) :=
  i ← column_index c (df_columns df);
  Some (map (fun cells => nth i cells NaN) (df_rows df)).

(** [pd.DataFrame([record], columns=columns)]: the cells of the one row. *)
Definition select_columns (columns : list string) (record : list (string * pyval))
  : list pyval :=
  map (fun c => default NaN (lookup_key c record)) columns.

Definition set_out_file `{Platform} (f : option (list line)) : M unit :=
  fun w => (Ret tt, mkWorld _ (remote w) (trace w) f (processed_ids w) (kill w)).

Definition set_processed_ids `{Platform} (ids : gset string) : M unit :=
  fun w => (Ret tt, mkWorld _ (remote w) (trace w) (out_file w) ids (kill w)).

(** [processed_ids.add(news_id)] *)
Definition add_processed_id `{Platform} (news_id : string) : M unit :=
  fun w => set_processed_ids ({[news_id]} ∪ processed_ids w) w.

(** [df.to_csv(path, index=False)]: the file is replaced. *)
Definition to_csv_write `{Platform} (columns : list string) (rows : list (list pyval))
  : M unit :=
  tick ;;; set_out_file (Some (HeaderLine columns :: map RecordLine rows)).

(** [df.to_csv(path, mode="a", header=header, index=False)] for a frame of
    one record: the lines go to the end of the file, which is created when it
    is missing. *)
Definition to_csv_append `{Platform} (columns : list string) (header : bool)
    (record : list (string * pyval)) : M unit :=
  tick ;;;
  fun w =>
    let new_lines :=
      (if header then [HeaderLine columns] else [])
        ++ [RecordLine (select_columns columns record)] in
    set_out_file (Some (default [] (out_file w) ++ new_lines)) w.

(** ** CAMEO-3.py *)

Module Cameo3.

Definition CONTENT_COLUMN : string := "Content".
Definition NEWS_ID_COLUMN : string := "NewsID".

Definition OUTPUT_COLUMNS : list string :=
  [ "NewsID"; "Source"; "Date"; "Title"; "summary";
    "event_order"; "source_actor"; "target_actor"; "cameo_top_level";
    "cameo_code"; "event_description"; "evidence"; "confidence" ].

(** [run_chat_completion(messages, **kwargs)]: the inner [api_call] is one
    remote invocation; the wrapper's own [None] and a [None] content are the
    same Python value. *)
Definition run_chat_completion `{Platform} (t : task) (text : string) : M (option string) :=
  let api_call := remote_call (chat_create (Request t [text])) in
  o <- call_with_retries api_call MAX_RETRIES ;;
  ret (match o with Some content => content | None => None end).

Definition get_cameo_events_with_llm `{Platform} (text_content : string) : M pyval :=
  try_except
    (content <- run_chat_completion TaskCameoEvents text_content ;;
     py_json_loads content)
    (fun exc => ret (PDict [("events", PList []); ("error", PStr (exn_msg exc))])).

Definition get_summary_with_llm `{Platform} (text_content : string) : M string :=
  try_except
    (out <- run_chat_completion TaskSummary text_content ;;
     match out with
     | Some s => ret (py_strip s)
     | None => raise (AttributeError PNone "strip")
     end)
    (fun exc => ret ("Error: " +:+ exn_msg exc)).

Definition ensure_output_csv `{Platform} : M unit :=
  fun w =>
    match out_file w with
    | None => to_csv_write OUTPUT_COLUMNS [] w
    | Some _ => (Ret tt, w)
    end.

Definition load_existing_results `{Platform} : M DataFrame :=
  fun w =>
    match out_file w with
    | Some lines => read_csv lines w
    | None => (Ret (mkDataFrame OUTPUT_COLUMNS []), w)
    end.

Definition append_record `{Platform} (record : list (string * pyval)) : M unit :=
  fun w =>
    let header := negb (bool_decide (is_Some (out_file w))) in
    to_csv_append OUTPUT_COLUMNS header record w.

(** [set(df_existing.get("NewsID", []).astype(str))]: without the column the
    default is a list, which has no [astype]. *)
Definition existing_ids `{Platform} (df_existing : DataFrame) : M (gset string) :=
  match df_column df_existing "NewsID" with
  | Some values => ret (list_to_set (map py_str values))
  | None => raise (AttributeError (PList []) "astype")
  end.

Definition row_content `{Platform} (r : row) : string :=
  py_strip (py_str (row_get r CONTENT_COLUMN (PStr ""))).

Definition row_news_id `{Platform} (r : row) : string :=
  py_strip (py_str (row_get r NEWS_ID_COLUMN (PStr ""))).

(** The record of a row without events. *)
Definition blank_record (r : row) (news_id summary : string) : list (string * pyval) :=
  [ ("NewsID", PStr news_id);
    ("Source", row_get r "NewsSource" (PStr ""));
    ("Date", row_get r "EventDate" (PStr ""));
    ("Title", row_get r "Source" (PStr ""));
    ("summary", PStr summary);
    ("event_order", PStr "");
    ("source_actor", PStr "");
    ("target_actor", PStr "");
    ("cameo_top_level", PStr "");
    ("cameo_code", PStr "");
    ("event_description", PStr "");
    ("evidence", PStr "");
    ("confidence", PStr "") ].

(** The record of one event [ev] of a row; the first [ev.get] raises when
    [ev] is not a dict. *)
Definition event_record `{Platform} (r : row) (news_id summary : string) (ev : pyval)
  : M (list (string * pyval)) :=
  event_order <- py_get ev "event_order" (PInt 1) ;;
  source_actor <- py_get ev "source_actor" (PStr "") ;;
  target_actor <- py_get ev "target_actor" (PStr "") ;;
  cameo_top_level <- py_get ev "cameo_top_level" (PStr "") ;;
  cameo_code <- py_get ev "cameo_code" (PStr "") ;;
  event_description <- py_get ev "event_description" (PStr "") ;;
  evidence <- py_get ev "evidence" (PStr "") ;;
  confidence <- py_get ev "confidence" (PStr "") ;;
  ret [ ("NewsID", PStr news_id);
        ("Source", row_get r "NewsSource" (PStr ""));
        ("Date", row_get r "EventDate" (PStr ""));
        ("Title", row_get r "Source" (PStr ""));
        ("summary", PStr summary);
        ("event_order", event_order);
        ("source_actor", source_actor);
        ("target_actor", target_actor);
        ("cameo_top_level", cameo_top_level);
        ("cameo_code", cameo_code);
        ("event_description", event_description);
        ("evidence", evidence);
        ("confidence", confidence) ].

(** [for ev in events: ... append_record(record)] *)
Fixpoint write_events `{Platform} (r : row) (news_id summary : string) (events : list pyval)
  : M unit :=
  match events with
  | [] => ret tt
  | ev :: rest =>
      record <- event_record r news_id summary ev ;;
      append_record record ;;;
      write_events r news_id summary rest
  end.

(** The body of the row loop from the first classification call on. *)
Definition process_row `{Platform} (r : row) (content news_id : string) : M unit :=
  cameo_data <- get_cameo_events_with_llm content ;;
  summary <- get_summary_with_llm content ;;
  events <- py_get cameo_data "events" (PList []) ;;
  (if negb (truthy events)
   then append_record (blank_record r news_id summary)
   else (items <- py_iter events ;; write_events r news_id summary items)) ;;;
  add_processed_id news_id.

(** One iteration of [for idx, row in df_input.iterrows()]. *)
Definition loop_body `{Platform} (r : row) : M unit :=
  let content := row_content r in
  let news_id := row_news_id r in
  if String.eqb content "" then ret tt
  else
    fun w =>
      if bool_decide (news_id ∈ processed_ids w) then (Ret tt, w)
      else process_row r content news_id w.

Fixpoint main_loop `{Platform} (df_input : list row) : M unit :=
  match df_input with
  | [] => ret tt
  | r :: rest => loop_body r ;;; main_loop rest
  end.

Definition main `{Platform} (env : Env) : M unit :=
  match data_csv env with
  | None => raise (Exn "FileNotFoundError" "Missing CSV: Dunya_Tur2.csv")
  | Some (inl e) => raise e
  | Some (inr df_input) =>
      ensure_output_csv ;;;
      df_existing <- load_existing_results ;;
      ids <- existing_ids df_existing ;;
      set_processed_ids ids ;;;
      main_loop df_input
  end.

(** The script from its first line: the credential is checked when the
    module is loaded, before [main] is called. *)
Definition script `{Platform} (env : Env) : M unit :=
  match OPENAI_API_KEY env with
  | None | Some "" =>
      raise (Exn "ValueError" "OPENAI_API_KEY environment variable missing.")
  | Some _ => main env
  end.

End Cameo3.

(** ** Societal_sentiment.py

    Its [call_with_retries] is the one above; the two copies differ in what
    they print. *)

Module Societal.

Definition CONTENT_COLUMN : string := "Content".
Definition NEWS_ID_COLUMN : string := "NewsID".
Definition SOURCE_COLUMN : string := "Source".
Definition DATE_COLUMN : string := "Date".
Definition TITLE_COLUMN : string := "Title".

Definition OUTPUT_COLUMNS : list string :=
  [ "NewsID"; "Source"; "Date"; "Title"; "summary";
    "societal_sentiment_score"; "societal_sentiment_label";
    "societal_acting_group"; "societal_description"; "societal_evidence" ].

(** [s[:n]]: Python counts characters, not bytes. *)
Definition py_prefix (n : Z) (s : string) : string := take_chars (Z.to_nat n) s.

Definition run_openai_completion `{Platform} (t : task) (user_content : string)
  : M (option string) :=
  let api_call :=
    let safe_content := py_prefix 30000 user_content in
    remote_call (chat_create (Request t [safe_content])) in
  o <- call_with_retries api_call MAX_RETRIES ;;
  ret (match o with Some content => content | None => None end).

Definition lift_outcome `{Platform} {A} (o : exn + A) : M A :=
  match o with
  | inl e => raise e
  | inr a => ret a
  end.

Definition parse_json_lenient `{Platform} (s : string) : M pyval :=
  if String.eqb s "" then ret (PDict [])
  else
    let s := py_replace (py_replace (py_strip s) "```json" "") "```" "" in
    try_except
      (lift_outcome (json_loads s))
      (fun _ =>
         match re_search_object s with
         | Some m => lift_outcome (json_loads m)
         | None => ret (PDict [])
         end).

(** [try: body / except ValueError: handler] *)
Definition try_except_ValueError `{Platform} {A} (body : M A) (handler : M A) : M A :=
  fun w =>
    match body w with
    | (Raise exc, w') =>
        if String.eqb (exn_class exc) "ValueError" then handler w' else (Raise exc, w')
    | other => other
    end.

Definition error_result (description : string) : list (string * pyval) :=
  [ ("sentiment_score", PFloat 0%float);
    ("sentiment_label", PStr "Error");
    ("acting_group", PStr "");
    ("description", PStr description);
    ("evidence", PStr "") ].

Definition get_societal_sentiment_with_llm `{Platform} (text_content : string)
  : M (list (string * pyval)) :=
  try_except
    (content <- run_openai_completion TaskSentiment text_content ;;
     match content with
     | None | Some "" => ret (error_result "")
     | Some c =>
         data <- parse_json_lenient c ;;
         score <- py_get data "sentiment_score" (PFloat 0%float) ;;
         score <- try_except_ValueError (lift_outcome (py_float score)) (ret 0%float) ;;
         sentiment_label <- py_get data "sentiment_label" (PStr "None Detected") ;;
         acting_group <- py_get data "acting_group" (PStr "") ;;
         description <- py_get data "description" (PStr "") ;;
         evidence <- py_get data "evidence" (PStr "") ;;
         ret [ ("sentiment_score", PFloat score);
               ("sentiment_label", sentiment_label);
               ("acting_group", acting_group);
               ("description", description);
               ("evidence", evidence) ]
     end)
    (fun exc => ret (error_result (exn_msg exc))).

Definition get_summary_with_llm `{Platform} (text_content : string) : M string :=
  try_except
    (out <- run_openai_completion TaskSummary text_content ;;
     ret (py_strip (default "" out)))
    (fun _ => ret "").

Definition row_content `{Platform} (r : row) : string :=
  py_strip (py_str (row_get r CONTENT_COLUMN (PStr ""))).

Definition row_news_id `{Platform} (r : row) : string :=
  py_strip (py_str (row_get r NEWS_ID_COLUMN (PStr ""))).

Definition sentiment_record (r : row) (news_id summary : string)
    (sent_data : list (string * pyval)) : list (string * pyval) :=
  [ ("NewsID", PStr news_id);
    ("Source", row_get r SOURCE_COLUMN (PStr ""));
    ("Date", row_get r DATE_COLUMN (PStr ""));
    ("Title", row_get r TITLE_COLUMN (PStr ""));
    ("summary", PStr summary);
    ("societal_sentiment_score",
      default (PFloat 0%float) (lookup_key "sentiment_score" sent_data));
    ("societal_sentiment_label", default (PStr "") (lookup_key "sentiment_label" sent_data));
    ("societal_acting_group", default (PStr "") (lookup_key "acting_group" sent_data));
    ("societal_description", default (PStr "") (lookup_key "description" sent_data));
    ("societal_evidence", default (PStr "") (lookup_key "evidence" sent_data)) ].

(** The body of the row loop from the first classification call on. *)
Definition process_row `{Platform} (r : row) (content news_id : string) : M unit :=
  sent_data <- get_societal_sentiment_with_llm content ;;
  summary <- get_summary_with_llm content ;;
  to_csv_append OUTPUT_COLUMNS false (sentiment_record r news_id summary sent_data) ;;;
  add_processed_id news_id ;;;
  sleep (1 # 2).

Definition loop_body `{Platform} (r : row) : M unit :=
  let news_id := row_news_id r in
  let content := row_content r in
  fun w =>
    if String.eqb news_id "" || String.eqb content ""
       || bool_decide (news_id ∈ processed_ids w)
    then (Ret tt, w)
    else process_row r content news_id w.

Fixpoint main_loop `{Platform} (df_input : list row) : M unit :=
  match df_input with
  | [] => ret tt
  | r :: rest => loop_body r ;;; main_loop rest
  end.

(** [df.empty] *)
Definition df_empty (df : DataFrame) : bool :=
  match df_columns df, df_rows df with
  | [], _ | _, [] => true
  | _, _ => false
  end.

Definition main `{Platform} (env : Env) : M unit :=
  match data_csv env with
  | None => raise (Exn "FileNotFoundError" "Missing CSV: ThemarkerHebrew.csv")
  | Some (inl e) => raise e
  | Some (inr df_input) =>
      (fun w =>
         match out_file w with
         | None => to_csv_write OUTPUT_COLUMNS [] w
         | Some _ => (Ret tt, w)
         end) ;;;
      df_existing <-
        (fun w =>
           match out_file w with
           | Some lines => read_csv lines w
           | None => (Ret (mkDataFrame [] []), w)
           end) ;;
      ids <-
        (if df_empty df_existing then ret ∅
         else
           match df_column df_existing NEWS_ID_COLUMN with
           | Some values => ret (list_to_set (map py_str values))
           | None => raise (Exn "KeyError" "'NewsID'")
           end) ;;
      set_processed_ids ids ;;;
      main_loop df_input
  end.

Definition script `{Platform} (env : Env) : M unit :=
  match OPENAI_API_KEY env with
  | None | Some "" =>
      raise (Exn "ValueError" "OPENAI_API_KEY environment variable missing.")
  | Some _ => main env
  end.

End Societal.

(** ** Filter-3.2.py

    This script keeps no resume set: it collects one verdict per input row
    in memory and writes the whole table when the loop is over. *)

Module Filter32.

Definition is_missing (v : pyval) : bool :=
  match v with
  | PNone => true
  | PFloat f => PrimFloat.is_nan f
  | _ => false
  end.

(** [df.fillna("")] on one row *)
Definition fillna (r : row) : row :=
  map (fun kv => (fst kv, if is_missing (snd kv) then PStr "" else snd kv)) r.

(** [df.columns = df.columns.str.strip()] on one row *)
Definition strip_columns `{Platform} (r : row) : row :=
  map (fun kv => (py_strip (fst kv), snd kv)) r.

Definition check_cameo_relevance `{Platform} (title content : string) : M (pyval * pyval) :=
  try_except
    (let user_inputs := [title; Societal.py_prefix 15000 content] in
     response <- remote_call (chat_create (Request TaskRelevance user_inputs)) ;;
     result <- py_json_loads response ;;
     is_relevant <- py_get result "is_relevant" (PBool false) ;;
     reason <- py_get result "reason" (PStr "No reason provided") ;;
     ret (is_relevant, reason))
    (fun e => ret (PBool false, PStr ("LLM Error: " +:+ exn_msg e))).

(** [for index, row in df.iterrows(): ... results.append({...})] *)
Fixpoint main_loop `{Platform} (index : Z) (df : list row)
    (results : list (list (string * pyval))) : M (list (list (string * pyval))) :=
  match df with
  | [] => ret results
  | r :: rest =>
      let title := py_str (row_get r "Title" (PStr "")) in
      let content := py_str (row_get r "Content" (PStr "")) in
      verdict <- check_cameo_relevance title content ;;
      let record :=
        [ ("NewsID", row_get r "NewsID" (PInt index));
          ("Date", row_get r "Date" (PStr ""));
          ("Title", PStr title);
          ("Is_Relevant", fst verdict);
          ("Reason_English", snd verdict);
          ("Content_Snippet", PStr (Societal.py_prefix 150 content)) ] in
      main_loop (index + 1) rest (results ++ [record])
  end.

(** The columns of [pd.DataFrame(results)]: the keys of the records. *)
Definition result_columns (results : list (list (string * pyval))) : list string :=
  match results with
  | [] => []
  | record :: _ => map fst record
  end.

(** The column [Is_Relevant] of [pd.DataFrame(results)]. *)
Definition verdict_column (results : list (list (string * pyval))) : list pyval :=
  map (fun record => default NaN (lookup_key "Is_Relevant" record)) results.

(** [main].  After the save the report looks up the verdict column (missing
    when there is no result) and sums it, which raises when the verdicts
    cannot be added; the comparison with [True] that follows raises nothing,
    and the rest of the report is console output. *)
Definition main `{Platform} (env : Env) : M unit :=
  match data_csv env with
  | None => ret tt
  | Some (inl e) => raise e
  | Some (inr df) =>
      let df := map (fun r => strip_columns (fillna r)) df in
      results <- main_loop 0 df [] ;;
      let columns := result_columns results in
      to_csv_write columns (map (select_columns columns) results) ;;;
      match results with
      | [] => raise (Exn "KeyError" "'Is_Relevant'")
      | _ :: _ => Societal.lift_outcome (pd_sum (verdict_column results)) ;;; ret tt
      end
  end.

Definition script `{Platform} (env : Env) : M unit :=
  match OPENAI_API_KEY env with
  | None | Some "" =>
      raise (Exn "ValueError" "Please set your OPENAI_API_KEY environment variable.")
  | Some _ => main env
  end.

End Filter32.

(** ** Test doubles

    Small platforms to run the scripts on: a service that replays a script of
    answers, one that fails every call and one that answers by request, with
    the builtins on plain ASCII text.  [replace], the regular expression and
    [json.dumps] are stand-ins: the payloads used here hold no code fence and
    decode at the first attempt, and what is written for the topics is not
    read. *)

Module Demo.

Definition is_space (c : ascii) : bool :=
  let n := nat_of_ascii c in
  (n =? 32)%nat || ((9 <=? n)%nat && (n <=? 13)%nat).

Fixpoint lstrip (s : string) : string :=
  match s with
  | EmptyString => EmptyString
  | String c rest => if is_space c then lstrip rest else s
  end.

Fixpoint rstrip (s : string) : string :=
  match s with
  | EmptyString => EmptyString
  | String c rest =>
      match rstrip rest with
      | EmptyString => if is_space c then EmptyString else String c EmptyString
      | kept => String c kept
      end
  end.

Definition strip (s : string) : string := rstrip (lstrip s).

Definition repr (v : pyval) : string :=
  match v with
  | PNone => "None"
  | PBool true => "True"
  | PBool false => "False"
  | PInt z => NilZero.string_of_int (Z.to_int z)
  | PFloat f => if PrimFloat.is_nan f then "nan" else "0.0"
  | PStr s => s
  | PList _ => "[]"
  | PDict _ => "{}"
  end.

Definition first_event : list (string * pyval) :=
  [ ("event_order", PInt 1); ("source_actor", PStr "TUR"); ("target_actor", PStr "ISR");
    ("cameo_top_level", PStr "11"); ("cameo_code", PStr "111");
    ("event_description", PStr "criticizes"); ("evidence", PStr "said");
    ("confidence", PFloat 1%float) ].

Definition second_event : list (string * pyval) :=
  [ ("event_order", PInt 2); ("source_actor", PStr "ISR"); ("target_actor", PStr "TUR");
    ("cameo_top_level", PStr "16"); ("cameo_code", PStr "161") ].

(** The decoder knows two payloads by name. *)
Definition loads (s : string) : exn + pyval :=
  if String.eqb s "no-events" then inr (PDict [("events", PList [])])
  else if String.eqb s "two-events"
  then inr (PDict [("events", PList [PDict first_event; PDict second_event])])
  else inl (Exn "JSONDecodeError" "Expecting value: line 1 column 1 (char 0)").

Definition to_float (v : pyval) : exn + float :=
  match v with
  | PFloat f => inr f
  | PStr _ => inl (Exn "ValueError" "could not convert string to float")
  | _ => inl (Exn "TypeError" "float() argument must be a string or a real number")
  end.

(** The integer a cell is read as when its whole column is integers: a cell
    written from an integer, or from text that is decimal digits only. *)
Definition integer_cell (v : pyval) : option Z :=
  match v with
  | PInt z => Some z
  | PStr s => Z.of_uint <$> NilZero.uint_of_string s
  | _ => None
  end.

(** [pd.read_csv] on one column, for the two cases the statements below
    need: a column all of whose cells are integers is read as integers
    ([007] gives [7]); in a column with a cell that is text, text stays as it
    was written and an empty cell is [NaN]. *)
Definition read_cell (column : list pyval) (v : pyval) : pyval :=
  if forallb (fun c => bool_decide (is_Some (integer_cell c))) column
  then default v (PInt <$> integer_cell v)
  else
    match v with
    | PNone | PStr "" => NaN
    | other => other
    end.

(** [sum] of a column of booleans: how many are [True]. *)
Definition sum (values : list pyval) : exn + pyval :=
  if forallb (fun v => match v with PBool _ => true | _ => false end) values
  then inr (PInt (Z.of_nat (length (List.filter truthy values))))
  else inl (Exn "TypeError" "unsupported operand type(s) for +").

Definition platform (R : Type) (service : request -> R -> (exn + option string) * R)
  : Platform :=
  {| Remote := R;
     chat_create := service;
     elapse := fun _ s => s;
     py_repr := repr;
     py_strip := strip;
     json_loads := loads;
     py_replace := fun s _ _ => s;
     re_search_object := fun _ => None;
     py_float := to_float;
     pd_cell := read_cell;
     pd_sum := sum;
     json_dumps := repr |}.

Definition connection_error : exn := Exn "APIConnectionError" "Connection error.".

(** Replays the answers of a list, one per call, then fails. *)
Definition scripted : Platform :=
  platform (list (exn + option string))
    (fun _ answers =>
       match answers with
       | [] => (inl connection_error, [])
       | a :: rest => (a, rest)
       end).

(** Fails every call. *)
Definition failing : Platform :=
  platform unit (fun _ s => (inl connection_error, s)).

(** Answers by the request: no event for the text [quiet day], two events
    for any other text, and a summary of every text. *)
Definition by_request : Platform :=
  platform unit
    (fun req s =>
       match req_task req, req_inputs req with
       | TaskCameoEvents, [text] =>
           if String.eqb text "quiet day" then (inr (Some "no-events"), s)
           else (inr (Some "two-events"), s)
       | TaskSummary, [text] => (inr (Some (" about " +:+ text +:+ " ")), s)
       | _, _ => (inl connection_error, s)
       end).

(** A process that has just started: nothing traced, no set built yet. *)
Definition start (P : Platform) (s : @Remote P) (file : option (list line))
    (budget : option nat) : @World P :=
  @mkWorld P s [] file ∅ budget.

(** A remote operation that raises at every invocation. *)
Definition broken_op : @Remote failing -> (exn + string) * @Remote failing :=
  fun s => (inl connection_error, s).

Definition broken_call : @M failing string := @remote_call failing _ broken_op.

(** The operation of the replaying service: one request for a summary. *)
Definition replay_op : @Remote scripted -> (exn + option string) * @Remote scripted :=
  @chat_create scripted (Request TaskSummary ["text"]).

Definition replay_call : @M scripted (option string) := @remote_call scripted _ replay_op.

Definition rate_limit_error : exn := Exn "RateLimitError" "Error code: 429".

End Demo.

(** ** Vocabulary of the statements *)

(** No invocation recorded in [evs] returned. *)
Definition every_call_raised (evs : list event) : Prop :=
  forall ev, ev ∈ evs -> ev <> EvCall None.

(** The retry wrapper's contract read for every [max_attempts]: at most
    [max_attempts] invocations, and the exception comes back to the caller
    when every invocation raised. *)
Definition retry_contract_for_every_max_attempts : Prop :=
  forall (P : Platform) (A : Type) (f : Remote -> (exn + A) * Remote)
         (max_attempts : Z) (w : World),
    kill w = None ->
    forall r w', call_with_retries (remote_call f) max_attempts w = (r, w') ->
      Z.of_nat (count_calls (new_events w w')) <= max_attempts
      /\ (every_call_raised (new_events w w') -> exists e, r = Raise e).

(** A computation that leaves the table and the set of processed
    identifiers alone, and that only a kill can stop. *)
Definition frames `{Platform} {A} (m : M A) : Prop :=
  forall w r w', m w = (r, w') ->
    out_file w' = out_file w /\ processed_ids w' = processed_ids w
    /\ (kill w = None -> kill w' = None /\ r <> Killed).

(** A computation that hands no exception to its caller. *)
Definition never_raises `{Platform} {A} (m : M A) : Prop :=
  forall w e w', m w <> (Raise e, w').

(** The identifier a record line shows in its first column. *)
Definition line_id (ln : line) : option string :=
  match ln with
  | RecordLine (PStr news_id :: _) => Some news_id
  | _ => None
  end.

Definition is_header (ln : line) : bool :=
  match ln with HeaderLine _ => true | RecordLine _ => false end.

(** How many header lines a file holds. *)
Definition count_headers (lines : list line) : nat :=
  length (List.filter is_header lines).

(** The identifiers of the record lines [body]. *)
Definition body_ids (body : list line) : gset string :=
  list_to_set (omap line_id body).

(** The identifiers written in a table whose first column is [NewsID]:
    [str] of the first cell of every line after the header. *)
Definition written_ids `{Platform} (body : list line) : gset string :=
  list_to_set (map (fun ln => py_str (nth 0 (line_cells ln) NaN)) body).

(** The identifiers a run finds in such a table: [str] of the first cell of
    every line after the header, as [pd.read_csv] gives it. *)
Definition table_ids `{Platform} (body : list line) : gset string :=
  list_to_set (map (fun cells => py_str (nth 0 cells NaN)) (pd_read (map line_cells body))).

(** The identifiers come back from the table as they were written. *)
Definition ids_read_back `{Platform} (body : list line) : Prop :=
  table_ids body = written_ids body.


(** The shape of every script's row loop: the body, row after row. *)
Fixpoint row_loop `{Platform} (body : row -> M unit) (rows : list row) : M unit :=
  match rows with
  | [] => ret tt
  | r :: rest => body r ;;; row_loop body rest
  end.

(** What a run leaves: the table it found, followed by record lines for
    identifiers that were not in it. *)
Definition run_extends `{Platform} (columns : list string) (body : list line) (w w' : World) : Prop :=
  exists new,
    out_file w' = Some (HeaderLine columns :: body ++ new)
    /\ Forall (fun ln => exists news_id, line_id ln = Some news_id
                                      /\ news_id ∉ table_ids body) new
    /\ (forall news_id, news_id ∈ processed_ids w' ->
          news_id ∈ processed_ids w \/ news_id ∈ table_ids body \/ news_id ∈ body_ids new).

(** A service that fails every call. *)
Definition service_always_fails `{Platform} : Prop :=
  forall req s, exists e s', chat_create req s = (inl e, s').



(** Inputs for the test doubles. *)
Definition demo_row (news_id content : string) : row :=
  [ ("NewsID", PStr news_id); ("NewsSource", PStr "Dunya");
    ("EventDate", PStr "2010-06-01"); ("Source", PStr "headline");
    ("Content", PStr content) ].

Definition demo_env (rows : list row) : Env :=
  mkEnv (Some "sk-test") (Some (inr rows)).

(** The record CAMEO-3.py writes for the event [ev] (a dict) of a row. *)
Definition cameo3_event_fields (r : row) (news_id summary : string)
    (ev : list (string * pyval)) : list (string * pyval) :=
  [ ("NewsID", PStr news_id);
    ("Source", row_get r "NewsSource" (PStr ""));
    ("Date", row_get r "EventDate" (PStr ""));
    ("Title", row_get r "Source" (PStr ""));
    ("summary", PStr summary);
    ("event_order", default (PInt 1) (lookup_key "event_order" ev));
    ("source_actor", default (PStr "") (lookup_key "source_actor" ev));
    ("target_actor", default (PStr "") (lookup_key "target_actor" ev));
    ("cameo_top_level", default (PStr "") (lookup_key "cameo_top_level" ev));
    ("cameo_code", default (PStr "") (lookup_key "cameo_code" ev));
    ("event_description", default (PStr "") (lookup_key "event_description" ev));
    ("evidence", default (PStr "") (lookup_key "evidence" ev));
    ("confidence", default (PStr "") (lookup_key "confidence" ev)) ].

(** The service answers the event request for [text] with a JSON object
    whose [events] satisfy [P], whatever its state. *)
Definition events_answer `{Platform} (text : string) (P : pyval -> Prop) : Prop :=
  forall s, exists payload s' d,
    chat_create (Request TaskCameoEvents [text]) s = (inr (Some payload), s')
    /\ json_loads payload = inr (PDict d)
    /\ P (default (PList []) (lookup_key "events" d)).

(** A table as the sink leaves it: absent, or the header line of [columns]
    followed by record lines only. *)
Definition sink_table (columns : list string) (f : option (list line)) : Prop :=
  match f with
  | None => True
  | Some lines =>
      exists body, lines = HeaderLine columns :: body
                   /\ Forall (fun ln => is_header ln = false) body
  end.

(** The states the output table of CAMEO-3.py goes through: absent at first,
    then changed by runs of the script (complete or terminated at any point)
    and by single calls of its two writers. *)
Inductive cameo3_history `{Platform} : option (list line) -> Prop :=
| cameo3_absent : cameo3_history None
| cameo3_after_run env (w : World) res w' :
    cameo3_history (out_file w) ->
    Cameo3.script env w = (res, w') ->
    cameo3_history (out_file w')
| cameo3_after_ensure (w : World) res w' :
    cameo3_history (out_file w) ->
    Cameo3.ensure_output_csv w = (res, w') ->
    cameo3_history (out_file w')
| cameo3_after_append record (w : World) res w' :
    cameo3_history (out_file w) ->
    Cameo3.append_record record w = (res, w') ->
    cameo3_history (out_file w').

(** The same for Societal_sentiment.py, whose appends are part of [main]. *)
Inductive societal_history `{Platform} : option (list line) -> Prop :=
| societal_absent : societal_history None
| societal_after_run env (w : World) res w' :
    societal_history (out_file w) ->
    Societal.script env w = (res, w') ->
    societal_history (out_file w').

(** The identifiers of a file, when it has any, come back as written. *)
Definition reads_back `{Platform} (f : option (list line)) : Prop :=
  match f with
  | Some (_ :: body) => ids_read_back body
  | _ => True
  end.

(** What the set holds when a run of a fresh process stops, at its end or
    before: identifiers that are written in the table. *)
Definition set_in_table `{Platform} (columns : list string) (w : World) : Prop :=
  processed_ids w = ∅
  \/ exists body, out_file w = Some (HeaderLine columns :: body)
                  /\ processed_ids w ⊆ written_ids body.

(** ** Vocabulary of the further statements

    The retry schedule. *)

(** The sleep the wrapper takes after a failed attempt. *)
Definition backoff (attempt : Z) : Q := inject_Z (RETRY_BACKOFF_SECONDS * attempt).

(** The operation [f], invoked by the wrapper from attempt number [attempt]
    on with the service in state [s], raises [errors] one after the other,
    the wrapper sleeping in between, and then returns [v] with the service
    in state [s']. *)
Inductive returns_after `{Platform} {A} (f : Remote -> (exn + A) * Remote)
  : Z -> Remote -> list exn -> A -> Remote -> Prop :=
| returns_now attempt s v s' :
    f s = (inr v, s') ->
    returns_after f attempt s [] v s'
| returns_later attempt s e s1 errors v s' :
    f s = (inl e, s1) ->
    returns_after f (attempt + 1) (elapse (backoff attempt) s1) errors v s' ->
    returns_after f attempt s (e :: errors) v s'.

(** The events of a wrapper run whose attempts from number [attempt] on
    raised [errors] before one returned. *)
Fixpoint retry_trace (attempt : Z) (errors : list exn) : list event :=
  match errors with
  | [] => [EvCall None]
  | e :: rest =>
      EvCall (Some e) :: EvSleep (backoff attempt) :: retry_trace (attempt + 1) rest
  end.

(** Counting invocations. *)

(** A computation that only adds to the trace, and at most [n] invocations. *)
Definition calls_within `{Platform} {A} (n : nat) (m : M A) : Prop :=
  forall w r w', m w = (r, w') ->
    exists evs, trace w' = trace w ++ evs /\ (count_calls evs <= n)%nat.

(** The rows of the input table, when the file is there and readable. *)
Definition input_rows (env : Env) : list row :=
  match data_csv env with
  | Some (inr rows) => rows
  | _ => []
  end.

(** A JSON value that is not an object. *)
Definition not_a_dict (v : pyval) : Prop := forall d, v <> PDict d.

(** Exhausted requests and the records of events. *)

(** The events of one request whose [MAX_RETRIES] attempts raised [e1] to
    [e4]. *)
Definition exhausted_request (e1 e2 e3 e4 : exn) : list event :=
  [ EvCall (Some e1); EvSleep (backoff 1);
    EvCall (Some e2); EvSleep (backoff 2);
    EvCall (Some e3); EvSleep (backoff 3);
    EvCall (Some e4) ].

(** What [get_cameo_events_with_llm] returns for the exception [e]. *)
Definition events_error (e : exn) : pyval :=
  PDict [("events", PList []); ("error", PStr (exn_msg e))].

(** The exception of [json.loads(None)]. *)
Definition loads_None_error : exn :=
  Exn "TypeError" "the JSON object must be str, bytes or bytearray, not NoneType".

(** Seconds of sleep in a trace. *)
Definition total_sleep (evs : list event) : Q := fold_right Qplus 0%Q (sleeps_of evs).

(** The record lines CAMEO-3.py writes for events that are objects. *)
Definition cameo3_event_lines (r : row) (news_id summary : string)
    (events : list (list (string * pyval))) : list line :=
  map (fun ev => RecordLine (select_columns Cameo3.OUTPUT_COLUMNS
                               (cameo3_event_fields r news_id summary ev))) events.

(** The sentiment record. *)

(** The keys of the dict [get_societal_sentiment_with_llm] returns. *)
Definition SENTIMENT_KEYS : list string :=
  [ "sentiment_score"; "sentiment_label"; "acting_group"; "description"; "evidence" ].

(** The text [parse_json_lenient] hands to the decoder: stripped, with the
    code fences taken out. *)
Definition unfenced `{Platform} (s : string) : string :=
  py_replace (py_replace (py_strip s) "```json" "") "```" "".

(** The dict the sentiment function builds from the decoded object [d] and
    the score [score]. *)
Definition sentiment_fields (d : list (string * pyval)) (score : float)
  : list (string * pyval) :=
  [ ("sentiment_score", PFloat score);
    ("sentiment_label", default (PStr "None Detected") (lookup_key "sentiment_label" d));
    ("acting_group", default (PStr "") (lookup_key "acting_group" d));
    ("description", default (PStr "") (lookup_key "description" d));
    ("evidence", default (PStr "") (lookup_key "evidence" d)) ].

(** What a run adds to its file. *)

(** A record line of [n] cells. *)
Definition record_of_width (n : nat) (ln : line) : Prop :=
  exists cells, ln = RecordLine cells /\ length cells = n.

(** The lines of a table as the scripts write it: records with one cell
    per column.  What [read_csv] says of other lines (pandas skips a line
    without text and rejects a line with too many cells) is not relied
    on. *)
Definition written_table (columns : list string) (body : list line) : Prop :=
  Forall (record_of_width (length columns)) body.

(** A file that is absent, or the header of [columns] followed by such
    lines. *)
Definition written_file (columns : list string) (f : option (list line)) : Prop :=
  match f with
  | None => True
  | Some lines => exists body, lines = HeaderLine columns :: body /\ written_table columns body
  end.

(** A computation that, given a file that exists, leaves its lines in place
    and adds at its end only lines that satisfy [P]. *)
Definition appends `{Platform} {A} (P : line -> Prop) (m : M A) : Prop :=
  forall w lines r w', out_file w = Some lines -> m w = (r, w') ->
    exists new, out_file w' = Some (lines ++ new) /\ Forall P new.

(** The input without the rows that repeat the identifier of an earlier row
    the loop does not pass over for what it holds ([blank] tells the rows
    the loop passes over: no content, or no identifier). *)
Fixpoint first_occurrences (blank : row -> bool) (id_of : row -> string)
    (seen : gset string) (rows : list row) : list row :=
  match rows with
  | [] => []
  | r :: rest =>
      if bool_decide (id_of r ∈ seen) then first_occurrences blank id_of seen rest
      else r :: first_occurrences blank id_of
                  (if blank r then seen else {[id_of r]} ∪ seen) rest
  end.

Definition cameo3_blank `{Platform} (r : row) : bool :=
  String.eqb (Cameo3.row_content r) "".

Definition societal_blank `{Platform} (r : row) : bool :=
  String.eqb (Societal.row_news_id r) "" || String.eqb (Societal.row_content r) "".


(** The table of Filter-3.2.py. *)

(** The columns of the table Filter-3.2.py saves: the keys of its records. *)
Definition FILTER32_COLUMNS : list string :=
  [ "NewsID"; "Date"; "Title"; "Is_Relevant"; "Reason_English"; "Content_Snippet" ].






(** ** Filter_Hurriyet_first.py and Filter_Hurriyet_second.py

    The two scripts differ in the instruction text of their request and in
    the names of their files; the keyword filter and the loop of [main] are
    the same.  A string is its UTF-8 encoding, so that [k in t] on
    well-formed text is containment of the encodings.  The three tables
    [main] saves when the loop is over are what the loop returns here. *)

(** [text.lower()], Unicode lowercasing. *)
Class Text := { py_lower : string -> string }.

Module FilterHurriyet.

Definition CONTENT_COLUMN : string := "Content".
Definition NEWS_ID_COLUMN : string := "NewsID".

(** [k in t] *)
Fixpoint py_in (k t : string) : bool :=
  String.prefix k t
  || match t with
     | EmptyString => false
     | String _ rest => py_in k rest
     end.

Definition israel_en : list string :=
  [ "israel"; "israeli"; "jerusalem"; "gaza"; "idf"; "netanyahu"; "herzog"; "sharon" ].

Definition turkey_en : list string :=
  [ "turkey"; "turkish"; "türkiye"; "ankara"; "istanbul"; "erdogan"; "erdoğan"; "akp" ].

Definition israel_tr : list string :=
  [ "israil"; "israilli"; "kudüs"; "gazze" ].

Definition turkey_tr : list string :=
  [ "türkiye"; "türk"; "ankara"; "istanbul"; "erdoğan" ].

Definition israel_he : list string :=
  [ "ישראל"; "ישראלי"; "עזה"; "ירושלים"; ("צה" +:+ String "034"%char "ל") ].

Definition turkey_he : list string :=
  [ "טורקיה"; "טורקי"; "איסטנבול"; "ארדואן" ].

Definition political_terms : list string :=
  [ "prime minister"; "president"; "foreign minister"; "diplomat"; "cabinet";
    "government"; "minister"; "başbakan"; "cumhurbaşkanı"; "ראש הממשלה"; "שר החוץ";
    "משרד החוץ" ].

(** [any(k in t for k in keywords)] *)
Definition any_in (keywords : list string) (t : string) : bool :=
  existsb (fun k => py_in k t) keywords.

Definition cheap_keyword_filter `{Text} (text : string) : bool :=
  if String.eqb text "" then false
  else
    let t := py_lower text in
    let has_israel := any_in (israel_en ++ israel_tr ++ israel_he) t in
    let has_turkey := any_in (turkey_en ++ turkey_tr ++ turkey_he) t in
    let has_political := any_in political_terms t in
    if has_israel && has_turkey then true
    else if has_political && (has_israel || has_turkey) then true
    else false.

(** What the function returns is [result.get("relevant", False)]: the value
    the reply holds, whatever its type. *)
Definition llm_relevance_filter `{Platform} (text : string) : M pyval :=
  try_except
    (response <- remote_call (chat_create (Request TaskRelevance [text])) ;;
     result <- py_json_loads response ;;
     py_get result "relevant" (PBool false))
    (fun e => ret (PBool false)).

(** [{**d, k: v}]: the value of a key the dict has is replaced where it
    stands, a new key goes to the end. *)
Fixpoint dict_set (k : string) (v : pyval) (d : list (string * pyval))
  : list (string * pyval) :=
  match d with
  | [] => [(k, v)]
  | (k', v') :: rest =>
      if String.eqb k k' then (k, v) :: rest else (k', v') :: dict_set k v rest
  end.

(** ["yes" if b else "no"] *)
Definition yes_no (b : bool) : pyval := PStr (if b then "yes" else "no").

(** The three lists [main] fills. *)
Record Collected := mkCollected {
  keyword_filtered_rows : list row;
  final_filtered_rows : list row;
  debug_records : list (list (string * pyval));
}.

(** [for idx, row in df.iterrows(): ...] *)
Fixpoint main_loop `{Platform} `{Text} (df : list row) (acc : Collected) : M Collected :=
  match df with
  | [] => ret acc
  | r :: rest =>
      let content := py_strip (py_str (row_get r CONTENT_COLUMN (PStr ""))) in
      let keyword_pass := cheap_keyword_filter content in
      llm_pass <-
        (if keyword_pass then llm_relevance_filter content else ret (PBool false)) ;;
      let debug :=
        dict_set "llm_pass" (yes_no (truthy llm_pass))
          (dict_set "keyword_pass" (yes_no keyword_pass) r) in
      main_loop rest
        (mkCollected
           (if keyword_pass then keyword_filtered_rows acc ++ [r]
            else keyword_filtered_rows acc)
           (if keyword_pass && truthy llm_pass then final_filtered_rows acc ++ [r]
            else final_filtered_rows acc)
           (debug_records acc ++ [debug]))
  end.

End FilterHurriyet.

(** The content of a row as the loop of the Hurriyet filters reads it. *)
Definition hurriyet_content `{Platform} (r : row) : string :=
  py_strip (py_str (row_get r FilterHurriyet.CONTENT_COLUMN (PStr ""))).

(** The rows the keyword filter lets through. *)
Definition keyword_passes `{Platform} `{Text} (df : list row) : list row :=
  List.filter (fun r => FilterHurriyet.cheap_keyword_filter (hurriyet_content r)) df.

(** The keywords that name a country. *)
Definition country_keywords : list string :=
  FilterHurriyet.israel_en ++ FilterHurriyet.israel_tr ++ FilterHurriyet.israel_he
  ++ FilterHurriyet.turkey_en ++ FilterHurriyet.turkey_tr ++ FilterHurriyet.turkey_he.

(** ** CAMEOcode_Hurriyet_1.py

    The script is CAMEO-3.py with two more requests: the topics of one
    article, and at the end of the run the clustering of all topics the
    table holds.  Its retry wrapper is the one above.  The report of the
    clusters goes to a file of its own, which is not part of the world:
    writing it is an effect at which the process can be terminated. *)

(** The two requests, as the client of the script sends them: the
    instruction text is fixed, the argument is the text placed in it. *)
Class TopicService `{Platform} := {
  topics_create : string -> Remote -> (exn + option string) * Remote;
  cluster_create : string -> Remote -> (exn + option string) * Remote;
}.

Module CameoHurriyet.

(** [run_chat_completion(messages, **kwargs)] for the request [create] *)
Definition run_chat_completion `{Platform}
    (create : Remote -> (exn + option string) * Remote) : M (option string) :=
  let api_call := remote_call create in
  o <- call_with_retries api_call MAX_RETRIES ;;
  ret (match o with Some content => content | None => None end).

Definition get_topics_for_single_doc_llm `{TopicService} (text_content : string) : M pyval :=
  try_except
    (out <- run_chat_completion (topics_create text_content) ;;
     decoded <- py_json_loads out ;;
     py_get decoded "topics" (PList []))
    (fun exc => ret (PList [PStr ("Error: " +:+ exn_msg exc)])).

(** [not str(t).startswith("Error")] *)
Definition usable_topic `{Platform} (t : pyval) : bool :=
  negb (String.prefix "Error" (py_str t)).

(** [[t for lst in all_topics_list for t in lst if not ...]] *)
Fixpoint flatten_topics `{Platform} (all_topics_list : list pyval) : M (list pyval) :=
  match all_topics_list with
  | [] => ret []
  | lst :: rest =>
      items <- py_iter lst ;;
      more <- flatten_topics rest ;;
      ret (List.filter usable_topic items ++ more)
  end.

(** [sep.join(items)] from item number [index] on: every item must be a
    string. *)
Fixpoint py_join (sep : string) (index : nat) (items : list pyval) {struct items}
  : exn + string :=
  match items with
  | [] => inr ""
  | item :: rest =>
      match item with
      | PStr s =>
          match py_join sep (S index) rest with
          | inl e => inl e
          | inr joined =>
              inr (match rest with
                   | [] => s
                   | _ :: _ => s +:+ sep +:+ joined
                   end)
          end
      | other =>
          inl (Exn "TypeError"
                 ("sequence item " +:+ NilZero.string_of_uint (Nat.to_uint index)
                  +:+ ": expected str instance, " +:+ py_type_name other +:+ " found"))
      end
  end.

Definition cluster_topics_with_llm `{TopicService} (all_topics_list : list pyval)
  : M string :=
  flat <- flatten_topics all_topics_list ;;
  match flat with
  | [] => ret "No topics available."
  | _ :: _ =>
      joined <- Societal.lift_outcome (py_join ", " 0 flat) ;;
      try_except
        (out <- run_chat_completion (cluster_create joined) ;;
         match out with
         | Some s => ret (py_strip s)
         | None => raise (AttributeError PNone "strip")
         end)
        (fun exc => ret ("Error: " +:+ exn_msg exc))
  end.

(** One cell of the column [document_topics_json], decoded: the bare
    [except] turns every failure into the empty list. *)
Definition decode_topics `{Platform} (item : pyval) : pyval :=
  match (if Filter32.is_missing item then PStr "[]" else item) with
  | PStr s =>
      match json_loads s with
      | inr v => v
      | inl _ => PList []
      end
  | _ => PList []
  end.

(** Without the column, [df.get] returns its default, a list, which has no
    [fillna]. *)
Definition topics_from_results `{Platform} (df : DataFrame) : M (list pyval) :=
  match df_column df "document_topics_json" with
  | None => raise (AttributeError (PList []) "fillna")
  | Some col => ret (map decode_topics col)
  end.

Definition CONTENT_COLUMN : string := "Content".
Definition NEWS_ID_COLUMN : string := "NewsID".

Definition OUTPUT_COLUMNS : list string :=
  [ "NewsID"; "Source"; "Date"; "Title"; "summary";
    "source_actor"; "target_actor"; "cameo_top_level"; "cameo_code";
    "event_description"; "evidence"; "confidence";
    "document_topics"; "document_topics_json" ].

Definition get_cameo_events_with_llm `{Platform} (text_content : string) : M pyval :=
  try_except
    (content <- run_chat_completion
                  (chat_create (Request TaskCameoEvents [text_content])) ;;
     py_json_loads content)
    (fun exc => ret (PDict [("events", PList []); ("error", PStr (exn_msg exc))])).

Definition get_summary_with_llm `{Platform} (text_content : string) : M string :=
  try_except
    (out <- run_chat_completion (chat_create (Request TaskSummary [text_content])) ;;
     match out with
     | Some s => ret (py_strip s)
     | None => raise (AttributeError PNone "strip")
     end)
    (fun exc => ret ("Error: " +:+ exn_msg exc)).

Definition ensure_output_csv `{Platform} : M unit :=
  fun w =>
    match out_file w with
    | None => to_csv_write OUTPUT_COLUMNS [] w
    | Some _ => (Ret tt, w)
    end.

Definition load_existing_results `{Platform} : M DataFrame :=
  fun w =>
    match out_file w with
    | Some lines => read_csv lines w
    | None => (Ret (mkDataFrame OUTPUT_COLUMNS []), w)
    end.

Definition append_record `{Platform} (record : list (string * pyval)) : M unit :=
  fun w =>
    let header := negb (bool_decide (is_Some (out_file w))) in
    to_csv_append OUTPUT_COLUMNS header record w.

(** [set(df_existing.get("NewsID", []).astype(str))] *)
Definition existing_ids `{Platform} (df_existing : DataFrame) : M (gset string) :=
  match df_column df_existing "NewsID" with
  | Some values => ret (list_to_set (map py_str values))
  | None => raise (AttributeError (PList []) "astype")
  end.

Definition row_content `{Platform} (r : row) : string :=
  py_strip (py_str (row_get r CONTENT_COLUMN (PStr ""))).

Definition row_news_id `{Platform} (r : row) : string :=
  py_strip (py_str (row_get r NEWS_ID_COLUMN (PStr ""))).

(** [", ".join(doc_topics)]: the topics are what the reply holds under
    [topics], of any type. *)
Definition join_topics (doc_topics : pyval) : exn + string :=
  match doc_topics with
  | PList items => py_join ", " 0 items
  | PDict d => py_join ", " 0 (map (fun kv => PStr (fst kv)) d)
  | PStr s => py_join ", " 0 (map PStr (py_chars s))
  | _ => inl (Exn "TypeError" "can only join an iterable")
  end.

(** The record of a row without events. *)
Definition blank_record `{Platform} (r : row) (news_id summary : string)
    (doc_topics : pyval) : M (list (string * pyval)) :=
  document_topics <- Societal.lift_outcome (join_topics doc_topics) ;;
  ret [ ("NewsID", PStr news_id);
        ("Source", row_get r "NewsSource" (PStr ""));
        ("Date", row_get r "EventDate" (PStr ""));
        ("Title", row_get r "Source" (PStr ""));
        ("summary", PStr summary);
        ("source_actor", PStr "");
        ("target_actor", PStr "");
        ("cameo_top_level", PStr "");
        ("cameo_code", PStr "");
        ("event_description", PStr "");
        ("evidence", PStr "");
        ("confidence", PStr "");
        ("document_topics", PStr document_topics);
        ("document_topics_json", PStr (json_dumps doc_topics)) ].

(** The record of one event [ev] of a row. *)
Definition event_record `{Platform} (r : row) (news_id summary : string)
    (doc_topics ev : pyval) : M (list (string * pyval)) :=
  source_actor <- py_get ev "source_actor" (PStr "") ;;
  target_actor <- py_get ev "target_actor" (PStr "") ;;
  cameo_top_level <- py_get ev "cameo_top_level" (PStr "") ;;
  cameo_code <- py_get ev "cameo_code" (PStr "") ;;
  event_description <- py_get ev "event_description" (PStr "") ;;
  evidence <- py_get ev "evidence" (PStr "") ;;
  confidence <- py_get ev "confidence" (PStr "") ;;
  document_topics <- Societal.lift_outcome (join_topics doc_topics) ;;
  ret [ ("NewsID", PStr news_id);
        ("Source", row_get r "NewsSource" (PStr ""));
        ("Date", row_get r "EventDate" (PStr ""));
        ("Title", row_get r "Source" (PStr ""));
        ("summary", PStr summary);
        ("source_actor", source_actor);
        ("target_actor", target_actor);
        ("cameo_top_level", cameo_top_level);
        ("cameo_code", cameo_code);
        ("event_description", event_description);
        ("evidence", evidence);
        ("confidence", confidence);
        ("document_topics", PStr document_topics);
        ("document_topics_json", PStr (json_dumps doc_topics)) ].

(** [for ev in events: ... append_record(record)] *)
Fixpoint write_events `{Platform} (r : row) (news_id summary : string)
    (doc_topics : pyval) (events : list pyval) : M unit :=
  match events with
  | [] => ret tt
  | ev :: rest =>
      record <- event_record r news_id summary doc_topics ev ;;
      append_record record ;;;
      write_events r news_id summary doc_topics rest
  end.

(** The body of the row loop from the first call on.  The list
    [all_topics] the loop appends to is replaced when the loop is over. *)
Definition process_row `{TopicService} (r : row) (content news_id : string) : M unit :=
  cameo_data <- get_cameo_events_with_llm content ;;
  summary <- get_summary_with_llm content ;;
  doc_topics <- get_topics_for_single_doc_llm content ;;
  events <- py_get cameo_data "events" (PList []) ;;
  (if negb (truthy events)
   then (record <- blank_record r news_id summary doc_topics ;; append_record record)
   else (items <- py_iter events ;; write_events r news_id summary doc_topics items)) ;;;
  add_processed_id news_id.

(** One iteration of [for idx, row in df_input.iterrows()]. *)
Definition loop_body `{TopicService} (r : row) : M unit :=
  let content := row_content r in
  let news_id := row_news_id r in
  if String.eqb content "" then ret tt
  else
    fun w =>
      if bool_decide (news_id ∈ processed_ids w) then (Ret tt, w)
      else process_row r content news_id w.

Fixpoint main_loop `{TopicService} (df_input : list row) : M unit :=
  match df_input with
  | [] => ret tt
  | r :: rest => loop_body r ;;; main_loop rest
  end.

(** [pd.read_csv(OUTPUT_CSV_PATH)] when the loop is over. *)
Definition read_output `{Platform} : M DataFrame :=
  fun w =>
    match out_file w with
    | Some lines => read_csv lines w
    | None => (Raise (Exn "FileNotFoundError" "CAMEO_hurriyet_Eng_1.csv"), w)
    end.

(** [TOPICS_REPORT_PATH.write_text(clusters)] *)
Definition write_text `{Platform} (clusters : string) : M unit := tick.

(** What [main] does when the loop is over. *)
Definition report `{TopicService} : M unit :=
  final_df <- read_output ;;
  all_topics <- topics_from_results final_df ;;
  clusters <- cluster_topics_with_llm all_topics ;;
  write_text clusters.

Definition main `{TopicService} (env : Env) : M unit :=
  match data_csv env with
  | None =>
      raise (Exn "FileNotFoundError"
               ("Missing CSV: C:\Users\Soos\PycharmProjects\CAMEO\First_filter\"
                +:+ "hurriyet_Eng_filtered_relevant_articles_3.csv"))
  | Some (inl e) => raise e
  | Some (inr df_input) =>
      ensure_output_csv ;;;
      df_existing <- load_existing_results ;;
      ids <- existing_ids df_existing ;;
      set_processed_ids ids ;;;
      all_topics <- topics_from_results df_existing ;;
      main_loop df_input ;;;
      report
  end.

(** The script from its first line: the endpoint and the key are checked
    when the module is loaded. *)
Definition script `{TopicService} (endpoint key : option string) (env : Env) : M unit :=
  match endpoint, key with
  | Some (String _ _), Some (String _ _) => main env
  | _, _ => raise (Exn "ValueError" "Azure OpenAI endpoint/key missing.")
  end.

End CameoHurriyet.

(** A list of topics none of which the clustering uses: its items are
    error markers. *)
Definition only_error_markers `{Platform} (lst : pyval) : Prop :=
  exists items, lst = PList items
    /\ Forall (fun t => CameoHurriyet.usable_topic t = false) items.

(** The topics request fails at every call. *)
Definition topics_always_fail `{TopicService} : Prop :=
  forall text s, exists e s', topics_create text s = (inl e, s').

(** ** Filter-3.1.py and Filter-3.3.py

    Filter-3.2.py with another instruction text and other column names. *)

Module Filter31.

Definition check_simple_relevance `{Platform} (title content : string) : M (pyval * pyval) :=
  try_except
    (let user_inputs := [title; Societal.py_prefix 15000 content] in
     response <- remote_call (chat_create (Request TaskRelevance user_inputs)) ;;
     result <- py_json_loads response ;;
     is_relevant <- py_get result "is_relevant" (PBool false) ;;
     reason <- py_get result "reason" (PStr "No reason provided") ;;
     ret (is_relevant, reason))
    (fun e => ret (PBool false, PStr ("LLM Error: " +:+ exn_msg e))).

Fixpoint main_loop `{Platform} (index : Z) (df : list row)
    (results : list (list (string * pyval))) : M (list (list (string * pyval))) :=
  match df with
  | [] => ret results
  | r :: rest =>
      let title := py_str (row_get r "Title" (PStr "")) in
      let content := py_str (row_get r "Content" (PStr "")) in
      verdict <- check_simple_relevance title content ;;
      let record :=
        [ ("Title_ID", row_get r "Title_ID" (PInt index));
          ("Date", row_get r "Date" (PStr ""));
          ("Title", PStr title);
          ("Is_Relevant", fst verdict);
          ("Reason", snd verdict);
          ("Snippet", PStr (Societal.py_prefix 100 content)) ] in
      main_loop (index + 1) rest (results ++ [record])
  end.

(** [main], with the report as in Filter-3.2.py. *)
Definition main `{Platform} (env : Env) : M unit :=
  match data_csv env with
  | None => ret tt
  | Some (inl e) => raise e
  | Some (inr df) =>
      let df := map (fun r => Filter32.strip_columns (Filter32.fillna r)) df in
      results <- main_loop 0 df [] ;;
      let columns := Filter32.result_columns results in
      to_csv_write columns (map (select_columns columns) results) ;;;
      match results with
      | [] => raise (Exn "KeyError" "'Is_Relevant'")
      | _ :: _ =>
          Societal.lift_outcome (pd_sum (Filter32.verdict_column results)) ;;; ret tt
      end
  end.

Definition script `{Platform} (env : Env) : M unit :=
  match OPENAI_API_KEY env with
  | None | Some "" =>
      raise (Exn "ValueError" "Please set your OPENAI_API_KEY environment variable.")
  | Some _ => main env
  end.

End Filter31.

Module Filter33.

Definition analyze_broad_relevance `{Platform} (title content : string) : M (pyval * pyval) :=
  try_except
    (let user_inputs := [title; Societal.py_prefix 15000 content] in
     response <- remote_call (chat_create (Request TaskRelevance user_inputs)) ;;
     result <- py_json_loads response ;;
     is_relevant <- py_get result "is_relevant" (PBool false) ;;
     reason <- py_get result "reason" (PStr "No reason provided") ;;
     ret (is_relevant, reason))
    (fun e => ret (PBool false, PStr ("LLM Error: " +:+ exn_msg e))).

Fixpoint main_loop `{Platform} (index : Z) (df : list row)
    (results : list (list (string * pyval))) : M (list (list (string * pyval))) :=
  match df with
  | [] => ret results
  | r :: rest =>
      let title := py_str (row_get r "Title" (PStr "")) in
      let content := py_str (row_get r "Content" (PStr "")) in
      verdict <- analyze_broad_relevance title content ;;
      let record :=
        [ ("NewsID", row_get r "NewsID" (PInt index));
          ("Date", row_get r "Date" (PStr ""));
          ("Title", PStr title);
          ("Is_Relevant", fst verdict);
          ("Reason", snd verdict);
          ("Content_Snippet", PStr (Societal.py_prefix 150 content)) ] in
      main_loop (index + 1) rest (results ++ [record])
  end.

(** [main], with the report as in Filter-3.2.py. *)
Definition main `{Platform} (env : Env) : M unit :=
  match data_csv env with
  | None => ret tt
  | Some (inl e) => raise e
  | Some (inr df) =>
      let df := map (fun r => Filter32.strip_columns (Filter32.fillna r)) df in
      results <- main_loop 0 df [] ;;
      let columns := Filter32.result_columns results in
      to_csv_write columns (map (select_columns columns) results) ;;;
      match results with
      | [] => raise (Exn "KeyError" "'Is_Relevant'")
      | _ :: _ =>
          Societal.lift_outcome (pd_sum (Filter32.verdict_column results)) ;;; ret tt
      end
  end.

Definition script `{Platform} (env : Env) : M unit :=
  match OPENAI_API_KEY env with
  | None | Some "" =>
      raise (Exn "ValueError" "Please set your OPENAI_API_KEY environment variable.")
  | Some _ => main env
  end.

End Filter33.








(** Reruns. *)

(** A run that changes nothing but the set of the process: no call, no
    sleep, no write, and the kill budget untouched. *)
Definition silent_run `{Platform} (w w' : World) : Prop :=
  trace w' = trace w /\ remote w' = remote w /\ out_file w' = out_file w
  /\ kill w' = kill w.

(** ** More test doubles

    A service that answers by the request with replies of several shapes (a
    list where an object is expected, events that are not all objects, a
    sentiment object, a verdict), lowercasing of ASCII text, and a topics
    service that fails every call. *)

Module Replies.

(** The decoder of [Demo], with more payloads known by name. *)
Definition loads (s : string) : exn + pyval :=
  if String.eqb s "a-list" then inr (PList [])
  else if String.eqb s "mixed-events"
  then inr (PDict [("events", PList [ PDict Demo.first_event; PStr "and more";
                                      PDict Demo.second_event ])])
  else if String.eqb s "sentiment"
  then inr (PDict [ ("sentiment_score", PFloat 0.5%float);
                    ("sentiment_label", PStr "Positive") ])
  else if String.eqb s "relevant" then inr (PDict [("relevant", PBool true)])
  else Demo.loads s.

Definition platform (R : Type) (service : request -> R -> (exn + option string) * R)
  : Platform :=
  {| Remote := R;
     chat_create := service;
     elapse := fun _ s => s;
     py_repr := Demo.repr;
     py_strip := Demo.strip;
     json_loads := loads;
     py_replace := fun s _ _ => s;
     re_search_object := fun _ => None;
     py_float := Demo.to_float;
     pd_cell := Demo.read_cell;
     pd_sum := Demo.sum;
     json_dumps := Demo.repr |}.

(** Answers by the request: a list for the events of the text [a list],
    three events the second of which is a string for any other text, a
    summary of every text, one sentiment object and one verdict. *)
Definition by_text : Platform :=
  platform unit
    (fun req s =>
       match req_task req, req_inputs req with
       | TaskCameoEvents, [text] =>
           if String.eqb text "a list" then (inr (Some "a-list"), s)
           else (inr (Some "mixed-events"), s)
       | TaskSummary, [text] => (inr (Some (" about " +:+ text +:+ " ")), s)
       | TaskSentiment, [text] => (inr (Some "sentiment"), s)
       | TaskRelevance, [text] => (inr (Some "relevant"), s)
       | _, _ => (inl Demo.connection_error, s)
       end).

Definition lower_ascii (c : ascii) : ascii :=
  let n := nat_of_ascii c in
  if ((65 <=? n)%nat && (n <=? 90)%nat)%bool then ascii_of_nat (n + 32) else c.

Fixpoint lower (s : string) : string :=
  match s with
  | EmptyString => EmptyString
  | String c rest => String (lower_ascii c) (lower rest)
  end.

(** Lowercasing of ASCII letters; other bytes stay. *)
Definition ascii_text : Text := {| py_lower := lower |}.

(** The two topic requests fail at every call. *)
Definition no_topics : @TopicService Demo.failing :=
  {| topics_create := fun _ s => (inl Demo.connection_error, s);
     cluster_create := fun _ s => (inl Demo.connection_error, s) |}.


(** A row of the input of the filter scripts. *)
Definition article (news_id title content : string) : row :=
  [ ("NewsID", PStr news_id); ("Date", PStr "2010-06-01");
    ("Title", PStr title); ("Content", PStr content) ].

End Replies.

(** * Theorems *)

Local Open Scope Z_scope.

(** ** The retry wrapper *)

Ltac frame_done :=
  simpl; repeat split; auto; try lia; try congruence.

Section Retry.
Context `{Platform}.

Lemma tick_alive (w : World) : kill w = None -> tick w = (Ret tt, w).
Proof. intros Hk. unfold tick. rewrite Hk. reflexivity. Qed.

Lemma tick_cases (w : World) r w' :
  tick w = (r, w') ->
  trace w' = trace w /\ remote w' = remote w /\ out_file w' = out_file w
  /\ processed_ids w' = processed_ids w
  /\ ((r = Ret tt /\ (kill w = None -> kill w' = None)) \/ (r = Killed /\ w' = w)).
Proof.
  unfold tick. destruct (kill w) as [[|n]|] eqn:Hk; intros [= <- <-]; simpl;
    repeat split; auto;
    first [ left; split; [reflexivity | congruence] | right; split; reflexivity ].
Qed.

Lemma remote_call_alive {A} (f : Remote -> (exn + A) * Remote) (w : World) :
  kill w = None ->
  remote_call f w =
    match f (remote w) with
    | (inl e, s') =>
        (Raise e, mkWorld _ s' (trace w ++ [EvCall (Some e)]) (out_file w) (processed_ids w) None)
    | (inr a, s') =>
        (Ret a, mkWorld _ s' (trace w ++ [EvCall None]) (out_file w) (processed_ids w) None)
    end.
Proof.
  intros Hk. unfold remote_call, bind. rewrite (tick_alive w Hk).
  destruct (f (remote w)) as [[e|a] s']; rewrite Hk; reflexivity.
Qed.

Lemma sleep_alive (d : Q) (w : World) :
  kill w = None ->
  sleep d w =
    (Ret tt, mkWorld _ (elapse d (remote w)) (trace w ++ [EvSleep d]) (out_file w)
               (processed_ids w) None).
Proof.
  intros Hk. unfold sleep, bind. rewrite (tick_alive w Hk). rewrite Hk. reflexivity.
Qed.


Lemma sleep_never_raises (d : Q) (w : World) e w' : sleep d w = (Raise e, w') -> False.
Proof.
  unfold sleep, bind. destruct (tick w) as [rt wt] eqn:Ht.
  destruct (tick_cases _ _ _ Ht) as (_ & _ & _ & _ & [[-> _]|[-> _]]); discriminate.
Qed.

(** Effects of the wrapper around a remote operation, whatever the kill
    budget: only calls and sleeps are added, and at most one call per
    attempt. *)
Lemma retry_loop_frame {A} (f : Remote -> (exn + A) * Remote) m attempts :
  forall (w : World) r w',
  retry_loop (remote_call f) m attempts w = (r, w') ->
  exists evs, trace w' = trace w ++ evs
    /\ (count_calls evs <= length attempts)%nat
    /\ out_file w' = out_file w /\ processed_ids w' = processed_ids w
    /\ (kill w = None -> kill w' = None).
Proof.
  induction attempts as [|a rest IH]; intros w r w' Hrun; simpl in Hrun.
  - injection Hrun as <- <-. exists []. rewrite app_nil_r. frame_done.
  - unfold remote_call at 1, bind at 1 in Hrun.
    destruct (tick w) as [rt wt] eqn:Ht.
    destruct (tick_cases _ _ _ Ht) as (Htr & Hrem & Hof & Hpi & Hcase).
    destruct Hcase as [[-> Hk]|[-> ->]].
    2:{ injection Hrun as <- <-. exists []. rewrite app_nil_r. frame_done. }
    destruct (f (remote wt)) as [[e|v] s'] eqn:Hf.
    + destruct (a =? m).
      * injection Hrun as <- <-. exists [EvCall (Some e)]. simpl.
        rewrite Htr. frame_done.
      * unfold bind at 1 in Hrun.
        match type of Hrun with context [sleep ?d ?w0] =>
          destruct (sleep d w0) as [rs ws] eqn:Hs end.
        unfold sleep, bind in Hs.
        match type of Hs with context [tick ?w0] =>
          destruct (tick w0) as [rt2 wt2] eqn:Ht2 end.
        destruct (tick_cases _ _ _ Ht2) as (Htr2 & Hrem2 & Hof2 & Hpi2 & Hcase2).
        simpl in Htr2, Hrem2, Hof2, Hpi2.
        destruct Hcase2 as [[-> Hk2]|[-> ->]].
        2:{ injection Hs as <- <-. injection Hrun as <- <-. exists [EvCall (Some e)].
            simpl. rewrite Htr. frame_done. }
        injection Hs as <- <-.
        apply IH in Hrun. destruct Hrun as (evs & Etr & Hc & Eof & Epi & Ek).
        simpl in *. exists (EvCall (Some e) :: EvSleep (inject_Z (RETRY_BACKOFF_SECONDS * a)) :: evs).
        rewrite Etr, Htr2, Htr, Eof, Epi, Hof2, Hpi2, Hof, Hpi. rewrite <- !app_assoc. simpl.
        simpl. repeat split; auto. lia.
    + injection Hrun as <- <-. exists [EvCall None]. simpl.
      rewrite Htr. frame_done.
Qed.


Lemma new_events_app (w w' : World) evs :
  trace w' = trace w ++ evs -> new_events w w' = evs.
Proof. intros E. unfold new_events. rewrite E. apply drop_app_length. Qed.

(** The wrapper ends with the outcome of one invocation: the last one. *)
Lemma retry_loop_outcome {A} (fn : M A) m :
  forall n k (w : World) r w',
  k + Z.of_nat n = m + 1 -> (0 < n)%nat ->
  retry_loop fn m (range_from k n) w = (r, w') ->
  r = Killed
  \/ exists w0, (exists v, fn w0 = (Ret v, w') /\ r = Ret (Some v))
             \/ (exists e, fn w0 = (Raise e, w') /\ r = Raise e).
Proof.
  induction n as [|n IH]; intros k w r w' Hk Hn Hrun; [lia|].
  simpl in Hrun. destruct (fn w) as [[v|e|] w1] eqn:Hfn.
  - injection Hrun as <- <-. right. exists w. left. eauto.
  - destruct (k =? m) eqn:Hkm.
    + injection Hrun as <- <-. right. exists w. right. eauto.
    + apply Z.eqb_neq in Hkm. unfold bind at 1 in Hrun.
      destruct (sleep _ w1) as [[[]|e'|] w2] eqn:Hs.
      * apply IH in Hrun; [assumption|lia|lia].
      * exfalso. apply sleep_never_raises in Hs. exact Hs.
      * injection Hrun as <- <-. left. reflexivity.
  - injection Hrun as <- <-. left. reflexivity.
Qed.

(** Without a kill, the wrapper around a remote operation: what the trace
    shows about the run. *)
Lemma retry_loop_alive {A} (f : Remote -> (exn + A) * Remote) m :
  forall n k (w : World) r w',
  k + Z.of_nat n = m + 1 -> (0 < n)%nat -> kill w = None ->
  retry_loop (remote_call f) m (range_from k n) w = (r, w') ->
  exists evs, trace w' = trace w ++ evs /\ kill w' = None
    /\ ((exists v, r = Ret (Some v) /\ last evs = Some (EvCall None))
        \/ (exists e, r = Raise e /\ last evs = Some (EvCall (Some e))
                      /\ count_calls evs = n)).
Proof.
  induction n as [|n IH]; intros k w r w' Hk Hn Halive Hrun; [lia|].
  simpl in Hrun. rewrite (remote_call_alive f w Halive) in Hrun.
  destruct (f (remote w)) as [[e|v] s'].
  - destruct (k =? m) eqn:Hkm.
    + apply Z.eqb_eq in Hkm. injection Hrun as <- <-.
      exists [EvCall (Some e)]. simpl. repeat split; auto.
      right. exists e. repeat split; auto. f_equal. lia.
    + apply Z.eqb_neq in Hkm. unfold bind at 1 in Hrun.
      rewrite sleep_alive in Hrun by reflexivity. simpl in Hrun.
      apply IH in Hrun; [|lia|lia|reflexivity].
      destruct Hrun as (evs & Etr & Ek & Hcase). simpl in Etr.
      exists (EvCall (Some e) :: EvSleep (inject_Z (RETRY_BACKOFF_SECONDS * k)) :: evs).
      rewrite Etr, <- !app_assoc. simpl. repeat split; auto.
      assert (Hlast : forall x, last evs = Some x ->
                last (EvCall (Some e) :: EvSleep (inject_Z (RETRY_BACKOFF_SECONDS * k)) :: evs)
                = Some x).
      { intros x Hx. destruct evs; [discriminate|]. exact Hx. }
      destruct Hcase as [(v & -> & Hl)|(e' & -> & Hl & Hc)].
      * left. exists v. split; auto.
      * right. exists e'. repeat split; auto.
  - injection Hrun as <- <-. exists [EvCall None]. simpl. repeat split; auto.
    left. eauto.
Qed.


(** C2 (amended).  For every remote operation and every [max_attempts], the
    wrapper invokes the operation at most [max_attempts] times (not at all
    when [max_attempts < 1]); and when [max_attempts >= 1], the process is not
    terminated and every invocation raised, the wrapper made exactly
    [max_attempts] invocations and raises the exception of the last one. *)
Theorem call_with_retries_bounded_and_reraises {A} (f : Remote -> (exn + A) * Remote)
    (max_attempts : Z) (w : World) r w' :
  call_with_retries (remote_call f) max_attempts w = (r, w') ->
  (count_calls (new_events w w') <= Z.to_nat max_attempts)%nat
  /\ (1 <= max_attempts -> kill w = None -> every_call_raised (new_events w w') ->
      exists e, r = Raise e
        /\ last (new_events w w') = Some (EvCall (Some e))
        /\ count_calls (new_events w w') = Z.to_nat max_attempts).
Proof.
  intros Hrun. unfold call_with_retries, py_range in Hrun. split.
  - destruct (retry_loop_frame _ _ _ _ _ _ Hrun) as (evs & Etr & Hc & _).
    rewrite (new_events_app _ _ _ Etr).
    assert (Hlen : forall n k, length (range_from k n) = n).
    { induction n; intros k; simpl; auto. }
    rewrite Hlen in Hc. replace (max_attempts + 1 - 1) with max_attempts in Hc by lia.
    exact Hc.
  - intros Hm Halive Hall.
    apply retry_loop_alive in Hrun; [|lia|lia|assumption].
    destruct Hrun as (evs & Etr & _ & Hcase).
    rewrite (new_events_app _ _ _ Etr) in *.
    destruct Hcase as [(v & -> & Hl)|(e & -> & Hl & Hc)].
    + exfalso. apply (Hall (EvCall None)); [|reflexivity].
      apply last_Some in Hl. destruct Hl as (l' & ->). set_solver.
    + exists e. repeat split; auto. rewrite Hc. f_equal. lia.
Qed.

(** C3.  An operation that raises on its first two invocations and returns on
    the third: the wrapper (with any [max_attempts >= 3], so with the default
    of 4) sleeps exactly twice, [RETRY_BACKOFF_SECONDS * 1] then
    [RETRY_BACKOFF_SECONDS * 2] seconds, and returns the value of the third
    invocation. *)
Theorem call_with_retries_third_attempt {A} (f : Remote -> (exn + A) * Remote)
    (max_attempts : Z) (w : World) e1 s1 e2 s2 v s3 :
  3 <= max_attempts ->
  kill w = None ->
  f (remote w) = (inl e1, s1) ->
  f (elapse (inject_Z (RETRY_BACKOFF_SECONDS * 1)) s1) = (inl e2, s2) ->
  f (elapse (inject_Z (RETRY_BACKOFF_SECONDS * 2)) s2) = (inr v, s3) ->
  exists w',
    call_with_retries (remote_call f) max_attempts w = (Ret (Some v), w')
    /\ new_events w w'
       = [ EvCall (Some e1); EvSleep (inject_Z (RETRY_BACKOFF_SECONDS * 1));
           EvCall (Some e2); EvSleep (inject_Z (RETRY_BACKOFF_SECONDS * 2));
           EvCall None ]
    /\ sleeps_of (new_events w w')
       = [ inject_Z (RETRY_BACKOFF_SECONDS * 1); inject_Z (RETRY_BACKOFF_SECONDS * 2) ]
    /\ remote w' = s3.
Proof.
  intros Hm Halive H1 H2 H3.
  unfold call_with_retries, py_range.
  replace (Z.to_nat (max_attempts + 1 - 1)) with (S (S (S (Z.to_nat (max_attempts - 3)))))
    by lia.
  simpl range_from. change (1 + 1) with 2. cbn [retry_loop].
  rewrite (remote_call_alive f w Halive), H1.
  destruct (1 =? max_attempts) eqn:E1; [apply Z.eqb_eq in E1; lia|].
  unfold bind at 1. rewrite sleep_alive by reflexivity. cbn [retry_loop].
  rewrite remote_call_alive by reflexivity. cbn [remote]. rewrite H2.
  destruct (2 =? max_attempts) eqn:E2; [apply Z.eqb_eq in E2; lia|].
  unfold bind at 1. rewrite sleep_alive by reflexivity. cbn [retry_loop].
  rewrite remote_call_alive by reflexivity. cbn [remote]. rewrite H3.
  eexists. split; [reflexivity|].
  assert (Hnew : forall (w' : World) evs, trace w' = trace w ++ evs -> new_events w w' = evs)
    by (intros; eapply new_events_app; eassumption).
  rewrite (Hnew _ [ EvCall (Some e1); EvSleep (inject_Z (RETRY_BACKOFF_SECONDS * 1));
                    EvCall (Some e2); EvSleep (inject_Z (RETRY_BACKOFF_SECONDS * 2));
                    EvCall None ]).
  - repeat split; reflexivity.
  - cbn [trace]. rewrite <- !app_assoc. reflexivity.
Qed.

(** C10.  With [max_attempts < 1] the wrapper returns [None] and leaves the
    world as it was, whatever the operation is: it is not invoked and nothing
    is raised.  With [max_attempts >= 1] a run that is not terminated ends
    with what one invocation of the operation ended with: its value, or its
    exception. *)
Theorem call_with_retries_needs_one_attempt {A} (fn : M A) (max_attempts : Z) (w : World) :
  (max_attempts < 1 -> call_with_retries fn max_attempts w = (Ret None, w))
  /\ (1 <= max_attempts ->
      forall r w', call_with_retries fn max_attempts w = (r, w') ->
        r = Killed
        \/ exists w0, (exists v, fn w0 = (Ret v, w') /\ r = Ret (Some v))
                   \/ (exists e, fn w0 = (Raise e, w') /\ r = Raise e)).
Proof.
  split.
  - intros Hm. unfold call_with_retries, py_range.
    replace (Z.to_nat (max_attempts + 1 - 1)) with O by lia. reflexivity.
  - intros Hm r w' Hrun. unfold call_with_retries, py_range in Hrun.
    eapply retry_loop_outcome; [| |exact Hrun]; lia.
Qed.

End Retry.

Lemma call_with_retries_bounded_and_reraises_witness :
  let w := Demo.start Demo.failing tt None None in
  let run := @call_with_retries Demo.failing _ Demo.broken_call 2 w in
  fst run = Raise Demo.connection_error
  /\ (count_calls (new_events w (snd run)) <= Z.to_nat 2)%nat
  /\ last (new_events w (snd run)) = Some (EvCall (Some Demo.connection_error))
  /\ count_calls (new_events w (snd run)) = Z.to_nat 2.
Proof.
  intros w run.
  pose proof (@call_with_retries_bounded_and_reraises Demo.failing _ Demo.broken_op 2 w
                (fst run) (snd run) (surjective_pairing run)) as [Hbound Hraise].
  assert (Hall : every_call_raised (new_events w (snd run))).
  { intros ev Hev. vm_compute in Hev.
    repeat (apply elem_of_cons in Hev; destruct Hev as [->|Hev]; [discriminate|]).
    apply elem_of_nil in Hev. destruct Hev. }
  assert (Hm : 1 <= 2) by lia.
  specialize (Hraise Hm eq_refl Hall).
  destruct Hraise as (e & He & Hlast & Hcount).
  split; [reflexivity|]. split; [exact Hbound|].
  assert (e = Demo.connection_error) as ->
    by (vm_compute in He; injection He as <-; reflexivity).
  split; assumption.
Defined.

(** C2 as the claim states it fails at [max_attempts = 0]: the operation is
    never invoked, so every invocation raised, and the wrapper returns [None]
    where the claim has it raise.  (At [max_attempts = -1] the bound fails
    too: no invocation is more than -1.) *)
Lemma retry_contract_fails_without_attempts :
  (let w := Demo.start Demo.failing tt None None in
   @call_with_retries Demo.failing _ Demo.broken_call 0 w = (Ret None, w)
   /\ @call_with_retries Demo.failing _ Demo.broken_call (-1) w = (Ret None, w)
   /\ -1 < Z.of_nat (count_calls (new_events w w)))
  /\ ~ retry_contract_for_every_max_attempts.
Proof.
  split; [repeat split; reflexivity|]. intros Hclaim.
  destruct (Hclaim Demo.failing _ Demo.broken_op 0 (Demo.start Demo.failing tt None None)
              eq_refl _ _ eq_refl) as [_ Hraise].
  destruct Hraise as [e He]; [|discriminate].
  intros ev Hev. vm_compute in Hev. apply elem_of_nil in Hev. destruct Hev.
Qed.

Lemma call_with_retries_third_attempt_witness :
  let answers := [inl Demo.rate_limit_error; inl Demo.connection_error; inr (Some "ok"%string)] in
  let w := Demo.start Demo.scripted answers None None in
  exists w',
    @call_with_retries Demo.scripted _ Demo.replay_call MAX_RETRIES w
      = (Ret (Some (Some "ok"%string)), w')
    /\ new_events w w'
       = [ EvCall (Some Demo.rate_limit_error); EvSleep (inject_Z (RETRY_BACKOFF_SECONDS * 1));
           EvCall (Some Demo.connection_error); EvSleep (inject_Z (RETRY_BACKOFF_SECONDS * 2));
           EvCall None ]
    /\ sleeps_of (new_events w w')
       = [ inject_Z (RETRY_BACKOFF_SECONDS * 1); inject_Z (RETRY_BACKOFF_SECONDS * 2) ]
    /\ remote w' = [].
Proof.
  intros answers w.
  apply (@call_with_retries_third_attempt Demo.scripted _ Demo.replay_op MAX_RETRIES w
           Demo.rate_limit_error [inl Demo.connection_error; inr (Some "ok"%string)]
           Demo.connection_error [inr (Some "ok"%string)] (Some "ok"%string) []).
  - unfold MAX_RETRIES. lia.
  - reflexivity.
  - reflexivity.
  - reflexivity.
  - reflexivity.
Defined.

Lemma call_with_retries_needs_one_attempt_witness :
  let w := Demo.start Demo.failing tt None None in
  let run := @call_with_retries Demo.failing _ Demo.broken_call 1 w in
  @call_with_retries Demo.failing _ Demo.broken_call 0 w = (Ret None, w)
  /\ (fst run = Killed
      \/ exists w0,
           (exists v, Demo.broken_call w0 = (Ret v, snd run) /\ fst run = Ret (Some v))
           \/ (exists e, Demo.broken_call w0 = (Raise e, snd run) /\ fst run = Raise e)).
Proof.
  intros w run. split.
  - apply (proj1 (@call_with_retries_needs_one_attempt Demo.failing _
                    Demo.broken_call 0 w)). lia.
  - apply (proj2 (@call_with_retries_needs_one_attempt Demo.failing _
                    Demo.broken_call 1 w)); [lia|]. apply surjective_pairing.
Defined.

(** ** The classifier functions and the row loops *)

Section Frames.
Context `{Platform}.

Lemma frames_ret {A} (a : A) : frames (ret a).
Proof. intros w r w' [= <- <-]. intuition congruence. Qed.

Lemma frames_raise {A} (e : exn) : frames (@raise _ A e).
Proof. intros w r w' [= <- <-]. intuition congruence. Qed.

Lemma frames_bind {A B} (m : M A) (k : A -> M B) :
  frames m -> (forall a, frames (k a)) -> frames (bind m k).
Proof.
  intros Hm Hk w r w' Hrun. unfold bind in Hrun.
  destruct (m w) as [[a|e|] w1] eqn:Em; destruct (Hm _ _ _ Em) as (Hf & Hp & Ha).
  - destruct (Hk a _ _ _ Hrun) as (Hf' & Hp' & Ha').
    rewrite Hf', Hp'. intuition congruence.
  - injection Hrun as <- <-. intuition congruence.
  - injection Hrun as <- <-. intuition congruence.
Qed.

Lemma frames_try_except {A} (body : M A) (handler : exn -> M A) :
  frames body -> (forall e, frames (handler e)) -> frames (try_except body handler).
Proof.
  intros Hm Hk w r w' Hrun. unfold try_except in Hrun.
  destruct (body w) as [[a|e|] w1] eqn:Em; destruct (Hm _ _ _ Em) as (Hf & Hp & Ha).
  - injection Hrun as <- <-. intuition congruence.
  - destruct (Hk e _ _ _ Hrun) as (Hf' & Hp' & Ha').
    rewrite Hf', Hp'. intuition congruence.
  - injection Hrun as <- <-. intuition congruence.
Qed.

Lemma frames_tick : frames tick.
Proof.
  intros w r w' Ht. unfold tick in Ht.
  destruct (kill w) as [[|n]|] eqn:Hk; injection Ht as <- <-; simpl;
    intuition congruence.
Qed.

Lemma frames_remote_call {A} (f : Remote -> (exn + A) * Remote) : frames (remote_call f).
Proof.
  unfold remote_call. apply frames_bind; [apply frames_tick|]. intros _ w r w' Hrun.
  destruct (f (remote w)) as [[e|a] s']; injection Hrun as <- <-; simpl;
    intuition congruence.
Qed.

Lemma frames_sleep (d : Q) : frames (sleep d).
Proof.
  unfold sleep. apply frames_bind; [apply frames_tick|]. intros _ w r w' [= <- <-]; simpl.
  intuition congruence.
Qed.

Lemma frames_retry_loop {A} (fn : M A) m attempts :
  frames fn -> frames (retry_loop fn m attempts).
Proof.
  intros Hfn. induction attempts as [|a rest IH]; [apply frames_ret|].
  intros w r w' Hrun. simpl in Hrun.
  destruct (fn w) as [[v|e|] w1] eqn:Em; destruct (Hfn _ _ _ Em) as (Hf & Hp & Ha).
  - injection Hrun as <- <-. intuition congruence.
  - destruct (a =? m).
    + injection Hrun as <- <-. intuition congruence.
    + assert (Hk : frames (sleep (inject_Z (RETRY_BACKOFF_SECONDS * a)) ;;;
                           retry_loop fn m rest))
        by (apply frames_bind; [apply frames_sleep|intros _; exact IH]).
      destruct (Hk _ _ _ Hrun) as (Hf' & Hp' & Ha').
      rewrite Hf', Hp'. intuition congruence.
  - injection Hrun as <- <-. intuition congruence.
Qed.

Lemma frames_call_with_retries {A} (fn : M A) m :
  frames fn -> frames (call_with_retries fn m).
Proof. intros Hfn. apply frames_retry_loop, Hfn. Qed.

Lemma frames_py_get v k dflt : frames (py_get v k dflt).
Proof. destruct v; first [apply frames_ret | apply frames_raise]. Qed.

Lemma frames_py_iter v : frames (py_iter v).
Proof. destruct v; first [apply frames_ret | apply frames_raise]. Qed.

Lemma frames_py_json_loads c : frames (py_json_loads c).
Proof.
  destruct c as [s|]; simpl; [|apply frames_raise].
  destruct (json_loads s); [apply frames_raise | apply frames_ret].
Qed.

Lemma never_raises_ret {A} (a : A) : never_raises (ret a).
Proof. intros w e w'. discriminate. Qed.

Lemma never_raises_try_except {A} (body : M A) (handler : exn -> M A) :
  (forall e, never_raises (handler e)) -> never_raises (try_except body handler).
Proof.
  intros Hh w e w' Hrun. unfold try_except in Hrun.
  destruct (body w) as [[a|e0|] w1]; try discriminate.
  exact (Hh e0 _ _ _ Hrun).
Qed.

(** What the caller of such a computation sees when the process is not
    terminated. *)
Lemma client_returns {A} (m : M A) (w : World) :
  frames m -> never_raises m -> kill w = None ->
  exists v w', m w = (Ret v, w')
    /\ out_file w' = out_file w /\ processed_ids w' = processed_ids w /\ kill w' = None.
Proof.
  intros Hf Hn Hk. destruct (m w) as [[v|e|] w'] eqn:Em.
  - destruct (Hf _ _ _ Em) as (? & ? & Ha). exists v, w'. repeat split; auto. apply Ha, Hk.
  - destruct (Hn _ _ _ Em).
  - destruct (Hf _ _ _ Em) as (? & ? & Ha). destruct (Ha Hk) as [_ Hne]. congruence.
Qed.

End Frames.

Section Cameo3Client.
Context `{Platform}.

Lemma frames_run_chat_completion t text : frames (Cameo3.run_chat_completion t text).
Proof.
  unfold Cameo3.run_chat_completion. apply frames_bind.
  - apply frames_call_with_retries, frames_remote_call.
  - intros o. apply frames_ret.
Qed.

Lemma frames_get_cameo_events text : frames (Cameo3.get_cameo_events_with_llm text).
Proof.
  apply frames_try_except.
  - apply frames_bind; [apply frames_run_chat_completion|]. intros c. apply frames_py_json_loads.
  - intros e. apply frames_ret.
Qed.

Lemma frames_get_summary text : frames (Cameo3.get_summary_with_llm text).
Proof.
  apply frames_try_except.
  - apply frames_bind; [apply frames_run_chat_completion|].
    intros [s|]; [apply frames_ret | apply frames_raise].
  - intros e. apply frames_ret.
Qed.

Lemma get_cameo_events_never_raises text :
  never_raises (Cameo3.get_cameo_events_with_llm text).
Proof. apply never_raises_try_except. intros e. apply never_raises_ret. Qed.

Lemma get_summary_never_raises text : never_raises (Cameo3.get_summary_with_llm text).
Proof. apply never_raises_try_except. intros e. apply never_raises_ret. Qed.

End Cameo3Client.

Ltac fin :=
  repeat split; auto;
  try solve [ constructor | discriminate | congruence | intuition congruence ].

Section Cameo3Rows.
Context `{Platform}.

Lemma bind_inv {A B} (m : M A) (k : A -> M B) (w : World) r w' :
  bind m k w = (r, w') ->
  (exists a w1, m w = (Ret a, w1) /\ k a w1 = (r, w'))
  \/ (exists e, m w = (Raise e, w') /\ r = Raise e)
  \/ (m w = (Killed, w') /\ r = Killed).
Proof.
  unfold bind. destruct (m w) as [[a|e|] w1]; intros Hrun.
  - left. eauto.
  - injection Hrun as <- <-. right. left. eauto.
  - injection Hrun as <- <-. right. right. eauto.
Qed.

(** One append to a table that exists: the record goes to the end, or the
    process is terminated before the write. *)
Lemma to_csv_append_existing columns record (w : World) lines r w' :
  out_file w = Some lines ->
  to_csv_append columns false record w = (r, w') ->
  processed_ids w' = processed_ids w
  /\ (kill w = None -> kill w' = None /\ r <> Killed)
  /\ ((r = Killed /\ out_file w' = Some lines)
      \/ (r = Ret tt
          /\ out_file w' = Some (lines ++ [RecordLine (select_columns columns record)]))).
Proof.
  intros Hfile Hrun. unfold to_csv_append, bind, tick in Hrun.
  destruct (kill w) as [[|n]|] eqn:Hk; simpl in Hrun; try rewrite Hfile in Hrun;
    injection Hrun as <- <-; simpl; intuition congruence.
Qed.

Lemma append_record_existing record (w : World) lines r w' :
  out_file w = Some lines ->
  Cameo3.append_record record w = (r, w') ->
  processed_ids w' = processed_ids w
  /\ (kill w = None -> kill w' = None /\ r <> Killed)
  /\ ((r = Killed /\ out_file w' = Some lines)
      \/ (r = Ret tt
          /\ out_file w' = Some (lines ++ [RecordLine (select_columns Cameo3.OUTPUT_COLUMNS record)]))).
Proof.
  intros Hfile Hrun. unfold Cameo3.append_record in Hrun. rewrite Hfile in Hrun.
  simpl in Hrun. eapply to_csv_append_existing; eassumption.
Qed.

Lemma event_record_cases r news_id summary ev (w : World) :
  (exists record, Cameo3.event_record r news_id summary ev w = (Ret record, w)
     /\ line_id (RecordLine (select_columns Cameo3.OUTPUT_COLUMNS record)) = Some news_id)
  \/ (exists e, Cameo3.event_record r news_id summary ev w = (Raise e, w)).
Proof.
  destruct ev; try (right; eexists; reflexivity).
  left. eexists. split; reflexivity.
Qed.

Lemma write_events_spec r news_id summary events :
  forall (w : World) lines res w',
  out_file w = Some lines ->
  Cameo3.write_events r news_id summary events w = (res, w') ->
  exists new, out_file w' = Some (lines ++ new)
    /\ Forall (fun ln => line_id ln = Some news_id) new
    /\ processed_ids w' = processed_ids w
    /\ (kill w = None -> kill w' = None /\ res <> Killed)
    /\ (res = Ret tt -> length new = length events).
Proof.
  induction events as [|ev rest IH]; intros w lines res w' Hfile Hrun.
  - injection Hrun as <- <-. exists []. rewrite app_nil_r. fin.
  - simpl in Hrun.
    destruct (event_record_cases r news_id summary ev w) as [(record & Hrec & Hid)|(e & Hrec)].
    + unfold bind at 1 in Hrun. rewrite Hrec in Hrun.
      apply bind_inv in Hrun.
      destruct Hrun as [(a & w1 & Happ & Hrest)|[(e & Happ & ->)|(Happ & ->)]];
        destruct (append_record_existing _ _ _ _ _ Hfile Happ) as (Hp & Ha & Hcase).
      * destruct Hcase as [[? _]|[_ Hfile1]]; [discriminate|].
        destruct (IH _ _ _ _ Hfile1 Hrest) as (new & Hf' & Hall & Hp' & Ha' & Hlen).
        exists (RecordLine (select_columns Cameo3.OUTPUT_COLUMNS record) :: new).
        rewrite Hf', <- app_assoc. simpl. repeat split; auto.
        all: try solve [congruence | intuition congruence].
      * destruct Hcase as [[? _]|[? _]]; discriminate.
      * destruct Hcase as [[_ Hfile1]|[? _]]; [|discriminate].
        exists []. rewrite app_nil_r. fin.
    + unfold bind at 1 in Hrun. rewrite Hrec in Hrun. injection Hrun as <- <-.
      exists []. rewrite app_nil_r. fin.
Qed.


Lemma py_get_pure v k dflt (w : World) :
  (exists x, py_get v k dflt w = (Ret x, w)) \/ (exists e, py_get v k dflt w = (Raise e, w)).
Proof. destruct v; try (right; eexists; reflexivity). left. eexists. reflexivity. Qed.

Lemma truthy_iter_nonempty v (w : World) items w' :
  truthy v = true -> py_iter v w = (Ret items, w') -> items <> [] /\ w' = w.
Proof.
  destruct v as [| | | |s|l|d]; simpl; intros Ht Hit; try discriminate;
    injection Hit as <- <-; split; auto.
  - destruct s as [|c rest]; [discriminate|]. cbn [py_chars].
    destruct (py_chars rest); [discriminate|].
    destruct rest as [|c' rest']; [discriminate|].
    destruct (is_continuation c'); discriminate.
  - destruct l; [discriminate|]. discriminate.
  - destruct d; [discriminate|]. discriminate.
Qed.

Lemma py_iter_pure v (w : World) r w' : py_iter v w = (r, w') -> w' = w /\ r <> Killed.
Proof. destruct v; intros [= <- <-]; split; auto; discriminate. Qed.

Lemma client_cases {A} (m : M A) (w : World) r w' :
  frames m -> never_raises m -> m w = (r, w') ->
  out_file w' = out_file w /\ processed_ids w' = processed_ids w
  /\ (kill w = None -> kill w' = None)
  /\ (forall e, r <> Raise e) /\ (r = Killed -> kill w <> None).
Proof.
  intros Hf Hn Hrun. destruct (Hf _ _ _ Hrun) as (? & ? & Ha).
  repeat split; auto; [intuition| |intuition congruence].
  intros e ->. exact (Hn _ _ _ Hrun).
Qed.

(** The rows written for one input row, and when its identifier enters the
    set: only at the end of a body that ran to its end. *)
Lemma process_row_spec r content news_id (w : World) lines res w' :
  out_file w = Some lines ->
  Cameo3.process_row r content news_id w = (res, w') ->
  exists new, out_file w' = Some (lines ++ new)
    /\ Forall (fun ln => line_id ln = Some news_id) new
    /\ (kill w = None -> kill w' = None /\ res <> Killed)
    /\ ((processed_ids w' = processed_ids w /\ res <> Ret tt)
        \/ (res = Ret tt /\ processed_ids w' = {[news_id]} ∪ processed_ids w /\ new <> [])).
Proof.
  intros Hfile Hrun. unfold Cameo3.process_row in Hrun.
  apply bind_inv in Hrun.
  destruct Hrun as [(cameo_data & w1 & Hc & Hrun)|[(e & Hc & ->)|(Hc & ->)]];
    destruct (client_cases _ _ _ _ (frames_get_cameo_events content)
                (get_cameo_events_never_raises content) Hc) as (Hf1 & Hp1 & Ha1 & Hr1 & Hk1).
  2:{ destruct (Hr1 e eq_refl). }
  2:{ exists []. rewrite app_nil_r. rewrite Hf1. fin. }
  apply bind_inv in Hrun.
  destruct Hrun as [(summary & w2 & Hs & Hrun)|[(e & Hs & ->)|(Hs & ->)]];
    destruct (client_cases _ _ _ _ (frames_get_summary content)
                (get_summary_never_raises content) Hs) as (Hf2 & Hp2 & Ha2 & Hr2 & Hk2).
  2:{ destruct (Hr2 e eq_refl). }
  2:{ exists []. rewrite app_nil_r. rewrite Hf2, Hf1, Hp2, Hp1. fin. }
  assert (Hfile2 : out_file w2 = Some lines) by congruence.
  assert (Hids2 : processed_ids w2 = processed_ids w) by congruence.
  assert (Halive2 : kill w = None -> kill w2 = None) by auto.
  clear Hc Hs Hf1 Hp1 Ha1 Hr1 Hk1 Hf2 Hp2 Ha2 Hr2 Hk2.
  apply bind_inv in Hrun.
  destruct (py_get_pure cameo_data "events" (PList []) w2) as [[events Hg]|[e Hg]];
    rewrite Hg in Hrun.
  2:{ destruct Hrun as [(? & ? & ? & _)|[(e' & Hg' & ->)|(? & _)]]; try discriminate.
      injection Hg' as <- <-. exists []. rewrite app_nil_r. fin. }
  destruct Hrun as [(? & ? & Hg' & Hrun)|[(? & ? & _)|(? & _)]]; try discriminate.
  injection Hg' as <- <-.
  apply bind_inv in Hrun.
  assert (Hbranch : forall rb wb,
    (if negb (truthy events)
     then Cameo3.append_record (Cameo3.blank_record r news_id summary)
     else (items <- py_iter events ;; Cameo3.write_events r news_id summary items)) w2
      = (rb, wb) ->
    exists new, out_file wb = Some (lines ++ new)
      /\ Forall (fun ln => line_id ln = Some news_id) new
      /\ processed_ids wb = processed_ids w2
      /\ (kill w2 = None -> kill wb = None /\ rb <> Killed)
      /\ (rb = Ret tt -> new <> [])).
  { intros rb wb Hb. destruct (truthy events) eqn:Ht; simpl in Hb.
    - apply bind_inv in Hb.
      destruct Hb as [(items & wi & Hi & Hw)|[(e & Hi & ->)|(Hi & ->)]].
      + destruct (truthy_iter_nonempty _ _ _ _ Ht Hi) as [Hne ->].
        destruct (write_events_spec _ _ _ _ _ _ _ _ Hfile2 Hw)
          as (new & Hfw & Hall & Hpw & Haw & Hlen).
        exists new. repeat split; auto; try (intuition congruence).
        intros -> ->. specialize (Hlen eq_refl). destruct items; [congruence|discriminate].
      + destruct (py_iter_pure _ _ _ _ Hi) as [-> _].
        exists []. rewrite app_nil_r. fin.
      + destruct (py_iter_pure _ _ _ _ Hi) as [_ Hne]. congruence.
    - destruct (append_record_existing _ _ _ _ _ Hfile2 Hb) as (Hp & Ha & Hcase).
      destruct Hcase as [[-> Hfb]|[-> Hfb]].
      + exists []. rewrite app_nil_r. fin.
      + eexists. split; [exact Hfb|]. repeat split; auto; try (intuition congruence);
          try (intros _; discriminate). }
  destruct Hrun as [([] & wb & Hb & Hadd)|[(e & Hb & ->)|(Hb & ->)]];
    destruct (Hbranch _ _ Hb) as (new & Hfb & Hall & Hpb & Hab & Hne).
  - injection Hadd as <- <-. simpl. exists new. repeat split; auto;
      try solve [intuition congruence | discriminate].
  - exists new. repeat split; auto; try (intuition congruence).
  - exists new. repeat split; auto; try (intuition congruence).
Qed.


Lemma loop_body_skip r (w : World) :
  Cameo3.row_content r = "" \/ Cameo3.row_news_id r ∈ processed_ids w ->
  Cameo3.loop_body r w = (Ret tt, w).
Proof.
  intros Hskip. unfold Cameo3.loop_body.
  destruct (String.eqb_spec (Cameo3.row_content r) "") as [Hc|Hc]; [reflexivity|].
  destruct Hskip as [Hc'|Hin]; [contradiction|].
  rewrite bool_decide_eq_true_2 by exact Hin. reflexivity.
Qed.

Lemma loop_body_spec r (w : World) lines res w' :
  out_file w = Some lines ->
  Cameo3.loop_body r w = (res, w') ->
  exists new, out_file w' = Some (lines ++ new)
    /\ Forall (fun ln => line_id ln = Some (Cameo3.row_news_id r)) new
    /\ (kill w = None -> kill w' = None /\ res <> Killed)
    /\ (new <> [] -> Cameo3.row_news_id r ∉ processed_ids w)
    /\ ((processed_ids w' = processed_ids w /\ (res = Ret tt -> new = []))
        \/ (res = Ret tt /\ Cameo3.row_content r <> ""
            /\ processed_ids w' = {[Cameo3.row_news_id r]} ∪ processed_ids w /\ new <> [])).
Proof.
  intros Hfile Hrun. unfold Cameo3.loop_body in Hrun.
  destruct (String.eqb_spec (Cameo3.row_content r) "") as [Hc|Hc].
  { injection Hrun as <- <-. exists []. rewrite app_nil_r. fin. }
  destruct (bool_decide (Cameo3.row_news_id r ∈ processed_ids w)) eqn:Hin.
  { injection Hrun as <- <-. exists []. rewrite app_nil_r. fin. }
  apply bool_decide_eq_false in Hin.
  destruct (process_row_spec _ _ _ _ _ _ _ Hfile Hrun) as (new & Hf & Hall & Ha & Hcase).
  exists new. repeat split; auto; try solve [intuition congruence].
Qed.

Lemma fresh_lines news_id new (ids : gset string) :
  Forall (fun ln => line_id ln = Some news_id) new ->
  (new <> [] -> news_id ∉ ids) ->
  Forall (fun ln => exists i, line_id ln = Some i /\ i ∉ ids) new.
Proof.
  intros Hall Hfresh. destruct new as [|ln new]; [constructor|].
  assert (Hni : news_id ∉ ids) by (apply Hfresh; discriminate).
  eapply Forall_impl; [exact Hall|]. intros l Hid. simpl in Hid. eauto.
Qed.

End Cameo3Rows.

(** ** The row loop, for any body that behaves like the scripts' bodies *)

Section RowLoop.
Context `{Platform}.
Variable body : row -> M unit.
Variable id_of : row -> string.

Hypothesis body_spec :
  forall r (w : World) lines res w',
  out_file w = Some lines ->
  body r w = (res, w') ->
  exists new, out_file w' = Some (lines ++ new)
    /\ Forall (fun ln => line_id ln = Some (id_of r)) new
    /\ (kill w = None -> kill w' = None /\ res <> Killed)
    /\ (new <> [] -> id_of r ∉ processed_ids w)
    /\ ((processed_ids w' = processed_ids w /\ (res = Ret tt -> new = []))
        \/ (processed_ids w' = {[id_of r]} ∪ processed_ids w /\ new <> [])).

Hypothesis body_skip :
  forall r (w : World), id_of r ∈ processed_ids w -> body r w = (Ret tt, w).

Lemma row_loop_spec rows :
  forall (w : World) lines res w',
  out_file w = Some lines ->
  row_loop body rows w = (res, w') ->
  exists new, out_file w' = Some (lines ++ new)
    /\ Forall (fun ln => exists news_id, line_id ln = Some news_id
                                      /\ news_id ∉ processed_ids w) new
    /\ processed_ids w ⊆ processed_ids w'
    /\ (forall news_id, news_id ∈ processed_ids w' ->
          news_id ∈ processed_ids w \/ news_id ∈ body_ids new)
    /\ (kill w = None -> kill w' = None /\ res <> Killed).
Proof.
  induction rows as [|r rest IH]; intros w lines res w' Hfile Hrun.
  - injection Hrun as <- <-. exists []. rewrite app_nil_r. fin.
  - simpl in Hrun. apply bind_inv in Hrun.
    destruct Hrun as [([] & w1 & Hb & Hrest)|[(e & Hb & ->)|(Hb & ->)]];
      destruct (body_spec _ _ _ _ _ Hfile Hb) as (new1 & Hf1 & Hall1 & Ha1 & Hfresh & Hcase).
    + destruct (IH _ _ _ _ Hf1 Hrest) as (new2 & Hf2 & Hall2 & Hsub & Hsrc & Ha2).
      assert (Hmono : processed_ids w ⊆ processed_ids w1).
      { destruct Hcase as [[-> _]|(-> & _)]; set_solver. }
      exists (new1 ++ new2). rewrite Hf2, app_assoc. repeat split; auto.
      * apply Forall_app. split.
        -- eapply fresh_lines; eassumption.
        -- eapply Forall_impl; [exact Hall2|]. intros ln (i & Hi & Hni).
           exists i. split; auto.
      * set_solver.
      * intros i Hi. destruct (Hsrc i Hi) as [Hin|Hin].
        -- destruct Hcase as [[Hp _]|(Hp & Hne)].
           ++ left. congruence.
           ++ rewrite Hp in Hin. apply elem_of_union in Hin. destruct Hin as [Hin|Hin]; auto.
              apply elem_of_singleton in Hin. subst i. right.
              unfold body_ids. rewrite omap_app, list_to_set_app.
              apply elem_of_union_l.
              destruct new1 as [|ln ?]; [congruence|].
              inversion Hall1 as [|? ? Hln ?]; subst. simpl. rewrite Hln. set_solver.
        -- right. unfold body_ids in *. rewrite omap_app, list_to_set_app. set_solver.
      * intuition congruence.
      * intuition congruence.
    + exists new1.
      assert (Hsub : processed_ids w ⊆ processed_ids w')
        by (destruct Hcase as [[-> _]|(-> & _)]; set_solver).
      repeat split; auto;
        try solve [intuition congruence | eapply fresh_lines; eassumption].
      intros i Hi. destruct Hcase as [[Hp _]|(Hp & Hne)]; [left; congruence|].
      rewrite Hp in Hi. apply elem_of_union in Hi. destruct Hi as [Hi|Hi]; auto.
      apply elem_of_singleton in Hi. subst i. right. unfold body_ids.
      destruct new1 as [|ln ?]; [congruence|].
      inversion Hall1 as [|? ? Hln ?]; subst. simpl. rewrite Hln. set_solver.
    + exists new1.
      assert (Hsub : processed_ids w ⊆ processed_ids w')
        by (destruct Hcase as [[-> _]|(-> & _)]; set_solver).
      repeat split; auto;
        try solve [intuition congruence | eapply fresh_lines; eassumption].
      intros i Hi. destruct Hcase as [[Hp _]|(Hp & Hne)]; [left; congruence|].
      rewrite Hp in Hi. apply elem_of_union in Hi. destruct Hi as [Hi|Hi]; auto.
      apply elem_of_singleton in Hi. subst i. right. unfold body_ids.
      destruct new1 as [|ln ?]; [congruence|].
      inversion Hall1 as [|? ? Hln ?]; subst. simpl. rewrite Hln. set_solver.
Qed.


End RowLoop.


Section Cameo3Main.
Context `{Platform}.

Lemma cameo3_main_loop_eq rows : Cameo3.main_loop rows = row_loop Cameo3.loop_body rows.
Proof. induction rows as [|r rest IH]; simpl; [|rewrite IH]; reflexivity. Qed.

Lemma cameo3_body_spec r (w : World) lines res w' :
  out_file w = Some lines ->
  Cameo3.loop_body r w = (res, w') ->
  exists new, out_file w' = Some (lines ++ new)
    /\ Forall (fun ln => line_id ln = Some (Cameo3.row_news_id r)) new
    /\ (kill w = None -> kill w' = None /\ res <> Killed)
    /\ (new <> [] -> Cameo3.row_news_id r ∉ processed_ids w)
    /\ ((processed_ids w' = processed_ids w /\ (res = Ret tt -> new = []))
        \/ (processed_ids w' = {[Cameo3.row_news_id r]} ∪ processed_ids w /\ new <> [])).
Proof.
  intros Hfile Hrun.
  destruct (loop_body_spec _ _ _ _ _ Hfile Hrun) as (new & ? & ? & ? & ? & Hcase).
  exists new. repeat split; auto; try solve [intuition congruence].
Qed.

Lemma cameo3_body_skip r (w : World) :
  Cameo3.row_news_id r ∈ processed_ids w -> Cameo3.loop_body r w = (Ret tt, w).
Proof. intros Hin. apply loop_body_skip. right. exact Hin. Qed.

(** The world in which the row loop starts. *)
Lemma cameo3_main_on_table env rows (w : World) body :
  data_csv env = Some (inr rows) ->
  out_file w = Some (HeaderLine Cameo3.OUTPUT_COLUMNS :: body) ->
  Cameo3.main env w
  = Cameo3.main_loop rows
      (mkWorld _ (remote w) (trace w) (out_file w) (table_ids body) (kill w)).
Proof.
  intros Hdata Hfile. unfold Cameo3.main. rewrite Hdata.
  unfold bind at 1. unfold Cameo3.ensure_output_csv. rewrite Hfile.
  unfold bind at 1. unfold Cameo3.load_existing_results. rewrite Hfile. simpl read_csv.
  unfold ret at 1. unfold bind at 1.
  unfold Cameo3.existing_ids, df_column. simpl.
  unfold table_ids. rewrite !map_map. unfold bind, set_processed_ids. rewrite ?Hfile. reflexivity.
Qed.

End Cameo3Main.

Section SocietalRows.
Context `{Platform}.

Lemma frames_lift_outcome {A} (o : exn + A) : frames (Societal.lift_outcome o).
Proof. destruct o; [apply frames_raise | apply frames_ret]. Qed.

Lemma frames_try_except_ValueError {A} (body handler : M A) :
  frames body -> frames handler -> frames (Societal.try_except_ValueError body handler).
Proof.
  intros Hm Hk w r w' Hrun. unfold Societal.try_except_ValueError in Hrun.
  destruct (body w) as [[a|e|] w1] eqn:Em; destruct (Hm _ _ _ Em) as (Hf & Hp & Ha).
  - injection Hrun as <- <-. intuition congruence.
  - destruct (String.eqb (exn_class e) "ValueError").
    + destruct (Hk _ _ _ Hrun) as (Hf' & Hp' & Ha'). rewrite Hf', Hp'. intuition congruence.
    + injection Hrun as <- <-. intuition congruence.
  - injection Hrun as <- <-. intuition congruence.
Qed.

Lemma frames_run_openai_completion t text : frames (Societal.run_openai_completion t text).
Proof.
  unfold Societal.run_openai_completion. apply frames_bind.
  - apply frames_call_with_retries, frames_remote_call.
  - intros o. apply frames_ret.
Qed.

Lemma frames_parse_json_lenient s : frames (Societal.parse_json_lenient s).
Proof.
  unfold Societal.parse_json_lenient. destruct (String.eqb s ""); [apply frames_ret|].
  apply frames_try_except; [apply frames_lift_outcome|]. intros _.
  destruct (re_search_object _); [apply frames_lift_outcome | apply frames_ret].
Qed.

Lemma frames_get_societal_sentiment text :
  frames (Societal.get_societal_sentiment_with_llm text).
Proof.
  apply frames_try_except; [|intros e; apply frames_ret].
  apply frames_bind; [apply frames_run_openai_completion|].
  intros [[|c s]|]; try apply frames_ret.
  apply frames_bind; [apply frames_parse_json_lenient|]. intros data.
  apply frames_bind; [apply frames_py_get|]. intros score.
  apply frames_bind.
  { apply frames_try_except_ValueError; [apply frames_lift_outcome | apply frames_ret]. }
  intros score'.
  repeat (apply frames_bind; [apply frames_py_get|]; intros ?).
  apply frames_ret.
Qed.

Lemma frames_societal_summary text : frames (Societal.get_summary_with_llm text).
Proof.
  apply frames_try_except; [|intros e; apply frames_ret].
  apply frames_bind; [apply frames_run_openai_completion|]. intros o. apply frames_ret.
Qed.

Lemma get_societal_sentiment_never_raises text :
  never_raises (Societal.get_societal_sentiment_with_llm text).
Proof. apply never_raises_try_except. intros e. apply never_raises_ret. Qed.

Lemma societal_summary_never_raises text :
  never_raises (Societal.get_summary_with_llm text).
Proof. apply never_raises_try_except. intros e. apply never_raises_ret. Qed.

(** One row of the sentiment script: its single record and its identifier go
    in together. *)
Lemma societal_process_row_spec r content news_id (w : World) lines res w' :
  out_file w = Some lines ->
  Societal.process_row r content news_id w = (res, w') ->
  (kill w = None -> kill w' = None /\ res <> Killed)
  /\ ((out_file w' = Some lines /\ processed_ids w' = processed_ids w /\ res <> Ret tt)
      \/ (exists record,
            out_file w' = Some (lines ++ [RecordLine (select_columns Societal.OUTPUT_COLUMNS record)])
            /\ line_id (RecordLine (select_columns Societal.OUTPUT_COLUMNS record)) = Some news_id
            /\ processed_ids w' = {[news_id]} ∪ processed_ids w)).
Proof.
  intros Hfile Hrun. unfold Societal.process_row in Hrun.
  apply bind_inv in Hrun.
  destruct Hrun as [(sent_data & w1 & Hc & Hrun)|[(e & Hc & ->)|(Hc & ->)]];
    destruct (client_cases _ _ _ _ (frames_get_societal_sentiment content)
                (get_societal_sentiment_never_raises content) Hc)
      as (Hf1 & Hp1 & Ha1 & Hr1 & Hk1).
  2:{ destruct (Hr1 e eq_refl). }
  2:{ split; [intuition congruence|]. left. rewrite Hf1, Hp1. fin. }
  apply bind_inv in Hrun.
  destruct Hrun as [(summary & w2 & Hs & Hrun)|[(e & Hs & ->)|(Hs & ->)]];
    destruct (client_cases _ _ _ _ (frames_societal_summary content)
                (societal_summary_never_raises content) Hs) as (Hf2 & Hp2 & Ha2 & Hr2 & Hk2).
  2:{ destruct (Hr2 e eq_refl). }
  2:{ split; [intuition congruence|]. left. rewrite Hf2, Hf1, Hp2, Hp1. fin. }
  assert (Hfile2 : out_file w2 = Some lines) by congruence.
  assert (Hids2 : processed_ids w2 = processed_ids w) by congruence.
  assert (Halive2 : kill w = None -> kill w2 = None) by auto.
  clear Hc Hs Hf1 Hp1 Ha1 Hr1 Hk1 Hf2 Hp2 Ha2 Hr2 Hk2.
  apply bind_inv in Hrun.
  destruct Hrun as [([] & w3 & Happ & Hrun)|[(e & Happ & ->)|(Happ & ->)]];
    destruct (to_csv_append_existing _ _ _ _ _ _ Hfile2 Happ) as (Hp3 & Ha3 & Hcase).
  2:{ destruct Hcase as [[? _]|[? _]]; discriminate. }
  2:{ destruct Hcase as [[_ Hf3]|[? _]]; [|discriminate].
      split; [intuition congruence|]. left. fin. }
  destruct Hcase as [[? _]|[_ Hf3]]; [discriminate|].
  apply bind_inv in Hrun.
  destruct Hrun as [([] & w4 & Hadd & Hrun)|[(e & Hadd & ->)|(Hadd & ->)]];
    try discriminate.
  injection Hadd as <-.
  destruct (frames_sleep _ _ _ _ Hrun) as (Hf5 & Hp5 & Ha5). simpl in Hf5, Hp5, Ha5.
  split; [intuition congruence|]. right. eexists. rewrite Hf5, Hp5, Hf3, Hp3, Hids2.
  repeat split; reflexivity.
Qed.

Lemma societal_body_skip r (w : World) :
  Societal.row_news_id r ∈ processed_ids w -> Societal.loop_body r w = (Ret tt, w).
Proof.
  intros Hin. unfold Societal.loop_body.
  rewrite (bool_decide_eq_true_2 _ Hin), !orb_true_r. reflexivity.
Qed.

Lemma societal_body_spec r (w : World) lines res w' :
  out_file w = Some lines ->
  Societal.loop_body r w = (res, w') ->
  exists new, out_file w' = Some (lines ++ new)
    /\ Forall (fun ln => line_id ln = Some (Societal.row_news_id r)) new
    /\ (kill w = None -> kill w' = None /\ res <> Killed)
    /\ (new <> [] -> Societal.row_news_id r ∉ processed_ids w)
    /\ ((processed_ids w' = processed_ids w /\ (res = Ret tt -> new = []))
        \/ (processed_ids w' = {[Societal.row_news_id r]} ∪ processed_ids w /\ new <> [])).
Proof.
  intros Hfile Hrun. unfold Societal.loop_body in Hrun.
  destruct (String.eqb (Societal.row_news_id r) "" || String.eqb (Societal.row_content r) "")
    eqn:Hempty; simpl in Hrun.
  { injection Hrun as <- <-. exists []. rewrite app_nil_r. fin. }
  destruct (bool_decide (Societal.row_news_id r ∈ processed_ids w)) eqn:Hin; simpl in Hrun.
  { injection Hrun as <- <-. exists []. rewrite app_nil_r. fin. }
  apply bool_decide_eq_false in Hin.
  destruct (societal_process_row_spec _ _ _ _ _ _ _ Hfile Hrun)
    as (Ha & [(Hf & Hp & Hne)|(record & Hf & Hid & Hp)]).
  - exists []. rewrite app_nil_r. fin.
  - eexists. split; [exact Hf|]. repeat split; auto; try solve [intuition congruence].
Qed.

Lemma societal_main_loop_eq rows : Societal.main_loop rows = row_loop Societal.loop_body rows.
Proof. induction rows as [|r rest IH]; simpl; [|rewrite IH]; reflexivity. Qed.

Lemma societal_main_on_table env rows (w : World) body :
  data_csv env = Some (inr rows) ->
  out_file w = Some (HeaderLine Societal.OUTPUT_COLUMNS :: body) ->
  Societal.main env w
  = Societal.main_loop rows
      (mkWorld _ (remote w) (trace w) (out_file w) (table_ids body) (kill w)).
Proof.
  intros Hdata Hfile. unfold Societal.main. rewrite Hdata.
  unfold bind, ret, read_csv, set_processed_ids, table_ids. rewrite !Hfile.
  destruct body as [|ln body]; [simpl; rewrite ?Hfile; reflexivity|].
  set (read := pd_read (map line_cells (ln :: body))).
  assert (Hread : exists cells rest, read = cells :: rest)
    by (unfold read, pd_read; cbn [map]; eauto).
  clearbody read. destruct Hread as (cells & rest & ->).
  simpl. rewrite ?Hfile, ?map_map. reflexivity.
Qed.

End SocietalRows.

Section Scripts.
Context `{Platform}.

Lemma run_extends_refl columns body (w : World) :
  out_file w = Some (HeaderLine columns :: body) -> run_extends columns body w w.
Proof. intros Hfile. exists []. rewrite app_nil_r. fin. Qed.

Lemma cameo3_main_spec env (w : World) body res w' :
  out_file w = Some (HeaderLine Cameo3.OUTPUT_COLUMNS :: body) ->
  Cameo3.main env w = (res, w') ->
  run_extends Cameo3.OUTPUT_COLUMNS body w w'
  /\ (kill w = None -> kill w' = None /\ res <> Killed).
Proof.
  intros Hfile Hrun. destruct (data_csv env) as [[e|rows]|] eqn:Hdata.
  - unfold Cameo3.main in Hrun. rewrite Hdata in Hrun. injection Hrun as <- <-.
    split; [apply run_extends_refl; assumption|intuition congruence].
  - rewrite (cameo3_main_on_table _ _ _ _ Hdata Hfile), cameo3_main_loop_eq in Hrun.
    eapply (row_loop_spec Cameo3.loop_body Cameo3.row_news_id cameo3_body_spec
             cameo3_body_skip) in Hrun;
      [|simpl; exact Hfile].
    destruct Hrun as (new & Hf & Hall & Hsub & Hsrc & Ha). simpl in *. split; [|exact Ha].
    exists new. rewrite Hf. repeat split; auto;
      try (intros i Hi; destruct (Hsrc i Hi); auto).
  - unfold Cameo3.main in Hrun. rewrite Hdata in Hrun. injection Hrun as <- <-.
    split; [apply run_extends_refl; assumption|intuition congruence].
Qed.

Lemma societal_main_spec env (w : World) body res w' :
  out_file w = Some (HeaderLine Societal.OUTPUT_COLUMNS :: body) ->
  Societal.main env w = (res, w') ->
  run_extends Societal.OUTPUT_COLUMNS body w w'
  /\ (kill w = None -> kill w' = None /\ res <> Killed).
Proof.
  intros Hfile Hrun. destruct (data_csv env) as [[e|rows]|] eqn:Hdata.
  - unfold Societal.main in Hrun. rewrite Hdata in Hrun. injection Hrun as <- <-.
    split; [apply run_extends_refl; assumption|intuition congruence].
  - rewrite (societal_main_on_table _ _ _ _ Hdata Hfile), societal_main_loop_eq in Hrun.
    eapply (row_loop_spec Societal.loop_body Societal.row_news_id societal_body_spec
             societal_body_skip) in Hrun;
      [|simpl; exact Hfile].
    destruct Hrun as (new & Hf & Hall & Hsub & Hsrc & Ha). simpl in *. split; [|exact Ha].
    exists new. rewrite Hf. repeat split; auto;
      try (intros i Hi; destruct (Hsrc i Hi); auto).
  - unfold Societal.main in Hrun. rewrite Hdata in Hrun. injection Hrun as <- <-.
    split; [apply run_extends_refl; assumption|intuition congruence].
Qed.



End Scripts.

(** ** CAMEOcode_Hurriyet_1.py: the rows and the run *)

Section HurriyetScript.
Context `{TopicService}.

























End HurriyetScript.

(** ** A service that fails every call, missing inputs, rows without content *)

Section FailingService.
Context `{Platform}.
Hypothesis Hfail : service_always_fails.





Lemma to_csv_append_alive columns record (w : World) lines :
  out_file w = Some lines -> kill w = None ->
  to_csv_append columns false record w
  = (Ret tt, mkWorld _ (remote w) (trace w)
               (Some (lines ++ [RecordLine (select_columns columns record)]))
               (processed_ids w) None).
Proof.
  intros Hfile Halive. unfold to_csv_append, bind. rewrite (tick_alive w Halive).
  unfold set_out_file. rewrite Hfile, Halive. reflexivity.
Qed.

Lemma append_record_alive record (w : World) lines :
  out_file w = Some lines -> kill w = None ->
  Cameo3.append_record record w
  = (Ret tt, mkWorld _ (remote w) (trace w)
               (Some (lines ++ [RecordLine (select_columns Cameo3.OUTPUT_COLUMNS record)]))
               (processed_ids w) None).
Proof.
  intros Hfile Halive. unfold Cameo3.append_record. rewrite Hfile. simpl.
  apply to_csv_append_alive; assumption.
Qed.



End FailingService.

Section Starting.
Context `{Platform}.

(** A run that finds no table creates it, header only, and goes on as a run
    that found it so. *)
Lemma cameo3_main_creates env rows (w : World) :
  data_csv env = Some (inr rows) ->
  out_file w = None ->
  Cameo3.main env w
  = match tick w with
    | (Ret _, wt) =>
        Cameo3.main env
          (mkWorld _ (remote wt) (trace wt) (Some [HeaderLine Cameo3.OUTPUT_COLUMNS])
             (processed_ids wt) (kill wt))
    | (Raise e, wt) => (Raise e, wt)
    | (Killed, wt) => (Killed, wt)
    end.
Proof.
  intros Hdata Hfile. unfold Cameo3.main. rewrite Hdata.
  unfold bind at 1. unfold Cameo3.ensure_output_csv at 1. rewrite Hfile.
  unfold to_csv_write, bind at 1. destruct (tick w) as [[[]|e|] wt]; reflexivity.
Qed.

Lemma societal_main_creates env rows (w : World) :
  data_csv env = Some (inr rows) ->
  out_file w = None ->
  Societal.main env w
  = match tick w with
    | (Ret _, wt) =>
        Societal.main env
          (mkWorld _ (remote wt) (trace wt) (Some [HeaderLine Societal.OUTPUT_COLUMNS])
             (processed_ids wt) (kill wt))
    | (Raise e, wt) => (Raise e, wt)
    | (Killed, wt) => (Killed, wt)
    end.
Proof.
  intros Hdata Hfile. unfold Societal.main. rewrite Hdata.
  unfold bind at 1. rewrite Hfile.
  unfold to_csv_write, bind at 1. destruct (tick w) as [[[]|e|] wt]; reflexivity.
Qed.

End Starting.

Section PipelineClaims.
Context `{Platform}.


(** C8.  Without the credential (unset or empty) or without the input file,
    CAMEO-3.py raises before [main] reaches the table: the world is the one
    it started in, so no call was issued and the output file was neither
    created nor changed. *)
Theorem cameo3_aborts_before_first_row env (w : World) :
  OPENAI_API_KEY env = None \/ OPENAI_API_KEY env = Some "" \/ data_csv env = None ->
  exists e, Cameo3.script env w = (Raise e, w).
Proof.
  intros Hmissing. unfold Cameo3.script.
  destruct (OPENAI_API_KEY env) as [[|c key]|] eqn:Hkey; try (eexists; reflexivity).
  destruct Hmissing as [Hk|[Hk|Hdata]]; try discriminate.
  unfold Cameo3.main. rewrite Hdata. eexists. reflexivity.
Qed.


End PipelineClaims.

(** ** The statements above on the test doubles *)

Lemma cameo3_aborts_before_first_row_witness :
  let env := mkEnv None (Some (inr [demo_row "A" "quiet day"])) in
  let w := Demo.start Demo.by_request tt None None in
  exists e, @Cameo3.script Demo.by_request env w = (Raise e, w).
Proof.
  intros env w. apply (@cameo3_aborts_before_first_row Demo.by_request env w).
  left. reflexivity.
Defined.

Lemma failing_service_always_fails : @service_always_fails Demo.failing.
Proof. intros req s. eexists _, _. reflexivity. Qed.






(** ** The scenario of two rows *)

Section Scenario.
Context `{Platform}.

Lemma cameo3_chat_answers t text (w : World) content s' :
  kill w = None ->
  chat_create (Request t [text]) (remote w) = (inr content, s') ->
  Cameo3.run_chat_completion t text w
  = (Ret content,
     mkWorld _ s' (trace w ++ [EvCall None]) (out_file w) (processed_ids w) None).
Proof.
  intros Halive Hans. unfold Cameo3.run_chat_completion, call_with_retries, bind.
  unfold py_range, MAX_RETRIES. simpl. rewrite (remote_call_alive _ w Halive), Hans.
  reflexivity.
Qed.

Lemma cameo3_events_answered text P (w : World) :
  events_answer text P -> kill w = None ->
  exists d w',
    Cameo3.get_cameo_events_with_llm text w = (Ret (PDict d), w')
    /\ P (default (PList []) (lookup_key "events" d))
    /\ out_file w' = out_file w /\ processed_ids w' = processed_ids w /\ kill w' = None.
Proof.
  intros Hans Halive. destruct (Hans (remote w)) as (payload & s' & d & Hc & Hj & HP).
  exists d. eexists. unfold Cameo3.get_cameo_events_with_llm, try_except, bind.
  rewrite (cameo3_chat_answers _ _ _ _ _ Halive Hc). simpl. rewrite Hj. simpl.
  repeat split; auto.
Qed.

Lemma event_record_dict r news_id summary ev (w : World) :
  Cameo3.event_record r news_id summary (PDict ev) w
  = (Ret (cameo3_event_fields r news_id summary ev), w).
Proof. reflexivity. Qed.




Lemma cameo3_loop_body_runs r (w : World) :
  Cameo3.row_content r <> "" ->
  Cameo3.row_news_id r ∉ processed_ids w ->
  Cameo3.loop_body r w
  = Cameo3.process_row r (Cameo3.row_content r) (Cameo3.row_news_id r) w.
Proof.
  intros Hc Hin. unfold Cameo3.loop_body.
  destruct (String.eqb_spec (Cameo3.row_content r) "") as [?|_]; [contradiction|].
  rewrite bool_decide_eq_false_2 by exact Hin. reflexivity.
Qed.


End Scenario.


(** ** The header line *)

Section Header.
Context `{Platform}.

Lemma sink_table_one_header columns lines :
  sink_table columns (Some lines) ->
  count_headers lines = 1%nat /\ head lines = Some (HeaderLine columns).
Proof.
  intros (body & -> & Hbody). split; [|reflexivity].
  unfold count_headers. simpl. f_equal.
  induction Hbody as [|ln body Hln _ IH]; [reflexivity|].
  simpl. rewrite Hln. exact IH.
Qed.

Lemma tick_file (w : World) r wt : tick w = (r, wt) -> out_file wt = out_file w.
Proof. intros Ht. destruct (frames_tick _ _ _ Ht) as (Hf & _). exact Hf. Qed.

Lemma ensure_keeps_table (w : World) res w' :
  sink_table Cameo3.OUTPUT_COLUMNS (out_file w) ->
  Cameo3.ensure_output_csv w = (res, w') ->
  sink_table Cameo3.OUTPUT_COLUMNS (out_file w').
Proof.
  intros Htable Hrun. unfold Cameo3.ensure_output_csv in Hrun.
  destruct (out_file w) as [lines|] eqn:Hfile.
  - injection Hrun as <- <-. rewrite Hfile. exact Htable.
  - unfold to_csv_write, bind in Hrun. destruct (tick w) as [[[]|e|] wt] eqn:Ht.
    + injection Hrun as <- <-. simpl. exists []. split; [reflexivity|constructor].
    + injection Hrun as <- <-. rewrite (tick_file _ _ _ Ht), Hfile. exact I.
    + injection Hrun as <- <-. rewrite (tick_file _ _ _ Ht), Hfile. exact I.
Qed.

Lemma append_keeps_table record (w : World) res w' :
  sink_table Cameo3.OUTPUT_COLUMNS (out_file w) ->
  Cameo3.append_record record w = (res, w') ->
  sink_table Cameo3.OUTPUT_COLUMNS (out_file w').
Proof.
  intros Htable Hrun. unfold Cameo3.append_record, to_csv_append, bind in Hrun.
  destruct (tick w) as [[[]|e|] wt] eqn:Ht; pose proof (tick_file _ _ _ Ht) as Hwt.
  - injection Hrun as <- <-. simpl. rewrite Hwt.
    destruct (out_file w) as [lines|]; simpl.
    + destruct Htable as (body & -> & Hbody). eexists. split; [reflexivity|].
      apply Forall_app. split; [exact Hbody|]. repeat constructor.
    + eexists. split; [reflexivity|]. repeat constructor.
  - injection Hrun as <- <-. rewrite Hwt. exact Htable.
  - injection Hrun as <- <-. rewrite Hwt. exact Htable.
Qed.

Lemma run_extends_table columns body (w w' : World) :
  Forall (fun ln => is_header ln = false) body ->
  run_extends columns body w w' ->
  sink_table columns (out_file w').
Proof.
  intros Hbody (new & -> & Hnew & _). exists (body ++ new). split; [reflexivity|].
  apply Forall_app. split; [exact Hbody|].
  eapply Forall_impl; [exact Hnew|]. intros ln (i & Hi & _).
  destruct ln as [|[|[] ?]]; try discriminate. reflexivity.
Qed.

Lemma cameo3_script_keeps_table env (w : World) res w' :
  sink_table Cameo3.OUTPUT_COLUMNS (out_file w) ->
  Cameo3.script env w = (res, w') ->
  sink_table Cameo3.OUTPUT_COLUMNS (out_file w').
Proof.
  intros Htable Hrun. unfold Cameo3.script in Hrun.
  assert (Hmain : forall w0 : World,
            sink_table Cameo3.OUTPUT_COLUMNS (out_file w0) ->
            (exists lines, out_file w0 = Some lines) ->
            Cameo3.main env w0 = (res, w') ->
            sink_table Cameo3.OUTPUT_COLUMNS (out_file w')).
  { intros w0 Ht0 (lines & Hl) Hm. rewrite Hl in Ht0. destruct Ht0 as (body & -> & Hbody).
    destruct (cameo3_main_spec _ _ _ _ _ Hl Hm) as (Hext & _).
    eapply run_extends_table; eassumption. }
  destruct (OPENAI_API_KEY env) as [[|c key]|];
    try (injection Hrun as <- <-; exact Htable).
  destruct (out_file w) as [lines|] eqn:Hfile.
  - apply (Hmain w); [rewrite Hfile; exact Htable|eauto|exact Hrun].
  - destruct (data_csv env) as [[e|rows]|] eqn:Hdata.
    + unfold Cameo3.main in Hrun. rewrite Hdata in Hrun. injection Hrun as <- <-.
      rewrite Hfile. exact I.
    + rewrite (cameo3_main_creates _ _ _ Hdata Hfile) in Hrun.
      destruct (tick w) as [[[]|e|] wt] eqn:Ht.
      * eapply Hmain; [| |exact Hrun]; simpl; [|eauto].
        exists []. split; [reflexivity|constructor].
      * injection Hrun as <- <-. rewrite (tick_file _ _ _ Ht), Hfile. exact I.
      * injection Hrun as <- <-. rewrite (tick_file _ _ _ Ht), Hfile. exact I.
    + unfold Cameo3.main in Hrun. rewrite Hdata in Hrun. injection Hrun as <- <-.
      rewrite Hfile. exact I.
Qed.

Lemma societal_script_keeps_table env (w : World) res w' :
  sink_table Societal.OUTPUT_COLUMNS (out_file w) ->
  Societal.script env w = (res, w') ->
  sink_table Societal.OUTPUT_COLUMNS (out_file w').
Proof.
  intros Htable Hrun. unfold Societal.script in Hrun.
  assert (Hmain : forall w0 : World,
            sink_table Societal.OUTPUT_COLUMNS (out_file w0) ->
            (exists lines, out_file w0 = Some lines) ->
            Societal.main env w0 = (res, w') ->
            sink_table Societal.OUTPUT_COLUMNS (out_file w')).
  { intros w0 Ht0 (lines & Hl) Hm. rewrite Hl in Ht0. destruct Ht0 as (body & -> & Hbody).
    destruct (societal_main_spec _ _ _ _ _ Hl Hm) as (Hext & _).
    eapply run_extends_table; eassumption. }
  destruct (OPENAI_API_KEY env) as [[|c key]|];
    try (injection Hrun as <- <-; exact Htable).
  destruct (out_file w) as [lines|] eqn:Hfile.
  - apply (Hmain w); [rewrite Hfile; exact Htable|eauto|exact Hrun].
  - destruct (data_csv env) as [[e|rows]|] eqn:Hdata.
    + unfold Societal.main in Hrun. rewrite Hdata in Hrun. injection Hrun as <- <-.
      rewrite Hfile. exact I.
    + rewrite (societal_main_creates _ _ _ Hdata Hfile) in Hrun.
      destruct (tick w) as [[[]|e|] wt] eqn:Ht.
      * eapply Hmain; [| |exact Hrun]; simpl; [|eauto].
        exists []. split; [reflexivity|constructor].
      * injection Hrun as <- <-. rewrite (tick_file _ _ _ Ht), Hfile. exact I.
      * injection Hrun as <- <-. rewrite (tick_file _ _ _ Ht), Hfile. exact I.
    + unfold Societal.main in Hrun. rewrite Hdata in Hrun. injection Hrun as <- <-.
      rewrite Hfile. exact I.
Qed.

(** C6.  Whatever runs (complete or terminated) and appends the output table
    has gone through since it did not exist, when it exists it starts with
    the header line and holds no other header line: the header is written
    when the file is created and by no later append.  For CAMEO-3.py and for
    Societal_sentiment.py. *)
Theorem header_written_once (f : option (list line)) :
  (cameo3_history f ->
   forall lines, f = Some lines ->
     count_headers lines = 1%nat /\ head lines = Some (HeaderLine Cameo3.OUTPUT_COLUMNS))
  /\ (societal_history f ->
      forall lines, f = Some lines ->
        count_headers lines = 1%nat
        /\ head lines = Some (HeaderLine Societal.OUTPUT_COLUMNS)).
Proof.
  split; intros Hhist lines ->; apply sink_table_one_header.
  - remember (Some lines) as f eqn:Hf. clear Hf.
    induction Hhist as [|env w res w' _ IH Hrun|w res w' _ IH Hrun|record w res w' _ IH Hrun].
    + exact I.
    + eapply cameo3_script_keeps_table; eassumption.
    + eapply ensure_keeps_table; eassumption.
    + eapply append_keeps_table; eassumption.
  - remember (Some lines) as f eqn:Hf. clear Hf.
    induction Hhist as [|env w res w' _ IH Hrun].
    + exact I.
    + eapply societal_script_keeps_table; eassumption.
Qed.

End Header.

Lemma header_written_once_witness :
  let env := demo_env [demo_row "A" "quiet day"; demo_row "B" "busy day"] in
  let first := @Cameo3.script Demo.by_request env (Demo.start Demo.by_request tt None (Some 4%nat)) in
  let second :=
    @Cameo3.script Demo.by_request env
      (Demo.start Demo.by_request tt (out_file (snd first)) None) in
  let lines := default [] (out_file (snd second)) in
  fst first = Killed
  /\ length lines = 4%nat
  /\ count_headers lines = 1%nat
  /\ head lines = Some (HeaderLine Cameo3.OUTPUT_COLUMNS).
Proof.
  intros env first second lines.
  split; [vm_compute; reflexivity|]. split; [vm_compute; reflexivity|].
  apply (proj1 (@header_written_once Demo.by_request (out_file (snd second)))).
  - apply (@cameo3_after_run Demo.by_request env
             (Demo.start Demo.by_request tt (out_file (snd first)) None)
             (fst second) (snd second)).
    + change (@cameo3_history Demo.by_request (out_file (snd first))).
      apply (@cameo3_after_run Demo.by_request env
               (Demo.start Demo.by_request tt None (Some 4%nat)) (fst first) (snd first)).
      * apply cameo3_absent.
      * apply surjective_pairing.
    + apply surjective_pairing.
  - vm_compute. reflexivity.
Defined.

(** ** Restarting after a termination *)

Section Restart.
Context `{Platform}.

Lemma line_id_read ln news_id :
  line_id ln = Some news_id -> py_str (nth 0 (line_cells ln) NaN) = news_id.
Proof. destruct ln as [|[|[] ?]]; simpl; intros [= <-]; reflexivity. Qed.

Lemma body_ids_written new : body_ids new ⊆ written_ids new.
Proof.
  intros i Hi. unfold body_ids in Hi. apply elem_of_list_to_set in Hi.
  apply list_elem_of_omap in Hi. destruct Hi as (ln & Hln & Hid).
  unfold written_ids. apply elem_of_list_to_set. apply list_elem_of_fmap.
  exists ln. split; [symmetry; apply line_id_read; exact Hid|exact Hln].
Qed.

Lemma written_ids_app body new :
  written_ids (body ++ new) = written_ids body ∪ written_ids new.
Proof. unfold written_ids. rewrite map_app. apply list_to_set_app_L. Qed.

Lemma ids_read_back_nil : ids_read_back [].
Proof. reflexivity. Qed.

Lemma written_file_sink columns f : written_file columns f -> sink_table columns f.
Proof.
  destruct f as [lines|]; [|auto]. intros (body & -> & Hall). exists body.
  split; [reflexivity|]. eapply Forall_impl; [exact Hall|].
  intros ln (cells & -> & _). reflexivity.
Qed.


Lemma run_extends_set columns body (w w' : World) :
  processed_ids w = ∅ -> ids_read_back body -> run_extends columns body w w' ->
  set_in_table columns w'.
Proof.
  intros Hempty Hback (new & Hf & _ & Hsrc). right. exists (body ++ new).
  split; [exact Hf|].
  intros i Hi. rewrite written_ids_app. destruct (Hsrc i Hi) as [Hin|[Hin|Hin]].
  - rewrite Hempty in Hin. set_solver.
  - rewrite Hback in Hin. set_solver.
  - apply elem_of_union_r. apply body_ids_written. exact Hin.
Qed.

Lemma tick_set (w : World) r wt : tick w = (r, wt) -> processed_ids wt = processed_ids w.
Proof. intros Ht. destruct (frames_tick _ _ _ Ht) as (_ & Hp & _). exact Hp. Qed.

Lemma cameo3_script_set env (w : World) res w' :
  processed_ids w = ∅ ->
  sink_table Cameo3.OUTPUT_COLUMNS (out_file w) ->
  reads_back (out_file w) ->
  Cameo3.script env w = (res, w') ->
  set_in_table Cameo3.OUTPUT_COLUMNS w'.
Proof.
  intros Hempty Htable Hback Hrun. unfold Cameo3.script in Hrun.
  assert (Hmain : forall w0 : World,
            processed_ids w0 = ∅ ->
            sink_table Cameo3.OUTPUT_COLUMNS (out_file w0) ->
            reads_back (out_file w0) ->
            (exists lines, out_file w0 = Some lines) ->
            Cameo3.main env w0 = (res, w') ->
            set_in_table Cameo3.OUTPUT_COLUMNS w').
  { intros w0 He0 Ht0 Hb0 (lines & Hl) Hm. rewrite Hl in Ht0, Hb0.
    destruct Ht0 as (body & -> & Hbody).
    destruct (cameo3_main_spec _ _ _ _ _ Hl Hm) as (Hext & _).
    eapply run_extends_set; eassumption. }
  destruct (OPENAI_API_KEY env) as [[|c key]|];
    try (injection Hrun as <- <-; left; exact Hempty).
  destruct (out_file w) as [lines|] eqn:Hfile.
  - apply (Hmain w); [exact Hempty|rewrite Hfile; exact Htable|rewrite Hfile; exact Hback
                     |eauto|exact Hrun].
  - destruct (data_csv env) as [[e|rows]|] eqn:Hdata.
    + unfold Cameo3.main in Hrun. rewrite Hdata in Hrun. injection Hrun as <- <-.
      left. exact Hempty.
    + rewrite (cameo3_main_creates _ _ _ Hdata Hfile) in Hrun.
      destruct (tick w) as [[[]|e|] wt] eqn:Ht; pose proof (tick_set _ _ _ Ht) as Hwt.
      * eapply Hmain; [| | | |exact Hrun]; simpl; [congruence| |exact ids_read_back_nil|eauto].
        exists []. split; [reflexivity|constructor].
      * injection Hrun as <- <-. left. congruence.
      * injection Hrun as <- <-. left. congruence.
    + unfold Cameo3.main in Hrun. rewrite Hdata in Hrun. injection Hrun as <- <-.
      left. exact Hempty.
Qed.

Lemma societal_script_set env (w : World) res w' :
  processed_ids w = ∅ ->
  sink_table Societal.OUTPUT_COLUMNS (out_file w) ->
  reads_back (out_file w) ->
  Societal.script env w = (res, w') ->
  set_in_table Societal.OUTPUT_COLUMNS w'.
Proof.
  intros Hempty Htable Hback Hrun. unfold Societal.script in Hrun.
  assert (Hmain : forall w0 : World,
            processed_ids w0 = ∅ ->
            sink_table Societal.OUTPUT_COLUMNS (out_file w0) ->
            reads_back (out_file w0) ->
            (exists lines, out_file w0 = Some lines) ->
            Societal.main env w0 = (res, w') ->
            set_in_table Societal.OUTPUT_COLUMNS w').
  { intros w0 He0 Ht0 Hb0 (lines & Hl) Hm. rewrite Hl in Ht0, Hb0.
    destruct Ht0 as (body & -> & Hbody).
    destruct (societal_main_spec _ _ _ _ _ Hl Hm) as (Hext & _).
    eapply run_extends_set; eassumption. }
  destruct (OPENAI_API_KEY env) as [[|c key]|];
    try (injection Hrun as <- <-; left; exact Hempty).
  destruct (out_file w) as [lines|] eqn:Hfile.
  - apply (Hmain w); [exact Hempty|rewrite Hfile; exact Htable|rewrite Hfile; exact Hback
                     |eauto|exact Hrun].
  - destruct (data_csv env) as [[e|rows]|] eqn:Hdata.
    + unfold Societal.main in Hrun. rewrite Hdata in Hrun. injection Hrun as <- <-.
      left. exact Hempty.
    + rewrite (societal_main_creates _ _ _ Hdata Hfile) in Hrun.
      destruct (tick w) as [[[]|e|] wt] eqn:Ht; pose proof (tick_set _ _ _ Ht) as Hwt.
      * eapply Hmain; [| | | |exact Hrun]; simpl; [congruence| |exact ids_read_back_nil|eauto].
        exists []. split; [reflexivity|constructor].
      * injection Hrun as <- <-. left. congruence.
      * injection Hrun as <- <-. left. congruence.
    + unfold Societal.main in Hrun. rewrite Hdata in Hrun. injection Hrun as <- <-.
      left. exact Hempty.
Qed.




Lemma societal_loop_body_runs r (w : World) :
  Societal.row_news_id r <> "" ->
  Societal.row_content r <> "" ->
  Societal.row_news_id r ∉ processed_ids w ->
  Societal.loop_body r w
  = Societal.process_row r (Societal.row_content r) (Societal.row_news_id r) w.
Proof.
  intros Hid Hc Hin. unfold Societal.loop_body.
  destruct (String.eqb_spec (Societal.row_news_id r) "") as [?|_]; [contradiction|].
  destruct (String.eqb_spec (Societal.row_content r) "") as [?|_]; [contradiction|].
  rewrite bool_decide_eq_false_2 by exact Hin. reflexivity.
Qed.


End Restart.



(** * Further properties of the scripts *)

(** ** The schedule of the retry wrapper *)

Section RetrySchedule.
Context `{Platform}.

Lemma range_from_length n : forall k, length (range_from k n) = n.
Proof. induction n; intros k; simpl; auto. Qed.

(** The shape of the events of a wrapper run that is not terminated: after
    every invocation but the last, one sleep, of the length its attempt
    number gives. *)
Lemma retry_loop_schedule {A} (f : Remote -> (exn + A) * Remote) m :
  forall n k (w : World) r w',
  k + Z.of_nat n = m + 1 ->
  kill w = None ->
  retry_loop (remote_call f) m (range_from k n) w = (r, w') ->
  exists evs, trace w' = trace w ++ evs
    /\ sleeps_of evs = map backoff (range_from k (Nat.pred (count_calls evs)))
    /\ ((0 < n)%nat -> exists outcome, last evs = Some (EvCall outcome)).
Proof.
  induction n as [|n IH]; intros k w r w' Hk Halive Hrun.
  - injection Hrun as <- <-. exists []. rewrite app_nil_r. repeat split; auto. lia.
  - simpl in Hrun. rewrite (remote_call_alive f w Halive) in Hrun.
    destruct (f (remote w)) as [[e|v] s'].
    + destruct (k =? m) eqn:Hkm.
      * injection Hrun as <- <-. exists [EvCall (Some e)]. simpl. repeat split; eauto.
      * apply Z.eqb_neq in Hkm.
        unfold bind at 1 in Hrun. rewrite sleep_alive in Hrun by reflexivity.
        apply IH in Hrun; [|lia|reflexivity].
        destruct Hrun as (evs & Etr & Hs & Hlast). simpl in Etr.
        destruct (Hlast ltac:(lia)) as [o Ho].
        exists (EvCall (Some e) :: EvSleep (inject_Z (RETRY_BACKOFF_SECONDS * k)) :: evs).
        rewrite Etr, <- !app_assoc. simpl. repeat split; auto.
        -- unfold sleeps_of in *. simpl. rewrite Hs.
           destruct (count_calls evs) as [|c] eqn:Hc.
           ++ exfalso. clear - Ho Hc. induction evs as [|[x|d] evs IHe]; try discriminate.
              simpl in Hc. destruct evs; [discriminate|]. apply IHe; auto.
           ++ reflexivity.
        -- intros _. exists o. destruct evs; [discriminate|]. exact Ho.
    + injection Hrun as <- <-. exists [EvCall None]. simpl. repeat split; eauto.
Qed.


(** X1.  Whatever the remote operation does and whatever [max_attempts] is, a
    wrapper run that is not terminated sleeps once after every invocation but
    the last: with [n] invocations made, the sleeps are
    [RETRY_BACKOFF_SECONDS * 1], ..., [RETRY_BACKOFF_SECONDS * (n - 1)], in
    that order; and as soon as one attempt is allowed the run ends with an
    invocation, never with a sleep. *)
Theorem call_with_retries_backoff_schedule {A} (f : Remote -> (exn + A) * Remote)
    (max_attempts : Z) (w : World) r w' :
  kill w = None ->
  call_with_retries (remote_call f) max_attempts w = (r, w') ->
  sleeps_of (new_events w w')
  = map backoff (py_range 1 (Z.of_nat (count_calls (new_events w w'))))
  /\ (1 <= max_attempts ->
      exists outcome, last (new_events w w') = Some (EvCall outcome)).
Proof.
  intros Halive Hrun. unfold call_with_retries, py_range in Hrun.
  destruct (Z_lt_le_dec max_attempts 1) as [Hlt|Hge].
  - replace (Z.to_nat (max_attempts + 1 - 1)) with O in Hrun by lia.
    injection Hrun as <- <-. unfold new_events. rewrite drop_all. simpl.
    split; [reflexivity|lia].
  - apply retry_loop_schedule in Hrun; [|lia|assumption].
    destruct Hrun as (evs & Etr & Hs & Hlast).
    rewrite (new_events_app _ _ _ Etr). split.
    + rewrite Hs. unfold py_range. f_equal. f_equal. lia.
    + intros _. apply Hlast. lia.
Qed.

Lemma retry_loop_returns {A} (f : Remote -> (exn + A) * Remote) m v s' :
  forall errors n k (w : World),
  k + Z.of_nat n = m + 1 ->
  (length errors < n)%nat ->
  kill w = None ->
  returns_after f k (remote w) errors v s' ->
  exists w', retry_loop (remote_call f) m (range_from k n) w = (Ret (Some v), w')
    /\ trace w' = trace w ++ retry_trace k errors
    /\ remote w' = s' /\ kill w' = None.
Proof.
  induction errors as [|e errors IH]; intros n k w Hk Hn Halive Hret;
    inversion Hret as [? ? ? ? Hf|? ? ? ? ? ? ? Hf Hrest]; subst;
    (destruct n as [|n]; [simpl in Hn; lia|]);
    simpl; rewrite (remote_call_alive f w Halive), Hf.
  - eexists. split; [reflexivity|]. simpl. auto.
  - simpl in Hn. destruct (k =? m) eqn:Hkm; [apply Z.eqb_eq in Hkm; lia|].
    unfold bind at 1. rewrite sleep_alive by reflexivity.
    match goal with |- context [retry_loop _ _ _ ?w1] =>
      destruct (IH n (k + 1) w1) as (w' & Hrun & Etr & Hrem & Hal);
        [lia|lia|reflexivity|exact Hrest|] end.
    exists w'. split; [exact Hrun|]. rewrite Etr. simpl. rewrite <- !app_assoc. auto.
Qed.

Lemma count_calls_retry_trace errors : forall k,
  count_calls (retry_trace k errors) = S (length errors).
Proof. induction errors as [|e errors IH]; intros k; simpl; [|rewrite IH]; reflexivity. Qed.

(** X2.  The wrapper returns the value of the first invocation that
    returns: when the operation raises [errors] one after the other and then
    returns [v], and [max_attempts] leaves room for that many failures, the
    wrapper returns [v] after one invocation per failure, each followed by
    its sleep, and the one that returned; the operation is not invoked
    again. *)
Theorem call_with_retries_returns_first_success {A} (f : Remote -> (exn + A) * Remote)
    (max_attempts : Z) (w : World) errors v s' :
  kill w = None ->
  returns_after f 1 (remote w) errors v s' ->
  Z.of_nat (length errors) < max_attempts ->
  exists w',
    call_with_retries (remote_call f) max_attempts w = (Ret (Some v), w')
    /\ new_events w w' = retry_trace 1 errors
    /\ count_calls (new_events w w') = S (length errors)
    /\ sleeps_of (new_events w w')
       = map backoff (py_range 1 (Z.of_nat (length errors) + 1))
    /\ remote w' = s'.
Proof.
  intros Halive Hret Hm. unfold call_with_retries, py_range.
  destruct (retry_loop_returns f max_attempts v s' errors
              (Z.to_nat (max_attempts + 1 - 1)) 1 w) as (w' & Hrun & Etr & Hrem & _);
    [lia|lia|assumption|assumption|].
  exists w'. split; [exact Hrun|]. rewrite (new_events_app _ _ _ Etr).
  split; [reflexivity|]. split; [apply count_calls_retry_trace|]. split; [|exact Hrem].
  replace (Z.to_nat (Z.of_nat (length errors) + 1 - 1)) with (length errors) by lia.
  clear. generalize 1. induction errors as [|e errors IH]; intros k; [reflexivity|].
  simpl. unfold sleeps_of in *. simpl. rewrite IH. reflexivity.
Qed.

End RetrySchedule.

Lemma call_with_retries_backoff_schedule_witness :
  let w := Demo.start Demo.failing tt None None in
  let run := @call_with_retries Demo.failing _ Demo.broken_call MAX_RETRIES w in
  sleeps_of (new_events w (snd run)) = [inject_Z 5; inject_Z 10; inject_Z 15]
  /\ count_calls (new_events w (snd run)) = 4%nat
  /\ exists outcome, last (new_events w (snd run)) = Some (EvCall outcome).
Proof.
  intros w run.
  pose proof (@call_with_retries_backoff_schedule Demo.failing _ Demo.broken_op MAX_RETRIES w
                (fst run) (snd run) eq_refl (surjective_pairing run)) as [Hs Hlast].
  assert (Hc : count_calls (new_events w (snd run)) = 4%nat) by (vm_compute; reflexivity).
  rewrite Hc in Hs. split; [exact Hs|]. split; [exact Hc|].
  apply Hlast. unfold MAX_RETRIES. lia.
Defined.

Lemma call_with_retries_returns_first_success_witness :
  let answers := [inl Demo.rate_limit_error; inr (Some "ok")] in
  let w := Demo.start Demo.scripted answers None None in
  exists w',
    @call_with_retries Demo.scripted _ Demo.replay_call MAX_RETRIES w
      = (Ret (Some (Some "ok")), w')
    /\ new_events w w' = [EvCall (Some Demo.rate_limit_error); EvSleep (backoff 1); EvCall None]
    /\ count_calls (new_events w w') = 2%nat
    /\ sleeps_of (new_events w w') = [backoff 1]
    /\ remote w' = [].
Proof.
  intros answers w.
  apply (@call_with_retries_returns_first_success Demo.scripted _ Demo.replay_op MAX_RETRIES w
           [Demo.rate_limit_error] (Some "ok") []).
  - reflexivity.
  - eapply returns_later; [reflexivity|]. apply returns_now. reflexivity.
  - unfold MAX_RETRIES. simpl. lia.
Defined.

(** ** Invocations are bounded by the input *)

Section Calls.
Context `{Platform}.

Lemma count_calls_app evs1 evs2 :
  count_calls (evs1 ++ evs2) = (count_calls evs1 + count_calls evs2)%nat.
Proof.
  induction evs1 as [|[o|d] evs1 IH]; simpl; [reflexivity| |]; rewrite IH; reflexivity.
Qed.

Lemma calls_within_weaken {A} (m : M A) n n' :
  (n <= n')%nat -> calls_within n m -> calls_within n' m.
Proof.
  intros Hle Hm w r w' Hrun. destruct (Hm _ _ _ Hrun) as (evs & Etr & Hc).
  exists evs. split; [exact Etr|lia].
Qed.

Lemma calls_within_ret {A} (a : A) : calls_within 0 (ret a).
Proof. intros w r w' [= <- <-]. exists []. rewrite app_nil_r. auto. Qed.

Lemma calls_within_raise {A} (e : exn) : calls_within 0 (@raise _ A e).
Proof. intros w r w' [= <- <-]. exists []. rewrite app_nil_r. auto. Qed.

Lemma calls_within_bind {A B} (m : M A) (k : A -> M B) n1 n2 :
  calls_within n1 m -> (forall a, calls_within n2 (k a)) -> calls_within (n1 + n2) (bind m k).
Proof.
  intros Hm Hk w r w' Hrun. apply bind_inv in Hrun.
  destruct Hrun as [(a & w1 & Em & Ek)|[(e & Em & ->)|(Em & ->)]];
    destruct (Hm _ _ _ Em) as (evs1 & Etr1 & Hc1).
  - destruct (Hk a _ _ _ Ek) as (evs2 & Etr2 & Hc2).
    exists (evs1 ++ evs2). rewrite Etr2, Etr1, app_assoc, count_calls_app.
    split; [reflexivity|lia].
  - exists evs1. split; [exact Etr1|lia].
  - exists evs1. split; [exact Etr1|lia].
Qed.

Lemma calls_within_try_except {A} (body : M A) (handler : exn -> M A) n1 n2 :
  calls_within n1 body -> (forall e, calls_within n2 (handler e)) ->
  calls_within (n1 + n2) (try_except body handler).
Proof.
  intros Hm Hk w r w' Hrun. unfold try_except in Hrun.
  destruct (body w) as [[a|e|] w1] eqn:Em; destruct (Hm _ _ _ Em) as (evs1 & Etr1 & Hc1).
  - injection Hrun as <- <-. exists evs1. split; [exact Etr1|lia].
  - destruct (Hk e _ _ _ Hrun) as (evs2 & Etr2 & Hc2).
    exists (evs1 ++ evs2). rewrite Etr2, Etr1, app_assoc, count_calls_app.
    split; [reflexivity|lia].
  - injection Hrun as <- <-. exists evs1. split; [exact Etr1|lia].
Qed.

(** A computation that leaves the trace alone. *)
Lemma calls_within_silent {A} (m : M A) :
  (forall w r w', m w = (r, w') -> trace w' = trace w) -> calls_within 0 m.
Proof.
  intros Hm w r w' Hrun. exists []. rewrite app_nil_r. split; [eauto|reflexivity].
Qed.

Lemma calls_within_tick : calls_within 0 tick.
Proof.
  apply calls_within_silent. intros w r w' Ht.
  destruct (tick_cases _ _ _ Ht) as (Htr & _). exact Htr.
Qed.

Lemma calls_within_remote_call {A} (f : Remote -> (exn + A) * Remote) :
  calls_within 1 (remote_call f).
Proof.
  unfold remote_call. apply (calls_within_bind _ _ 0 1); [apply calls_within_tick|].
  intros _ w r w' Hrun. destruct (f (remote w)) as [[e|a] s'];
    injection Hrun as <- <-; simpl; eexists; split; try reflexivity; simpl; lia.
Qed.

Lemma calls_within_call_with_retries {A} (f : Remote -> (exn + A) * Remote) m :
  calls_within (Z.to_nat m) (call_with_retries (remote_call f) m).
Proof.
  intros w r w' Hrun. unfold call_with_retries, py_range in Hrun.
  destruct (retry_loop_frame _ _ _ _ _ _ Hrun) as (evs & Etr & Hc & _).
  exists evs. split; [exact Etr|]. rewrite range_from_length in Hc. lia.
Qed.

Lemma calls_within_py_get v k dflt : calls_within 0 (py_get v k dflt).
Proof. destruct v; first [apply calls_within_ret | apply calls_within_raise]. Qed.

Lemma calls_within_py_iter v : calls_within 0 (py_iter v).
Proof. destruct v; first [apply calls_within_ret | apply calls_within_raise]. Qed.

Lemma calls_within_py_json_loads c : calls_within 0 (py_json_loads c).
Proof.
  destruct c as [s|]; simpl; [|apply calls_within_raise].
  destruct (json_loads s); [apply calls_within_raise | apply calls_within_ret].
Qed.

Lemma calls_within_set_out_file f : calls_within 0 (set_out_file f).
Proof. apply calls_within_silent. intros w r w' [= <- <-]. reflexivity. Qed.

Lemma calls_within_set_processed_ids ids : calls_within 0 (set_processed_ids ids).
Proof. apply calls_within_silent. intros w r w' [= <- <-]. reflexivity. Qed.

Lemma calls_within_add_processed_id news_id : calls_within 0 (add_processed_id news_id).
Proof. apply calls_within_silent. intros w r w' [= <- <-]. reflexivity. Qed.

Lemma calls_within_to_csv_write columns rows : calls_within 0 (to_csv_write columns rows).
Proof.
  unfold to_csv_write. apply (calls_within_bind _ _ 0 0); [apply calls_within_tick|].
  intros _. apply calls_within_set_out_file.
Qed.

Lemma calls_within_to_csv_append columns header record :
  calls_within 0 (to_csv_append columns header record).
Proof.
  unfold to_csv_append. apply (calls_within_bind _ _ 0 0); [apply calls_within_tick|].
  intros _. apply calls_within_silent. intros w r w' [= <- <-]. reflexivity.
Qed.

Lemma calls_within_sleep d : calls_within 0 (sleep d).
Proof.
  unfold sleep. intros w r w' Hrun. apply bind_inv in Hrun.
  destruct Hrun as [([] & w1 & Ht & Hs)|[(e & Ht & ->)|(Ht & ->)]];
    destruct (tick_cases _ _ _ Ht) as (Htr & _).
  - injection Hs as <- <-. simpl. exists [EvSleep d]. rewrite Htr. auto.
  - exists []. rewrite app_nil_r. auto.
  - exists []. rewrite app_nil_r. auto.
Qed.

Lemma calls_within_read_csv lines : calls_within 0 (read_csv lines).
Proof. destruct lines; [apply calls_within_raise | apply calls_within_ret]. Qed.

(** *** CAMEO-3.py *)

Lemma calls_within_run_chat_completion t text :
  calls_within 4 (Cameo3.run_chat_completion t text).
Proof.
  unfold Cameo3.run_chat_completion. apply (calls_within_bind _ _ 4 0).
  - apply (calls_within_call_with_retries _ MAX_RETRIES).
  - intros o. apply calls_within_ret.
Qed.

Lemma calls_within_get_cameo_events text :
  calls_within 4 (Cameo3.get_cameo_events_with_llm text).
Proof.
  apply (calls_within_try_except _ _ 4 0).
  - apply (calls_within_bind _ _ 4 0); [apply calls_within_run_chat_completion|].
    intros c. apply calls_within_py_json_loads.
  - intros e. apply calls_within_ret.
Qed.

Lemma calls_within_get_summary text : calls_within 4 (Cameo3.get_summary_with_llm text).
Proof.
  apply (calls_within_try_except _ _ 4 0).
  - apply (calls_within_bind _ _ 4 0); [apply calls_within_run_chat_completion|].
    intros [s|]; [apply calls_within_ret | apply calls_within_raise].
  - intros e. apply calls_within_ret.
Qed.

Lemma calls_within_append_record record : calls_within 0 (Cameo3.append_record record).
Proof.
  intros w r w' Hrun. unfold Cameo3.append_record in Hrun.
  eapply calls_within_to_csv_append. exact Hrun.
Qed.

Lemma calls_within_event_record r news_id summary ev :
  calls_within 0 (Cameo3.event_record r news_id summary ev).
Proof.
  destruct ev; try apply calls_within_raise. unfold Cameo3.event_record. simpl.
  apply calls_within_silent. intros w res w' [= <- <-]. reflexivity.
Qed.

Lemma calls_within_write_events r news_id summary events :
  calls_within 0 (Cameo3.write_events r news_id summary events).
Proof.
  induction events as [|ev rest IH]; [apply calls_within_ret|]. simpl.
  apply (calls_within_bind _ _ 0 0); [apply calls_within_event_record|]. intros record.
  apply (calls_within_bind _ _ 0 0); [apply calls_within_append_record|]. intros _. exact IH.
Qed.

Lemma calls_within_cameo3_process_row r content news_id :
  calls_within 8 (Cameo3.process_row r content news_id).
Proof.
  unfold Cameo3.process_row.
  apply (calls_within_bind _ _ 4 4); [apply calls_within_get_cameo_events|]. intros cameo_data.
  apply (calls_within_bind _ _ 4 0); [apply calls_within_get_summary|]. intros summary.
  apply (calls_within_bind _ _ 0 0); [apply calls_within_py_get|]. intros events.
  apply (calls_within_bind _ _ 0 0); [|intros _; apply calls_within_add_processed_id].
  destruct (negb (truthy events)); [apply calls_within_append_record|].
  apply (calls_within_bind _ _ 0 0); [apply calls_within_py_iter|]. intros items.
  apply calls_within_write_events.
Qed.

Lemma calls_within_cameo3_loop_body r : calls_within 8 (Cameo3.loop_body r).
Proof.
  intros w res w' Hrun. unfold Cameo3.loop_body in Hrun.
  destruct (String.eqb (Cameo3.row_content r) "").
  { eapply calls_within_weaken; [|apply (calls_within_ret tt)|exact Hrun]. lia. }
  destruct (bool_decide (Cameo3.row_news_id r ∈ processed_ids w)).
  { injection Hrun as <- <-. exists []. rewrite app_nil_r. split; [reflexivity|simpl; lia]. }
  eapply calls_within_cameo3_process_row. exact Hrun.
Qed.

Lemma calls_within_row_loop (body : row -> M unit) n rows :
  (forall r, calls_within n (body r)) ->
  calls_within (n * length rows) (row_loop body rows).
Proof.
  intros Hbody. induction rows as [|r rest IH]; simpl.
  - rewrite Nat.mul_0_r. apply calls_within_ret.
  - replace (n * S (length rest))%nat with (n + n * length rest)%nat by lia.
    apply calls_within_bind; [apply Hbody|]. intros _. exact IH.
Qed.

Lemma calls_within_cameo3_main env :
  calls_within (8 * length (input_rows env)) (Cameo3.main env).
Proof.
  unfold Cameo3.main, input_rows. destruct (data_csv env) as [[e|rows]|];
    try (eapply calls_within_weaken; [|apply calls_within_raise]; lia).
  apply (calls_within_bind _ _ 0 _).
  { intros w r w' Hrun. unfold Cameo3.ensure_output_csv in Hrun.
    destruct (out_file w).
    - injection Hrun as <- <-. exists []. rewrite app_nil_r. auto.
    - eapply calls_within_to_csv_write. exact Hrun. }
  intros _. apply (calls_within_bind _ _ 0 _).
  { intros w r w' Hrun. unfold Cameo3.load_existing_results in Hrun.
    destruct (out_file w).
    - eapply calls_within_read_csv. exact Hrun.
    - injection Hrun as <- <-. exists []. rewrite app_nil_r. auto. }
  intros df. apply (calls_within_bind _ _ 0 _).
  { unfold Cameo3.existing_ids. destruct (df_column df "NewsID");
      [apply calls_within_ret | apply calls_within_raise]. }
  intros ids. apply (calls_within_bind _ _ 0 _); [apply calls_within_set_processed_ids|].
  intros _. rewrite cameo3_main_loop_eq.
  exact (calls_within_row_loop Cameo3.loop_body 8 rows calls_within_cameo3_loop_body).
Qed.

(** *** Societal_sentiment.py *)

Lemma calls_within_lift_outcome {A} (o : exn + A) : calls_within 0 (Societal.lift_outcome o).
Proof. destruct o; [apply calls_within_raise | apply calls_within_ret]. Qed.

Lemma calls_within_try_except_ValueError {A} (body handler : M A) n1 n2 :
  calls_within n1 body -> calls_within n2 handler ->
  calls_within (n1 + n2) (Societal.try_except_ValueError body handler).
Proof.
  intros Hm Hk w r w' Hrun. unfold Societal.try_except_ValueError in Hrun.
  destruct (body w) as [[a|e|] w1] eqn:Em; destruct (Hm _ _ _ Em) as (evs1 & Etr1 & Hc1).
  - injection Hrun as <- <-. exists evs1. split; [exact Etr1|lia].
  - destruct (String.eqb (exn_class e) "ValueError").
    + destruct (Hk _ _ _ Hrun) as (evs2 & Etr2 & Hc2).
      exists (evs1 ++ evs2). rewrite Etr2, Etr1, app_assoc, count_calls_app.
      split; [reflexivity|lia].
    + injection Hrun as <- <-. exists evs1. split; [exact Etr1|lia].
  - injection Hrun as <- <-. exists evs1. split; [exact Etr1|lia].
Qed.

Lemma calls_within_run_openai_completion t text :
  calls_within 4 (Societal.run_openai_completion t text).
Proof.
  unfold Societal.run_openai_completion. apply (calls_within_bind _ _ 4 0).
  - apply (calls_within_call_with_retries _ MAX_RETRIES).
  - intros o. apply calls_within_ret.
Qed.

Lemma calls_within_parse_json_lenient s : calls_within 0 (Societal.parse_json_lenient s).
Proof.
  unfold Societal.parse_json_lenient. destruct (String.eqb s ""); [apply calls_within_ret|].
  apply (calls_within_try_except _ _ 0 0); [apply calls_within_lift_outcome|]. intros _.
  destruct (re_search_object _); [apply calls_within_lift_outcome | apply calls_within_ret].
Qed.

Lemma calls_within_get_societal_sentiment text :
  calls_within 4 (Societal.get_societal_sentiment_with_llm text).
Proof.
  apply (calls_within_try_except _ _ 4 0); [|intros e; apply calls_within_ret].
  apply (calls_within_bind _ _ 4 0); [apply calls_within_run_openai_completion|].
  intros [[|c s]|]; try apply calls_within_ret.
  apply (calls_within_bind _ _ 0 0); [apply calls_within_parse_json_lenient|]. intros data.
  apply (calls_within_bind _ _ 0 0); [apply calls_within_py_get|]. intros score.
  apply (calls_within_bind _ _ 0 0).
  { apply (calls_within_try_except_ValueError _ _ 0 0);
      [apply calls_within_lift_outcome | apply calls_within_ret]. }
  intros score'.
  repeat (apply (calls_within_bind _ _ 0 0); [apply calls_within_py_get|]; intros ?).
  apply calls_within_ret.
Qed.

Lemma calls_within_societal_summary text :
  calls_within 4 (Societal.get_summary_with_llm text).
Proof.
  apply (calls_within_try_except _ _ 4 0); [|intros e; apply calls_within_ret].
  apply (calls_within_bind _ _ 4 0); [apply calls_within_run_openai_completion|].
  intros o. apply calls_within_ret.
Qed.

Lemma calls_within_societal_process_row r content news_id :
  calls_within 8 (Societal.process_row r content news_id).
Proof.
  unfold Societal.process_row.
  apply (calls_within_bind _ _ 4 4); [apply calls_within_get_societal_sentiment|]. intros sent.
  apply (calls_within_bind _ _ 4 0); [apply calls_within_societal_summary|]. intros summary.
  apply (calls_within_bind _ _ 0 0); [apply calls_within_to_csv_append|]. intros _.
  apply (calls_within_bind _ _ 0 0); [apply calls_within_add_processed_id|]. intros _.
  apply calls_within_sleep.
Qed.

Lemma calls_within_societal_loop_body r : calls_within 8 (Societal.loop_body r).
Proof.
  intros w res w' Hrun. unfold Societal.loop_body in Hrun.
  destruct (_ || _).
  { injection Hrun as <- <-. exists []. rewrite app_nil_r. split; [reflexivity|simpl; lia]. }
  eapply calls_within_societal_process_row. exact Hrun.
Qed.

Lemma calls_within_societal_main env :
  calls_within (8 * length (input_rows env)) (Societal.main env).
Proof.
  unfold Societal.main, input_rows. destruct (data_csv env) as [[e|rows]|];
    try (eapply calls_within_weaken; [|apply calls_within_raise]; lia).
  apply (calls_within_bind _ _ 0 _).
  { intros w r w' Hrun. destruct (out_file w).
    - injection Hrun as <- <-. exists []. rewrite app_nil_r. auto.
    - eapply calls_within_to_csv_write. exact Hrun. }
  intros _. apply (calls_within_bind _ _ 0 _).
  { intros w r w' Hrun. destruct (out_file w).
    - eapply calls_within_read_csv. exact Hrun.
    - injection Hrun as <- <-. exists []. rewrite app_nil_r. auto. }
  intros df. apply (calls_within_bind _ _ 0 _).
  { destruct (Societal.df_empty df); [apply calls_within_ret|].
    destruct (df_column df Societal.NEWS_ID_COLUMN);
      [apply calls_within_ret | apply calls_within_raise]. }
  intros ids. apply (calls_within_bind _ _ 0 _); [apply calls_within_set_processed_ids|].
  intros _. rewrite societal_main_loop_eq.
  exact (calls_within_row_loop Societal.loop_body 8 rows calls_within_societal_loop_body).
Qed.

(** *** Filter-3.2.py *)

Lemma calls_within_check_cameo_relevance title content :
  calls_within 1 (Filter32.check_cameo_relevance title content).
Proof.
  apply (calls_within_try_except _ _ 1 0); [|intros e; apply calls_within_ret].
  apply (calls_within_bind _ _ 1 0); [apply calls_within_remote_call|]. intros response.
  apply (calls_within_bind _ _ 0 0); [apply calls_within_py_json_loads|]. intros result.
  apply (calls_within_bind _ _ 0 0); [apply calls_within_py_get|]. intros is_relevant.
  apply (calls_within_bind _ _ 0 0); [apply calls_within_py_get|]. intros reason.
  apply calls_within_ret.
Qed.

Lemma calls_within_filter32_main_loop df : forall index results,
  calls_within (length df) (Filter32.main_loop index df results).
Proof.
  induction df as [|r rest IH]; intros index results; simpl; [apply calls_within_ret|].
  apply (calls_within_bind _ _ 1 _); [apply calls_within_check_cameo_relevance|].
  intros verdict. apply IH.
Qed.

Lemma calls_within_filter32_main env :
  calls_within (length (input_rows env)) (Filter32.main env).
Proof.
  unfold Filter32.main, input_rows. destruct (data_csv env) as [[e|rows]|];
    try (eapply calls_within_weaken; [|apply calls_within_raise]; lia);
    try (eapply calls_within_weaken; [|apply calls_within_ret]; lia).
  replace (length rows) with (length (map (fun r => Filter32.strip_columns (Filter32.fillna r)) rows) + 0)%nat
    by (rewrite length_map; lia).
  apply calls_within_bind; [apply calls_within_filter32_main_loop|]. intros results.
  apply (calls_within_bind _ _ 0 0); [apply calls_within_to_csv_write|]. intros _.
  destruct results; [apply calls_within_raise|].
  apply (calls_within_bind _ _ 0 0); [apply calls_within_lift_outcome|].
  intros _. apply calls_within_ret.
Qed.

(** X3.  The number of classification calls of a run is bounded by its
    input, whatever the service answers and wherever the run stops: at most
    [2 * MAX_RETRIES = 8] invocations per input row in CAMEO-3.py and in
    Societal_sentiment.py (two requests per row, each tried at most four
    times), and at most one per input row in Filter-3.2.py, which does not
    retry. *)
Theorem calls_bounded_by_input env (w : World) res w' :
  (Cameo3.script env w = (res, w') ->
   (count_calls (new_events w w') <= 8 * length (input_rows env))%nat)
  /\ (Societal.script env w = (res, w') ->
      (count_calls (new_events w w') <= 8 * length (input_rows env))%nat)
  /\ (Filter32.script env w = (res, w') ->
      (count_calls (new_events w w') <= length (input_rows env))%nat).
Proof.
  assert (Hnone : forall n, (count_calls (new_events w w) <= n)%nat).
  { intros n. unfold new_events. rewrite drop_all. simpl. lia. }
  repeat split; intros Hrun.
  - unfold Cameo3.script in Hrun. destruct (OPENAI_API_KEY env) as [[|c key]|];
      try (injection Hrun as <- <-; apply Hnone).
    destruct (calls_within_cameo3_main env _ _ _ Hrun) as (evs & Etr & Hc).
    rewrite (new_events_app _ _ _ Etr). exact Hc.
  - unfold Societal.script in Hrun. destruct (OPENAI_API_KEY env) as [[|c key]|];
      try (injection Hrun as <- <-; apply Hnone).
    destruct (calls_within_societal_main env _ _ _ Hrun) as (evs & Etr & Hc).
    rewrite (new_events_app _ _ _ Etr). exact Hc.
  - unfold Filter32.script in Hrun. destruct (OPENAI_API_KEY env) as [[|c key]|];
      try (injection Hrun as <- <-; apply Hnone).
    destruct (calls_within_filter32_main env _ _ _ Hrun) as (evs & Etr & Hc).
    rewrite (new_events_app _ _ _ Etr). exact Hc.
Qed.

End Calls.

(** ** Failing services and replies of another shape *)

Section Cost.
Context `{Platform}.
Hypothesis Hfail : service_always_fails.

(** One request under a service that fails every call: four invocations,
    three sleeps, and the exception of the fourth. *)
Lemma retries_exhausted req (w : World) :
  kill w = None ->
  exists e1 e2 e3 e4 w',
    call_with_retries (remote_call (chat_create req)) MAX_RETRIES w = (Raise e4, w')
    /\ trace w' = trace w ++ exhausted_request e1 e2 e3 e4
    /\ out_file w' = out_file w /\ processed_ids w' = processed_ids w /\ kill w' = None.
Proof.
  intros Halive. unfold call_with_retries, py_range.
  change (Z.to_nat (MAX_RETRIES + 1 - 1)) with 4%nat. cbn [range_from retry_loop].
  rewrite (remote_call_alive _ w Halive).
  destruct (Hfail req (remote w)) as (e1 & s1 & ->).
  change (1 =? MAX_RETRIES) with false. cbv iota.
  unfold bind at 1. rewrite sleep_alive by reflexivity. cbn [retry_loop].
  rewrite remote_call_alive by reflexivity. cbn [remote].
  match goal with |- context [chat_create req ?s] =>
    destruct (Hfail req s) as (e2 & s2 & ->) end.
  change (1 + 1 =? MAX_RETRIES) with false. cbv iota.
  unfold bind at 1. rewrite sleep_alive by reflexivity. cbn [retry_loop].
  rewrite remote_call_alive by reflexivity. cbn [remote].
  match goal with |- context [chat_create req ?s] =>
    destruct (Hfail req s) as (e3 & s3 & ->) end.
  change (1 + 1 + 1 =? MAX_RETRIES) with false. cbv iota.
  unfold bind at 1. rewrite sleep_alive by reflexivity. cbn [retry_loop].
  rewrite remote_call_alive by reflexivity. cbn [remote].
  match goal with |- context [chat_create req ?s] =>
    destruct (Hfail req s) as (e4 & s4 & ->) end.
  change (1 + 1 + 1 + 1 =? MAX_RETRIES) with true. cbv iota.
  exists e1, e2, e3, e4. eexists. split; [reflexivity|]. cbn [trace out_file processed_ids kill].
  rewrite <- !app_assoc. auto.
Qed.

Lemma cameo3_events_exhausted text (w : World) :
  kill w = None ->
  exists e1 e2 e3 e4 w',
    Cameo3.get_cameo_events_with_llm text w = (Ret (events_error e4), w')
    /\ trace w' = trace w ++ exhausted_request e1 e2 e3 e4
    /\ out_file w' = out_file w /\ processed_ids w' = processed_ids w /\ kill w' = None.
Proof.
  intros Halive.
  destruct (retries_exhausted (Request TaskCameoEvents [text]) w Halive)
    as (e1 & e2 & e3 & e4 & w' & Hrun & Hrest).
  exists e1, e2, e3, e4, w'. split; [|exact Hrest].
  unfold Cameo3.get_cameo_events_with_llm, try_except, Cameo3.run_chat_completion, bind.
  rewrite Hrun. reflexivity.
Qed.

Lemma cameo3_summary_exhausted text (w : World) :
  kill w = None ->
  exists e1 e2 e3 e4 w',
    Cameo3.get_summary_with_llm text w = (Ret ("Error: " +:+ exn_msg e4), w')
    /\ trace w' = trace w ++ exhausted_request e1 e2 e3 e4
    /\ out_file w' = out_file w /\ processed_ids w' = processed_ids w /\ kill w' = None.
Proof.
  intros Halive.
  destruct (retries_exhausted (Request TaskSummary [text]) w Halive)
    as (e1 & e2 & e3 & e4 & w' & Hrun & Hrest).
  exists e1, e2, e3, e4, w'. split; [|exact Hrest].
  unfold Cameo3.get_summary_with_llm, try_except, Cameo3.run_chat_completion, bind.
  rewrite Hrun. reflexivity.
Qed.

Lemma societal_completion_exhausted t text (w : World) :
  kill w = None ->
  exists e1 e2 e3 e4 w',
    Societal.run_openai_completion t text w = (Raise e4, w')
    /\ trace w' = trace w ++ exhausted_request e1 e2 e3 e4
    /\ out_file w' = out_file w /\ processed_ids w' = processed_ids w /\ kill w' = None.
Proof.
  intros Halive.
  destruct (retries_exhausted (Request t [Societal.py_prefix 30000 text]) w Halive)
    as (e1 & e2 & e3 & e4 & w' & Hrun & Hrest).
  exists e1, e2, e3, e4, w'. split; [|exact Hrest].
  unfold Societal.run_openai_completion, bind. rewrite Hrun. reflexivity.
Qed.

(** X4.  What a row costs when the service fails every call: in both
    scripts each of the row's two requests is invoked [MAX_RETRIES = 4]
    times with sleeps of 5, 10 and 15 seconds in between, so the row takes
    eight invocations and a minute of sleep before its record is written
    (CAMEO-3.py), and half a second more for the pause that ends the row in
    Societal_sentiment.py. *)
Theorem failing_row_costs_full_budget r (w : World) lines :
  kill w = None ->
  out_file w = Some lines ->
  (Cameo3.row_content r <> "" ->
   Cameo3.row_news_id r ∉ processed_ids w ->
   exists a1 a2 a3 a4 b1 b2 b3 b4 w',
     Cameo3.loop_body r w = (Ret tt, w')
     /\ new_events w w' = exhausted_request a1 a2 a3 a4 ++ exhausted_request b1 b2 b3 b4
     /\ count_calls (new_events w w') = 8%nat
     /\ (total_sleep (new_events w w') == 60)%Q)
  /\ (Societal.row_news_id r <> "" ->
      Societal.row_content r <> "" ->
      Societal.row_news_id r ∉ processed_ids w ->
      exists a1 a2 a3 a4 b1 b2 b3 b4 w',
        Societal.loop_body r w = (Ret tt, w')
        /\ new_events w w'
           = exhausted_request a1 a2 a3 a4 ++ exhausted_request b1 b2 b3 b4 ++ [EvSleep (1 # 2)]
        /\ count_calls (new_events w w') = 8%nat
        /\ (total_sleep (new_events w w') == 121 # 2)%Q).
Proof.
  intros Halive Hfile. split.
  - intros Hc Hin. rewrite (cameo3_loop_body_runs r w Hc Hin).
    destruct (cameo3_events_exhausted (Cameo3.row_content r) w Halive)
      as (a1 & a2 & a3 & a4 & w1 & Hev & Etr1 & Hf1 & Hp1 & Hk1).
    destruct (cameo3_summary_exhausted (Cameo3.row_content r) w1 Hk1)
      as (b1 & b2 & b3 & b4 & w2 & Hsum & Etr2 & Hf2 & Hp2 & Hk2).
    exists a1, a2, a3, a4, b1, b2, b3, b4. eexists.
    unfold Cameo3.process_row, bind. rewrite Hev, Hsum. simpl.
    rewrite (append_record_alive _ w2 lines) by congruence. simpl.
    split; [reflexivity|].
    erewrite new_events_app
      with (evs := exhausted_request a1 a2 a3 a4 ++ exhausted_request b1 b2 b3 b4).
    2:{ simpl. rewrite Etr2, Etr1, <- app_assoc. reflexivity. }
    repeat split; reflexivity.
  - intros Hid Hc Hin. rewrite (societal_loop_body_runs r w Hid Hc Hin).
    destruct (societal_completion_exhausted TaskSentiment (Societal.row_content r) w Halive)
      as (a1 & a2 & a3 & a4 & w1 & Hev & Etr1 & Hf1 & Hp1 & Hk1).
    destruct (societal_completion_exhausted TaskSummary (Societal.row_content r) w1 Hk1)
      as (b1 & b2 & b3 & b4 & w2 & Hsum & Etr2 & Hf2 & Hp2 & Hk2).
    exists a1, a2, a3, a4, b1, b2, b3, b4. eexists.
    unfold Societal.process_row, Societal.get_societal_sentiment_with_llm,
      Societal.get_summary_with_llm, try_except, bind.
    rewrite Hev. simpl. rewrite Hsum. simpl.
    rewrite (to_csv_append_alive _ _ w2 lines) by congruence. simpl.
    rewrite sleep_alive by reflexivity. simpl.
    split; [reflexivity|].
    erewrite new_events_app
      with (evs := exhausted_request a1 a2 a3 a4 ++ exhausted_request b1 b2 b3 b4
                   ++ [EvSleep (1 # 2)]).
    2:{ simpl. rewrite Etr2, Etr1, <- !app_assoc. reflexivity. }
    repeat split; reflexivity.
Qed.

End Cost.

Section Payloads.
Context `{Platform}.

Lemma societal_completion_answers t text (w : World) content s' :
  kill w = None ->
  chat_create (Request t [Societal.py_prefix 30000 text]) (remote w) = (inr content, s') ->
  Societal.run_openai_completion t text w
  = (Ret content,
     mkWorld _ s' (trace w ++ [EvCall None]) (out_file w) (processed_ids w) None).
Proof.
  intros Halive Hans. unfold Societal.run_openai_completion, call_with_retries, bind.
  unfold py_range, MAX_RETRIES. simpl. rewrite (remote_call_alive _ w Halive), Hans.
  reflexivity.
Qed.

(** X5.  A reply without content ([None]) is not retried: the wrapper has
    returned when the missing content is noticed.  After that single
    invocation [get_cameo_events_with_llm] returns no event and the text of
    the [TypeError] of [json.loads(None)], the summary of CAMEO-3.py is the
    text of the [AttributeError] of [None.strip()], the sentiment function
    returns its error record with an empty description, and the summary of
    Societal_sentiment.py is the stripped empty string. *)
Theorem reply_without_content_is_not_retried text (w : World) s' :
  kill w = None ->
  (chat_create (Request TaskCameoEvents [text]) (remote w) = (inr None, s') ->
   exists w',
     Cameo3.get_cameo_events_with_llm text w = (Ret (events_error loads_None_error), w')
     /\ new_events w w' = [EvCall None] /\ remote w' = s')
  /\ (chat_create (Request TaskSummary [text]) (remote w) = (inr None, s') ->
      exists w',
        Cameo3.get_summary_with_llm text w
        = (Ret "Error: 'NoneType' object has no attribute 'strip'", w')
        /\ new_events w w' = [EvCall None] /\ remote w' = s')
  /\ (chat_create (Request TaskSentiment [Societal.py_prefix 30000 text]) (remote w)
      = (inr None, s') ->
      exists w',
        Societal.get_societal_sentiment_with_llm text w = (Ret (Societal.error_result ""), w')
        /\ new_events w w' = [EvCall None] /\ remote w' = s')
  /\ (chat_create (Request TaskSummary [Societal.py_prefix 30000 text]) (remote w)
      = (inr None, s') ->
      exists w',
        Societal.get_summary_with_llm text w = (Ret (py_strip ""), w')
        /\ new_events w w' = [EvCall None] /\ remote w' = s').
Proof.
  intros Halive. repeat split; intros Hans; eexists.
  - unfold Cameo3.get_cameo_events_with_llm, try_except, bind.
    rewrite (cameo3_chat_answers _ _ _ _ _ Halive Hans). simpl.
    repeat split. apply new_events_app. reflexivity.
  - unfold Cameo3.get_summary_with_llm, try_except, bind.
    rewrite (cameo3_chat_answers _ _ _ _ _ Halive Hans). simpl.
    repeat split. apply new_events_app. reflexivity.
  - unfold Societal.get_societal_sentiment_with_llm, try_except, bind.
    rewrite (societal_completion_answers _ _ _ _ _ Halive Hans). simpl.
    repeat split. apply new_events_app. reflexivity.
  - unfold Societal.get_summary_with_llm, try_except, bind.
    rewrite (societal_completion_answers _ _ _ _ _ Halive Hans). simpl.
    repeat split. apply new_events_app. reflexivity.
Qed.

(** The summary request of a row that is not terminated: it returns, after
    one invocation at least and four at most. *)
Lemma cameo3_summary_returns text (w : World) :
  kill w = None ->
  exists summary w' evs,
    Cameo3.get_summary_with_llm text w = (Ret summary, w')
    /\ trace w' = trace w ++ evs
    /\ (1 <= count_calls evs <= 4)%nat
    /\ out_file w' = out_file w /\ processed_ids w' = processed_ids w /\ kill w' = None.
Proof.
  intros Halive.
  destruct (client_returns _ w (frames_get_summary text) (get_summary_never_raises text) Halive)
    as (summary & w' & Hrun & Hf & Hp & Hk).
  destruct (calls_within_get_summary text _ _ _ Hrun) as (evs & Etr & Hc).
  exists summary, w', evs. repeat split; auto.
  (* at least one invocation *)
  unfold Cameo3.get_summary_with_llm, try_except, Cameo3.run_chat_completion in Hrun.
  unfold bind at 1 in Hrun. unfold bind at 1 in Hrun.
  unfold call_with_retries, py_range in Hrun.
  destruct (retry_loop _ _ _ w) as [ro wo] eqn:Hloop.
  apply retry_loop_alive in Hloop; [|unfold MAX_RETRIES; lia|unfold MAX_RETRIES; lia|exact Halive].
  destruct Hloop as (evs0 & Etr0 & Hk0 & Hcase).
  assert (Hone : (1 <= count_calls evs0)%nat).
  { assert (Hl : exists o, last evs0 = Some (EvCall o)).
    { destruct Hcase as [(v & _ & Hl)|(e & _ & Hl & _)]; eauto. }
    destruct Hl as (o & Hl). apply last_Some in Hl. destruct Hl as (l' & ->).
    rewrite count_calls_app. simpl. lia. }
  assert (Hw : trace w' = trace wo).
  { destruct ro as [[[s|]|]|e|]; simpl in Hrun; inversion Hrun; subst; reflexivity. }
  rewrite Hw, Etr0 in Etr. apply app_inv_head in Etr. subst evs. exact Hone.
Qed.

(** X6.  The reply to the event request is decoded but its shape is not
    checked: when it decodes to a JSON value that is not an object, both
    requests of the row are spent, then [cameo_data.get] in [main] raises
    [AttributeError] outside every [try]; the run ends there, nothing is
    written for the row and its identifier does not enter the set. *)
Theorem cameo3_reply_must_be_an_object r rest (w : World) payload v s1 :
  kill w = None ->
  Cameo3.row_content r <> "" ->
  Cameo3.row_news_id r ∉ processed_ids w ->
  chat_create (Request TaskCameoEvents [Cameo3.row_content r]) (remote w)
  = (inr (Some payload), s1) ->
  json_loads payload = inr v ->
  not_a_dict v ->
  exists w',
    Cameo3.main_loop (r :: rest) w = (Raise (AttributeError v "get"), w')
    /\ out_file w' = out_file w
    /\ processed_ids w' = processed_ids w
    /\ (2 <= count_calls (new_events w w') <= 5)%nat.
Proof.
  intros Halive Hc Hin Hans Hload Hshape.
  cbn [Cameo3.main_loop]. unfold bind at 1.
  rewrite (cameo3_loop_body_runs r w Hc Hin).
  unfold Cameo3.process_row. unfold bind at 1.
  unfold Cameo3.get_cameo_events_with_llm, try_except. unfold bind at 1.
  rewrite (cameo3_chat_answers _ _ _ _ _ Halive Hans). simpl py_json_loads.
  rewrite Hload. unfold ret at 1. unfold bind at 1.
  match goal with |- context [Cameo3.get_summary_with_llm _ ?w1] =>
    destruct (cameo3_summary_returns (Cameo3.row_content r) w1 eq_refl)
      as (summary & w2 & evs & Hsum & Etr & Hcount & Hf & Hp & Hk) end.
  rewrite Hsum. unfold bind at 1.
  assert (Hget : py_get v "events" (PList []) w2 = (Raise (AttributeError v "get"), w2)).
  { destruct v; try reflexivity. destruct (Hshape d). reflexivity. }
  rewrite Hget. exists w2. split; [reflexivity|]. simpl in Hf, Hp, Etr.
  split; [exact Hf|]. split; [exact Hp|].
  rewrite (new_events_app w w2 (EvCall None :: evs)).
  - simpl. lia.
  - rewrite Etr, <- app_assoc. reflexivity.
Qed.

Lemma write_events_dicts r news_id summary dicts : forall (w : World) lines,
  kill w = None -> out_file w = Some lines ->
  forall rest,
  exists w1,
    Cameo3.write_events r news_id summary (map PDict dicts ++ rest) w
    = Cameo3.write_events r news_id summary rest w1
    /\ out_file w1 = Some (lines ++ cameo3_event_lines r news_id summary dicts)
    /\ processed_ids w1 = processed_ids w /\ trace w1 = trace w
    /\ remote w1 = remote w /\ kill w1 = None.
Proof.
  induction dicts as [|d dicts IH]; intros w lines Halive Hfile rest.
  - exists w. simpl. rewrite app_nil_r. repeat split; auto.
  - simpl. unfold bind at 1. rewrite event_record_dict. unfold bind at 1.
    rewrite (append_record_alive _ w lines Hfile Halive).
    match goal with |- context [Cameo3.write_events _ _ _ (_ ++ _) ?w0] =>
      destruct (IH w0 _ eq_refl eq_refl rest) as (w1 & Hrun & Hf & Hp & Ht & Hr & Hk) end.
    exists w1. split; [exact Hrun|]. rewrite Hf, <- app_assoc. simpl in *. repeat split; auto.
Qed.

(** X7.  The items of [events] are not checked either: when the list holds
    an item that is not an object, the records of the events before it are
    appended, then [ev.get] raises [AttributeError]; the events after it are
    not written and the identifier does not enter the set, although the
    table now shows it. *)
Theorem cameo3_events_must_be_objects r content news_id (w : World) lines dicts bad rest :
  kill w = None ->
  out_file w = Some lines ->
  events_answer content (fun events => events = PList (map PDict dicts ++ bad :: rest)) ->
  not_a_dict bad ->
  exists summary w',
    Cameo3.process_row r content news_id w = (Raise (AttributeError bad "get"), w')
    /\ out_file w' = Some (lines ++ cameo3_event_lines r news_id summary dicts)
    /\ processed_ids w' = processed_ids w.
Proof.
  intros Halive Hfile Hans Hbad.
  destruct (cameo3_events_answered _ _ w Hans Halive) as (d & w1 & Hev & Hlist & Hf1 & Hp1 & Hk1).
  destruct (client_returns _ w1 (frames_get_summary content)
              (get_summary_never_raises content) Hk1) as (summary & w2 & Hsum & Hf2 & Hp2 & Hk2).
  exists summary. unfold Cameo3.process_row. unfold bind at 1. rewrite Hev.
  unfold bind at 1. rewrite Hsum. simpl py_get. unfold ret at 1. unfold bind at 1.
  rewrite Hlist.
  assert (Htruthy : truthy (PList (map PDict dicts ++ bad :: rest)) = true).
  { simpl. destruct dicts; reflexivity. }
  rewrite Htruthy. change (negb true) with false. cbv iota.
  unfold bind at 1. unfold bind at 1. unfold py_iter, ret at 1.
  destruct (write_events_dicts r news_id summary dicts w2 lines Hk2 ltac:(congruence)
              (bad :: rest)) as (w3 & Hrun & Hf3 & Hp3 & _).
  rewrite Hrun. exists w3. cbn [Cameo3.write_events]. unfold bind at 1.
  assert (Hrec : Cameo3.event_record r news_id summary bad w3
                 = (Raise (AttributeError bad "get"), w3)).
  { destruct bad; try reflexivity. destruct (Hbad d0). reflexivity. }
  rewrite Hrec. split; [reflexivity|]. split; [exact Hf3|]. congruence.
Qed.

End Payloads.

(** ** The sentiment function and its lenient decoder *)

Section Sentiment.
Context `{Platform}.

(** X8.  Whatever the service answers, [get_societal_sentiment_with_llm]
    hands no exception to its caller, and the dict it returns has exactly
    the five keys the record is built from, with a float under
    [sentiment_score]: the score column of the table never holds text. *)
Theorem sentiment_result_is_well_formed text (w : World) :
  never_raises (Societal.get_societal_sentiment_with_llm text)
  /\ forall d w',
       Societal.get_societal_sentiment_with_llm text w = (Ret d, w') ->
       map fst d = SENTIMENT_KEYS
       /\ exists score, lookup_key "sentiment_score" d = Some (PFloat score).
Proof.
  split; [apply get_societal_sentiment_never_raises|].
  intros d w' Hrun. unfold Societal.get_societal_sentiment_with_llm, try_except in Hrun.
  match type of Hrun with context [bind ?m ?k w] =>
    destruct (bind m k w) as [[d0|e|] w0] eqn:Hbody end.
  2:{ injection Hrun as <- <-. split; [reflexivity|]. eexists. reflexivity. }
  2:{ discriminate. }
  injection Hrun as <- <-.
  apply bind_inv in Hbody.
  destruct Hbody as [(content & w1 & _ & Hk)|[(e & _ & ?)|(_ & ?)]]; try discriminate.
  destruct content as [[|c s]|];
    try (injection Hk as <- <-; split; [reflexivity|eexists; reflexivity]).
  repeat (apply bind_inv in Hk;
          destruct Hk as [(? & ? & _ & Hk)|[(? & _ & ?)|(_ & ?)]]; try discriminate).
  injection Hk as <- <-. split; [reflexivity|]. eexists. reflexivity.
Qed.

Lemma parse_json_lenient_decoded c d (w : World) :
  c <> "" ->
  json_loads (unfenced c) = inr d ->
  Societal.parse_json_lenient c w = (Ret d, w).
Proof.
  intros Hc Hload. unfold Societal.parse_json_lenient.
  destruct (String.eqb_spec c "") as [?|_]; [contradiction|].
  unfold try_except, unfenced in *. rewrite Hload. reflexivity.
Qed.

(** X9.  How the score is converted.  For a reply that decodes to the
    object [d]: when [float(score)] returns, that float is the score; when
    it raises [ValueError] (text that is no number) the score is [0.0] and
    the other fields of the reply are kept; when it raises anything else (a
    [TypeError] for [null] or a list) the exception reaches the outer
    [except]: the whole reply is replaced by the error record, whose
    description is the text of the exception. *)
Theorem sentiment_score_conversion text (w : World) c s' d :
  kill w = None ->
  chat_create (Request TaskSentiment [Societal.py_prefix 30000 text]) (remote w)
  = (inr (Some c), s') ->
  c <> "" ->
  json_loads (unfenced c) = inr (PDict d) ->
  let score := default (PFloat 0) (lookup_key "sentiment_score" d) in
  exists w',
    new_events w w' = [EvCall None]
    /\ (forall f, py_float score = inr f ->
          Societal.get_societal_sentiment_with_llm text w = (Ret (sentiment_fields d f), w'))
    /\ (forall e, py_float score = inl e -> exn_class e = "ValueError" ->
          Societal.get_societal_sentiment_with_llm text w = (Ret (sentiment_fields d 0), w'))
    /\ (forall e, py_float score = inl e -> exn_class e <> "ValueError" ->
          Societal.get_societal_sentiment_with_llm text w
          = (Ret (Societal.error_result (exn_msg e)), w')).
Proof.
  intros Halive Hans Hc Hload score.
  exists (mkWorld _ s' (trace w ++ [EvCall None]) (out_file w) (processed_ids w) None). split.
  { apply new_events_app. reflexivity. }
  assert (Hrun : forall o r,
    Societal.try_except_ValueError (Societal.lift_outcome o) (ret 0%float)
      (mkWorld _ s' (trace w ++ [EvCall None]) (out_file w) (processed_ids w) None)
    = (r, mkWorld _ s' (trace w ++ [EvCall None]) (out_file w) (processed_ids w) None) ->
    py_float score = o ->
    Societal.get_societal_sentiment_with_llm text w
    = (match r with
       | Ret f => Ret (sentiment_fields d f)
       | Raise e => Ret (Societal.error_result (exn_msg e))
       | Killed => Killed
       end,
       mkWorld _ s' (trace w ++ [EvCall None]) (out_file w) (processed_ids w) None)).
  { intros o r Hconv Ho.
    unfold Societal.get_societal_sentiment_with_llm, try_except. unfold bind at 1.
    rewrite (societal_completion_answers _ _ _ _ _ Halive Hans).
    destruct c as [|a c]; [contradiction|].
    unfold bind at 1. rewrite (parse_json_lenient_decoded _ _ _ Hc Hload).
    simpl py_get. unfold ret at 1. unfold bind at 1. fold score. rewrite Ho.
    unfold bind at 1. rewrite Hconv. destruct r; reflexivity. }
  repeat split.
  - intros f Hf. apply (Hrun (inr f) (Ret f)); [reflexivity|exact Hf].
  - intros e He Hclass. apply (Hrun (inl e) (Ret 0%float)); [|exact He].
    unfold Societal.try_except_ValueError. simpl. rewrite Hclass. reflexivity.
  - intros e He Hclass. apply (Hrun (inl e) (Raise e)); [|exact He].
    unfold Societal.try_except_ValueError. simpl.
    destruct (String.eqb_spec (exn_class e) "ValueError"); [contradiction|reflexivity].
Qed.

(** X10.  [parse_json_lenient] has no effect on the world.  It returns the
    empty dict for the empty string without decoding anything; it returns
    what the decoder makes of the unfenced text when that decodes; when it
    does not, and the text holds no brace-delimited fragment, it returns the
    empty dict; and the only exception it raises is that of decoding such a
    fragment. *)
Theorem parse_json_lenient_cases s (w : World) :
  exists r,
    Societal.parse_json_lenient s w = (r, w)
    /\ r <> Killed
    /\ (s = "" -> r = Ret (PDict []))
    /\ (s <> "" -> forall v, json_loads (unfenced s) = inr v -> r = Ret v)
    /\ (s <> "" -> forall e0, json_loads (unfenced s) = inl e0 ->
          (re_search_object (unfenced s) = None -> r = Ret (PDict []))
          /\ (forall fragment v, re_search_object (unfenced s) = Some fragment ->
                json_loads fragment = inr v -> r = Ret v)
          /\ (forall fragment e, re_search_object (unfenced s) = Some fragment ->
                json_loads fragment = inl e -> r = Raise e))
    /\ (forall e, r = Raise e ->
          exists fragment, re_search_object (unfenced s) = Some fragment
                           /\ json_loads fragment = inl e).
Proof.
  unfold Societal.parse_json_lenient. destruct (String.eqb_spec s "") as [->|Hs].
  - exists (Ret (PDict [])). repeat split; try discriminate; try contradiction.
  - fold (unfenced s). unfold try_except, Societal.lift_outcome.
    destruct (json_loads (unfenced s)) as [e0|v] eqn:Hload; simpl.
    + destruct (re_search_object (unfenced s)) as [fragment|] eqn:Hre.
      * destruct (json_loads fragment) as [e|v] eqn:Hfrag; simpl; eexists;
          (split; [reflexivity|]); repeat split; try discriminate; try contradiction;
          try congruence.
        intros e' [= <-]. eauto.
      * eexists. split; [reflexivity|]. repeat split; try discriminate; try contradiction.
    + eexists. split; [reflexivity|]. repeat split; try discriminate; try contradiction.
      intros _ v' [= ->]. reflexivity.
Qed.

End Sentiment.

(** ** What the runs write, foreign tables, repeated identifiers *)

Section Appends.
Context `{Platform}.
Variable P : line -> Prop.

Lemma appends_frames {A} (m : M A) : frames m -> appends P m.
Proof.
  intros Hm w lines r w' Hfile Hrun. destruct (Hm _ _ _ Hrun) as (Hf & _).
  exists []. rewrite app_nil_r. split; [congruence|constructor].
Qed.

Lemma appends_bind {A B} (m : M A) (k : A -> M B) :
  appends P m -> (forall a, appends P (k a)) -> appends P (bind m k).
Proof.
  intros Hm Hk w lines r w' Hfile Hrun. apply bind_inv in Hrun.
  destruct Hrun as [(a & w1 & Em & Ek)|[(e & Em & ->)|(Em & ->)]];
    destruct (Hm _ _ _ _ Hfile Em) as (new1 & Hf1 & Hall1).
  - destruct (Hk a _ _ _ _ Hf1 Ek) as (new2 & Hf2 & Hall2).
    exists (new1 ++ new2). rewrite Hf2, app_assoc. split; [reflexivity|].
    apply Forall_app. split; assumption.
  - exists new1. split; assumption.
  - exists new1. split; assumption.
Qed.

Lemma appends_to_csv_append columns record :
  P (RecordLine (select_columns columns record)) ->
  appends P (to_csv_append columns false record).
Proof.
  intros HP w lines r w' Hfile Hrun.
  destruct (to_csv_append_existing _ _ _ _ _ _ Hfile Hrun) as (_ & _ & [[_ Hf]|[_ Hf]]).
  - exists []. rewrite app_nil_r. split; [exact Hf|constructor].
  - eexists. split; [exact Hf|]. repeat constructor. exact HP.
Qed.

Lemma appends_row_loop (body : row -> M unit) rows :
  (forall r, appends P (body r)) -> appends P (row_loop body rows).
Proof.
  intros Hbody. induction rows as [|r rest IH]; simpl.
  - apply appends_frames, frames_ret.
  - apply appends_bind; [apply Hbody|]. intros _. exact IH.
Qed.

End Appends.

Section Width.
Context `{Platform}.

Lemma select_columns_width columns record :
  record_of_width (length columns) (RecordLine (select_columns columns record)).
Proof. eexists. split; [reflexivity|]. unfold select_columns. apply length_map. Qed.

Lemma appends_cameo3_append_record record :
  appends (record_of_width (length Cameo3.OUTPUT_COLUMNS)) (Cameo3.append_record record).
Proof.
  intros w lines r w' Hfile Hrun. unfold Cameo3.append_record in Hrun.
  rewrite Hfile in Hrun. simpl in Hrun.
  eapply appends_to_csv_append; [apply select_columns_width|exact Hfile|exact Hrun].
Qed.

Lemma frames_event_record r news_id summary ev :
  frames (Cameo3.event_record r news_id summary ev).
Proof.
  destruct ev; try apply frames_raise. unfold Cameo3.event_record. simpl. apply frames_ret.
Qed.

Lemma appends_cameo3_write_events r news_id summary events :
  appends (record_of_width (length Cameo3.OUTPUT_COLUMNS))
    (Cameo3.write_events r news_id summary events).
Proof.
  induction events as [|ev rest IH]; simpl; [apply appends_frames, frames_ret|].
  apply appends_bind; [apply appends_frames, frames_event_record|]. intros record.
  apply appends_bind; [apply appends_cameo3_append_record|]. intros _. exact IH.
Qed.

Lemma appends_silent {A} P (m : M A) :
  (forall w r w', m w = (r, w') -> out_file w' = out_file w) -> appends P m.
Proof.
  intros Hm w lines r w' Hfile Hrun. exists []. rewrite app_nil_r.
  split; [rewrite (Hm _ _ _ Hrun); exact Hfile|constructor].
Qed.

Lemma appends_cameo3_loop_body r :
  appends (record_of_width (length Cameo3.OUTPUT_COLUMNS)) (Cameo3.loop_body r).
Proof.
  intros w lines res w' Hfile Hrun. unfold Cameo3.loop_body in Hrun.
  destruct (String.eqb (Cameo3.row_content r) "").
  { injection Hrun as <- <-. exists []. rewrite app_nil_r. split; [exact Hfile|constructor]. }
  destruct (bool_decide (Cameo3.row_news_id r ∈ processed_ids w)).
  { injection Hrun as <- <-. exists []. rewrite app_nil_r. split; [exact Hfile|constructor]. }
  revert w lines res w' Hfile Hrun. unfold Cameo3.process_row.
  apply appends_bind; [apply appends_frames, frames_get_cameo_events|]. intros cameo_data.
  apply appends_bind; [apply appends_frames, frames_get_summary|]. intros summary.
  apply appends_bind; [apply appends_frames, frames_py_get|]. intros events.
  apply appends_bind.
  - destruct (negb (truthy events)); [apply appends_cameo3_append_record|].
    apply appends_bind; [apply appends_frames, frames_py_iter|]. intros items.
    apply appends_cameo3_write_events.
  - intros _. apply appends_silent. intros w r0 w' [= <- <-]. reflexivity.
Qed.

Lemma appends_societal_loop_body r :
  appends (record_of_width (length Societal.OUTPUT_COLUMNS)) (Societal.loop_body r).
Proof.
  intros w lines res w' Hfile Hrun. unfold Societal.loop_body in Hrun.
  destruct (_ || _).
  { injection Hrun as <- <-. exists []. rewrite app_nil_r. split; [exact Hfile|constructor]. }
  revert w lines res w' Hfile Hrun. unfold Societal.process_row.
  apply appends_bind; [apply appends_frames, frames_get_societal_sentiment|]. intros sent.
  apply appends_bind; [apply appends_frames, frames_societal_summary|]. intros summary.
  apply appends_bind; [apply appends_to_csv_append, select_columns_width|]. intros _.
  apply appends_bind.
  - apply appends_silent. intros w r0 w' [= <- <-]. reflexivity.
  - intros _. apply appends_frames, frames_sleep.
Qed.

Lemma appends_cameo3_main env :
  appends (record_of_width (length Cameo3.OUTPUT_COLUMNS)) (Cameo3.main env).
Proof.
  unfold Cameo3.main. destruct (data_csv env) as [[e|rows]|];
    try apply appends_frames, frames_raise.
  apply appends_bind.
  { intros w lines r w' Hfile Hrun. unfold Cameo3.ensure_output_csv in Hrun.
    rewrite Hfile in Hrun. injection Hrun as <- <-. exists []. rewrite app_nil_r.
    split; [exact Hfile|constructor]. }
  intros _. apply appends_bind.
  { apply appends_silent. intros w r w' Hrun. unfold Cameo3.load_existing_results in Hrun.
    assert (Hw : w' = w)
      by (destruct (out_file w) as [[|first body]|]; injection Hrun as <- <-; reflexivity).
    rewrite Hw. reflexivity. }
  intros df. apply appends_bind.
  { apply appends_silent. unfold Cameo3.existing_ids.
    destruct (df_column df "NewsID"); intros w r w' [= <- <-]; reflexivity. }
  intros ids. apply appends_bind.
  { apply appends_silent. intros w r w' [= <- <-]. reflexivity. }
  intros _. rewrite cameo3_main_loop_eq. apply appends_row_loop, appends_cameo3_loop_body.
Qed.

Lemma appends_societal_main env :
  appends (record_of_width (length Societal.OUTPUT_COLUMNS)) (Societal.main env).
Proof.
  unfold Societal.main. destruct (data_csv env) as [[e|rows]|];
    try apply appends_frames, frames_raise.
  apply appends_bind.
  { intros w lines r w' Hfile Hrun.
    rewrite Hfile in Hrun. injection Hrun as <- <-. exists []. rewrite app_nil_r.
    split; [exact Hfile|constructor]. }
  intros _. apply appends_bind.
  { apply appends_silent. intros w r w' Hrun.
    assert (Hw : w' = w)
      by (destruct (out_file w) as [[|first body]|]; injection Hrun as <- <-; reflexivity).
    rewrite Hw. reflexivity. }
  intros df. apply appends_bind.
  { apply appends_silent. destruct (Societal.df_empty df).
    - intros w r w' [= <- <-]. reflexivity.
    - destruct (df_column df Societal.NEWS_ID_COLUMN); intros w r w' [= <- <-]; reflexivity. }
  intros ids. apply appends_bind.
  { apply appends_silent. intros w r w' [= <- <-]. reflexivity. }
  intros _. rewrite societal_main_loop_eq. apply appends_row_loop, appends_societal_loop_body.
Qed.

(** X11.  CAMEO-3.py and Societal_sentiment.py only ever add to their output
    file, whatever it holds and wherever the run stops: the lines found stay
    in place and every line added is a record with one cell per output
    column (13 and 10); and on a missing file the first line written is the
    header. *)
Theorem runs_append_full_width_records env (w : World) res w' :
  (Cameo3.script env w = (res, w') ->
   (forall lines, out_file w = Some lines ->
      exists new, out_file w' = Some (lines ++ new) /\ Forall (record_of_width 13) new)
   /\ (out_file w = None ->
       out_file w' = None
       \/ exists new, out_file w' = Some (HeaderLine Cameo3.OUTPUT_COLUMNS :: new)
                      /\ Forall (record_of_width 13) new))
  /\ (Societal.script env w = (res, w') ->
      (forall lines, out_file w = Some lines ->
         exists new, out_file w' = Some (lines ++ new) /\ Forall (record_of_width 10) new)
      /\ (out_file w = None ->
          out_file w' = None
          \/ exists new, out_file w' = Some (HeaderLine Societal.OUTPUT_COLUMNS :: new)
                         /\ Forall (record_of_width 10) new)).
Proof.
  split; intros Hrun.
  - unfold Cameo3.script in Hrun.
    assert (Hno : res = Raise (Exn "ValueError" "OPENAI_API_KEY environment variable missing.")
                  /\ w' = w \/ Cameo3.main env w = (res, w')).
    { destruct (OPENAI_API_KEY env) as [[|c key]|]; auto; injection Hrun as <- <-; auto. }
    clear Hrun. destruct Hno as [[_ ->]|Hrun].
    { split; [intros lines Hfile; exists []; rewrite app_nil_r; split; [exact Hfile|constructor]
             |intros Hfile; left; exact Hfile]. }
    split.
    + intros lines Hfile. exact (appends_cameo3_main env _ _ _ _ Hfile Hrun).
    + intros Hfile. destruct (data_csv env) as [[e|rows]|] eqn:Hdata.
      * unfold Cameo3.main in Hrun. rewrite Hdata in Hrun. injection Hrun as <- <-. auto.
      * rewrite (cameo3_main_creates _ _ _ Hdata Hfile) in Hrun.
        destruct (tick w) as [[[]|e|] wt] eqn:Ht.
        -- right. eapply (appends_cameo3_main env) in Hrun; [|reflexivity].
           destruct Hrun as (new & Hf & Hall). exists new. split; [exact Hf|exact Hall].
        -- injection Hrun as <- <-. left. rewrite (tick_file _ _ _ Ht). exact Hfile.
        -- injection Hrun as <- <-. left. rewrite (tick_file _ _ _ Ht). exact Hfile.
      * unfold Cameo3.main in Hrun. rewrite Hdata in Hrun. injection Hrun as <- <-. auto.
  - unfold Societal.script in Hrun.
    assert (Hno : res = Raise (Exn "ValueError" "OPENAI_API_KEY environment variable missing.")
                  /\ w' = w \/ Societal.main env w = (res, w')).
    { destruct (OPENAI_API_KEY env) as [[|c key]|]; auto; injection Hrun as <- <-; auto. }
    clear Hrun. destruct Hno as [[_ ->]|Hrun].
    { split; [intros lines Hfile; exists []; rewrite app_nil_r; split; [exact Hfile|constructor]
             |intros Hfile; left; exact Hfile]. }
    split.
    + intros lines Hfile. exact (appends_societal_main env _ _ _ _ Hfile Hrun).
    + intros Hfile. destruct (data_csv env) as [[e|rows]|] eqn:Hdata.
      * unfold Societal.main in Hrun. rewrite Hdata in Hrun. injection Hrun as <- <-. auto.
      * rewrite (societal_main_creates _ _ _ Hdata Hfile) in Hrun.
        destruct (tick w) as [[[]|e|] wt] eqn:Ht.
        -- right. eapply (appends_societal_main env) in Hrun; [|reflexivity].
           destruct Hrun as (new & Hf & Hall). exists new. split; [exact Hf|exact Hall].
        -- injection Hrun as <- <-. left. rewrite (tick_file _ _ _ Ht). exact Hfile.
        -- injection Hrun as <- <-. left. rewrite (tick_file _ _ _ Ht). exact Hfile.
      * unfold Societal.main in Hrun. rewrite Hdata in Hrun. injection Hrun as <- <-. auto.
Qed.

End Width.

Section ForeignTable.
Context `{Platform}.



End ForeignTable.

Section Duplicates.
Context `{Platform}.

Lemma cameo3_body_marks r (w : World) lines w1 :
  out_file w = Some lines ->
  Cameo3.loop_body r w = (Ret tt, w1) ->
  (exists lines1, out_file w1 = Some lines1)
  /\ processed_ids w ⊆ processed_ids w1
  /\ (cameo3_blank r = false -> Cameo3.row_news_id r ∈ processed_ids w1).
Proof.
  intros Hfile Hrun. unfold cameo3_blank.
  unfold Cameo3.loop_body in Hrun.
  destruct (String.eqb (Cameo3.row_content r) "") eqn:Hc.
  { injection Hrun as <-. split; [eauto|]. split; [reflexivity|discriminate]. }
  destruct (bool_decide (Cameo3.row_news_id r ∈ processed_ids w)) eqn:Hin.
  { injection Hrun as <-. apply bool_decide_eq_true in Hin.
    split; [eauto|]. split; [reflexivity|auto]. }
  destruct (process_row_spec _ _ _ _ _ _ _ Hfile Hrun) as (new & Hf & _ & _ & Hcase).
  split; [eauto|]. destruct Hcase as [[_ Hne]|(_ & -> & _)]; [congruence|].
  split; [set_solver|]. intros _. set_solver.
Qed.

Lemma societal_body_marks r (w : World) lines w1 :
  out_file w = Some lines ->
  Societal.loop_body r w = (Ret tt, w1) ->
  (exists lines1, out_file w1 = Some lines1)
  /\ processed_ids w ⊆ processed_ids w1
  /\ (societal_blank r = false -> Societal.row_news_id r ∈ processed_ids w1).
Proof.
  intros Hfile Hrun. unfold societal_blank.
  unfold Societal.loop_body in Hrun.
  destruct (String.eqb (Societal.row_news_id r) "" || String.eqb (Societal.row_content r) "")
    eqn:Hc; simpl in Hrun.
  { injection Hrun as <-. split; [eauto|]. split; [reflexivity|discriminate]. }
  destruct (bool_decide (Societal.row_news_id r ∈ processed_ids w)) eqn:Hin; simpl in Hrun.
  { injection Hrun as <-. apply bool_decide_eq_true in Hin.
    split; [eauto|]. split; [reflexivity|auto]. }
  destruct (societal_process_row_spec _ _ _ _ _ _ _ Hfile Hrun)
    as (_ & [(_ & _ & Hne)|(record & Hf & _ & ->)]); [congruence|].
  split; [eauto|]. split; [set_solver|]. intros _. set_solver.
Qed.

(** The loop of a body that puts the identifier of every row it does not
    pass over into the set runs as the loop on the first occurrences. *)
Lemma row_loop_first_occurrences (body : row -> M unit) (blank : row -> bool)
    (id_of : row -> string) :
  (forall r (w : World), id_of r ∈ processed_ids w -> body r w = (Ret tt, w)) ->
  (forall r (w : World) lines w1,
     out_file w = Some lines -> body r w = (Ret tt, w1) ->
     (exists lines1, out_file w1 = Some lines1)
     /\ processed_ids w ⊆ processed_ids w1
     /\ (blank r = false -> id_of r ∈ processed_ids w1)) ->
  forall rows (seen : gset string) (w : World) lines,
  out_file w = Some lines ->
  seen ⊆ processed_ids w ->
  row_loop body rows w = row_loop body (first_occurrences blank id_of seen rows) w.
Proof.
  intros Hskip Hmarks. induction rows as [|r rest IH]; intros seen w lines Hfile Hseen;
    [reflexivity|].
  simpl. destruct (bool_decide (id_of r ∈ seen)) eqn:Hin.
  - apply bool_decide_eq_true in Hin. unfold bind at 1.
    rewrite (Hskip r w) by set_solver. eapply IH; eassumption.
  - simpl. unfold bind. destruct (body r w) as [[[]|e|] w1] eqn:Hb; try reflexivity.
    destruct (Hmarks _ _ _ _ Hfile Hb) as ((lines1 & Hf1) & Hsub & Hmark).
    eapply IH; [exact Hf1|]. destruct (blank r); [set_solver|].
    specialize (Hmark eq_refl). set_solver.
Qed.

(** X13.  Within one run an identifier is classified at most once: a row
    that repeats the identifier of an earlier row with content is passed
    over, whatever it holds, so the loop runs as on the input without such
    rows.  In CAMEO-3.py and in Societal_sentiment.py (where a row without
    identifier is passed over as well). *)
Theorem repeated_identifiers_are_passed_over rows (w : World) lines :
  out_file w = Some lines ->
  Cameo3.main_loop rows w
  = Cameo3.main_loop (first_occurrences cameo3_blank Cameo3.row_news_id ∅ rows) w
  /\ Societal.main_loop rows w
     = Societal.main_loop (first_occurrences societal_blank Societal.row_news_id ∅ rows) w.
Proof.
  intros Hfile. split.
  - rewrite !cameo3_main_loop_eq.
    eapply (row_loop_first_occurrences Cameo3.loop_body cameo3_blank Cameo3.row_news_id);
      [apply cameo3_body_skip|apply cameo3_body_marks|exact Hfile|set_solver].
  - rewrite !societal_main_loop_eq.
    eapply (row_loop_first_occurrences Societal.loop_body societal_blank Societal.row_news_id);
      [apply societal_body_skip|apply societal_body_marks|exact Hfile|set_solver].
Qed.

End Duplicates.

(** ** Filter-3.2.py *)

Section Filter.
Context `{Platform}.








Lemma sleeps_of_calls outcomes : sleeps_of (map EvCall outcomes) = [].
Proof. induction outcomes as [|o rest IH]; [reflexivity|exact IH]. Qed.

Lemma count_calls_calls outcomes : count_calls (map EvCall outcomes) = length outcomes.
Proof. induction outcomes as [|o rest IH]; simpl; [|rewrite IH]; reflexivity. Qed.



(** X16.  Filter-3.2.py without rows to classify.  When the input file is
    missing, [main] returns without an exception and without any effect
    (where CAMEO-3.py raises).  When the input has no row, the run writes a
    file whose header names no column and then raises [KeyError] at the
    first line of its report. *)
Theorem filter32_without_rows env (w : World) :
  (exists key, OPENAI_API_KEY env = Some key /\ key <> "") ->
  (data_csv env = None -> Filter32.script env w = (Ret tt, w))
  /\ (data_csv env = Some (inr []) -> kill w = None ->
      Filter32.script env w
      = (Raise (Exn "KeyError" "'Is_Relevant'"),
         mkWorld _ (remote w) (trace w) (Some [HeaderLine []]) (processed_ids w) None)).
Proof.
  intros (key & Hkey & Hne).
  assert (Hs : Filter32.script env w = Filter32.main env w).
  { unfold Filter32.script. rewrite Hkey. destruct key; [congruence|reflexivity]. }
  rewrite Hs. unfold Filter32.main. split; intros Hdata; rewrite Hdata; [reflexivity|].
  intros Halive. simpl. unfold bind, ret, to_csv_write, bind. rewrite (tick_alive w Halive).
  unfold set_out_file. rewrite Halive. reflexivity.
Qed.

End Filter.

(** ** The Hurriyet filters *)

Section Keywords.
Context `{Text}.

Lemma append_nil (b : string) : "" +:+ b = b.
Proof. reflexivity. Qed.

Lemma append_cons c (a b : string) : String c a +:+ b = String c (a +:+ b).
Proof. reflexivity. Qed.

Lemma prefix_inv k : forall t, String.prefix k t = true -> exists b, t = k +:+ b.
Proof.
  induction k as [|c k IH]; intros t Hp.
  - exists t. reflexivity.
  - destruct t as [|c' t]; simpl in Hp; [discriminate|].
    destruct (Ascii.ascii_dec c c') as [->|]; [|discriminate].
    destruct (IH t Hp) as (b & ->). exists b. reflexivity.
Qed.

Lemma prefix_app k b : String.prefix k (k +:+ b) = true.
Proof.
  induction k as [|c k IH].
  - rewrite append_nil. destruct b; reflexivity.
  - rewrite append_cons. simpl. destruct (Ascii.ascii_dec c c); [exact IH|congruence].
Qed.

Lemma string_app_assoc (a b c : string) : (a +:+ b) +:+ c = a +:+ (b +:+ c).
Proof.
  induction a as [|x a IH]; [reflexivity|]. rewrite !append_cons, IH. reflexivity.
Qed.

Lemma py_in_inv k : forall t,
  FilterHurriyet.py_in k t = true -> exists a b, t = a +:+ k +:+ b.
Proof.
  induction t as [|c t IH]; cbn [FilterHurriyet.py_in]; intros Hin.
  - rewrite orb_false_r in Hin. destruct k; [|discriminate]. exists "", "". reflexivity.
  - apply orb_true_iff in Hin. destruct Hin as [Hp|Hin].
    + destruct (prefix_inv _ _ Hp) as (b & Hb). exists "", b. exact Hb.
    + destruct (IH Hin) as (a & b & ->). exists (String c a), b. reflexivity.
Qed.

Lemma py_in_here k b : FilterHurriyet.py_in k (k +:+ b) = true.
Proof.
  destruct (k +:+ b) eqn:E; cbn [FilterHurriyet.py_in]; rewrite <- E, prefix_app; reflexivity.
Qed.

Lemma py_in_app k a b : FilterHurriyet.py_in k (a +:+ k +:+ b) = true.
Proof.
  induction a as [|c a IH].
  - rewrite append_nil. apply py_in_here.
  - rewrite append_cons. cbn [FilterHurriyet.py_in]. rewrite IH. apply orb_true_r.
Qed.

(** Containment is transitive. *)
Lemma py_in_trans k t t' :
  FilterHurriyet.py_in k t = true -> FilterHurriyet.py_in t t' = true ->
  FilterHurriyet.py_in k t' = true.
Proof.
  intros Hk Ht. destruct (py_in_inv _ _ Hk) as (a & b & ->).
  destruct (py_in_inv _ _ Ht) as (a' & b' & ->).
  rewrite !string_app_assoc, <- (string_app_assoc a' a). apply py_in_app.
Qed.

Lemma any_in_mono keywords t t' :
  FilterHurriyet.py_in t t' = true ->
  FilterHurriyet.any_in keywords t = true -> FilterHurriyet.any_in keywords t' = true.
Proof.
  intros Ht. unfold FilterHurriyet.any_in. rewrite !existsb_exists.
  intros (k & Hk & Hin). exists k. split; [exact Hk|]. eapply py_in_trans; eassumption.
Qed.

Lemma any_in_app ks1 ks2 t :
  FilterHurriyet.any_in (ks1 ++ ks2) t
  = FilterHurriyet.any_in ks1 t || FilterHurriyet.any_in ks2 t.
Proof. apply existsb_app. Qed.

(** X17.  [cheap_keyword_filter] lets a text through only if it names a
    country: political terms alone never do, nor does the empty text.  And
    it is monotone: a text that holds (once both are lowercased) a text the
    filter lets through is let through as well, so adding to an article
    never gets it rejected. *)
Theorem cheap_keyword_filter_needs_a_country text :
  (FilterHurriyet.cheap_keyword_filter text = true ->
   text <> "" /\ FilterHurriyet.any_in country_keywords (py_lower text) = true)
  /\ (forall text',
        text' <> "" ->
        FilterHurriyet.py_in (py_lower text) (py_lower text') = true ->
        FilterHurriyet.cheap_keyword_filter text = true ->
        FilterHurriyet.cheap_keyword_filter text' = true).
Proof.
  unfold FilterHurriyet.cheap_keyword_filter. split.
  - destruct (String.eqb_spec text "") as [->|Hne]; [discriminate|]. intros Hpass.
    split; [exact Hne|]. unfold country_keywords.
    rewrite (app_assoc FilterHurriyet.israel_en), (app_assoc (_ ++ _) FilterHurriyet.israel_he).
    rewrite <- (app_assoc FilterHurriyet.israel_en). rewrite any_in_app.
    destruct (FilterHurriyet.any_in (FilterHurriyet.israel_en ++ _ ++ _) (py_lower text));
      [reflexivity|].
    destruct (FilterHurriyet.any_in (FilterHurriyet.turkey_en ++ _ ++ _) (py_lower text));
      [reflexivity|].
    simpl in Hpass. rewrite andb_false_r in Hpass. discriminate.
  - intros text' Hne' Hin. destruct (String.eqb_spec text "") as [->|Hne]; [discriminate|].
    destruct (String.eqb_spec text' "") as [->|_]; [contradiction|].
    pose proof (fun ks => any_in_mono ks _ _ Hin) as Hmono.
    pose proof (Hmono (FilterHurriyet.israel_en ++ FilterHurriyet.israel_tr
                       ++ FilterHurriyet.israel_he)) as HI.
    pose proof (Hmono (FilterHurriyet.turkey_en ++ FilterHurriyet.turkey_tr
                       ++ FilterHurriyet.turkey_he)) as HT.
    pose proof (Hmono FilterHurriyet.political_terms) as HP.
    clear Hmono.
    destruct (FilterHurriyet.any_in (FilterHurriyet.israel_en ++ _ ++ _) (py_lower text));
      destruct (FilterHurriyet.any_in (FilterHurriyet.turkey_en ++ _ ++ _) (py_lower text));
      destruct (FilterHurriyet.any_in FilterHurriyet.political_terms (py_lower text));
      destruct (FilterHurriyet.any_in (FilterHurriyet.israel_en ++ _ ++ _) (py_lower text'));
      destruct (FilterHurriyet.any_in (FilterHurriyet.turkey_en ++ _ ++ _) (py_lower text'));
      destruct (FilterHurriyet.any_in FilterHurriyet.political_terms (py_lower text'));
      cbn [andb orb]; intros Hpass; try reflexivity; try discriminate;
      first [ specialize (HI eq_refl); discriminate
            | specialize (HT eq_refl); discriminate
            | specialize (HP eq_refl); discriminate ].
Qed.

End Keywords.

Section HurriyetLoop.
Context `{Platform} `{Text}.

(** One call of [llm_relevance_filter]: no exception leaves it, and it makes
    one invocation, exactly one when the process is not terminated. *)
Lemma llm_relevance_filter_spec text (w : World) res w' :
  FilterHurriyet.llm_relevance_filter text w = (res, w') ->
  (forall e, res <> Raise e)
  /\ exists evs, trace w' = trace w ++ evs
       /\ (count_calls evs <= 1)%nat
       /\ (kill w = None -> kill w' = None /\ count_calls evs = 1%nat /\ res <> Killed).
Proof.
  intros Hrun. split.
  { intros e ->. revert Hrun. unfold FilterHurriyet.llm_relevance_filter.
    apply never_raises_try_except. intros e0. apply never_raises_ret. }
  unfold FilterHurriyet.llm_relevance_filter, try_except in Hrun.
  match type of Hrun with context [bind ?m ?k w] =>
    destruct (bind m k w) as [r0 w0] eqn:Hbody end.
  assert (Hw : w' = w0) by (destruct r0; injection Hrun as _ <-; reflexivity).
  assert (Hk : res = Killed <-> r0 = Killed).
  { destruct r0; injection Hrun as <- _; split; try discriminate; reflexivity. }
  subst w0. clear Hrun.
  apply bind_inv in Hbody.
  assert (Htail : forall response (w1 : World) r1 w2,
    (result <- py_json_loads response ;; py_get result "relevant" (PBool false)) w1 = (r1, w2) ->
    w2 = w1 /\ r1 <> Killed).
  { intros response w1 r1 w2. unfold bind, py_json_loads. destruct response as [c|].
    - destruct (json_loads c) as [e|result]; simpl.
      + intros [= <- <-]. split; [reflexivity|discriminate].
      + destruct result; simpl; intros [= <- <-]; split; try reflexivity; discriminate.
    - intros [= <- <-]. split; [reflexivity|discriminate]. }
  assert (Hcall : forall r1 (w1 : World),
    remote_call (chat_create (Request TaskRelevance [text])) w = (r1, w1) ->
    exists evs, trace w1 = trace w ++ evs /\ (count_calls evs <= 1)%nat
      /\ (kill w = None -> kill w1 = None /\ count_calls evs = 1%nat /\ r1 <> Killed)).
  { intros r1 w1 Hc. destruct (calls_within_remote_call _ _ _ _ Hc) as (evs & Etr & Hle).
    exists evs. split; [exact Etr|]. split; [exact Hle|]. intros Halive.
    rewrite (remote_call_alive _ w Halive) in Hc.
    destruct (chat_create _ (remote w)) as [[e|a] s']; injection Hc as <- <-; simpl in *;
      apply app_inv_head in Etr; subst evs; repeat split; auto; discriminate. }
  destruct Hbody as [(response & w1 & Hc & Hrest)|[(e & Hc & ->)|(Hc & ->)]].
  - destruct (Htail _ _ _ _ Hrest) as [-> Hnk]. destruct (Hcall _ _ Hc) as (evs & Etr & Hle & Ha).
    exists evs. repeat split; auto; try (apply Ha; assumption).
    intros Hres. apply Hk in Hres. contradiction.
  - destruct (Hcall _ _ Hc) as (evs & Etr & Hle & Ha).
    exists evs. repeat split; auto; try (apply Ha; assumption).
    intros Hres. apply Hk in Hres. discriminate.
  - destruct (Hcall _ _ Hc) as (evs & Etr & Hle & Ha).
    exists evs. repeat split; auto; try (apply Ha; assumption).
    intros _. destruct (Ha ltac:(assumption)) as (_ & _ & Hne). congruence.
Qed.

Lemma hurriyet_loop_spec df : forall acc (w : World) res w',
  FilterHurriyet.main_loop df acc w = (res, w') ->
  (forall e, res <> Raise e)
  /\ (exists evs, trace w' = trace w ++ evs
        /\ (count_calls evs <= length (keyword_passes df))%nat
        /\ (kill w = None ->
            count_calls evs = length (keyword_passes df) /\ res <> Killed))
  /\ (forall out, res = Ret out ->
        FilterHurriyet.keyword_filtered_rows out
        = FilterHurriyet.keyword_filtered_rows acc ++ keyword_passes df
        /\ (exists confirmed,
              FilterHurriyet.final_filtered_rows out
              = FilterHurriyet.final_filtered_rows acc ++ confirmed
              /\ sublist confirmed (keyword_passes df))
        /\ length (FilterHurriyet.debug_records out)
           = (length (FilterHurriyet.debug_records acc) + length df)%nat).
Proof.
  induction df as [|r rest IH]; intros acc w res w' Hrun.
  - injection Hrun as <- <-. split; [discriminate|]. split.
    + exists []. rewrite app_nil_r. simpl. repeat split; auto; discriminate.
    + intros out [= <-]. simpl. rewrite !app_nil_r. split; [reflexivity|]. split; [|lia].
      exists []. rewrite app_nil_r. split; [reflexivity|constructor].
  - cbn [FilterHurriyet.main_loop] in Hrun. fold (hurriyet_content r) in Hrun.
    unfold keyword_passes. cbn [List.filter]. fold (keyword_passes rest).
    destruct (FilterHurriyet.cheap_keyword_filter (hurriyet_content r)) eqn:Hkw.
    + apply bind_inv in Hrun.
      destruct Hrun as [(llm_pass & w1 & Hc & Hrest)|[(e & Hc & ->)|(Hc & ->)]];
        destruct (llm_relevance_filter_spec _ _ _ _ Hc) as (Hnr & evs1 & Etr1 & Hle1 & Ha1).
      * destruct (IH _ _ _ _ Hrest) as (Hnr2 & (evs2 & Etr2 & Hle2 & Ha2) & Hout).
        split; [exact Hnr2|]. split.
        -- exists (evs1 ++ evs2). rewrite Etr2, Etr1, app_assoc, count_calls_app.
           split; [reflexivity|]. split; [simpl; lia|]. intros Halive.
           destruct (Ha1 Halive) as (Hk1 & Hc1 & _). destruct (Ha2 Hk1) as (Hc2 & Hne).
           split; [simpl; lia|exact Hne].
        -- intros out ->. destruct (Hout out eq_refl) as (Hkey & (confirmed & Hfin & Hsub) & Hdbg).
           cbn [FilterHurriyet.keyword_filtered_rows FilterHurriyet.final_filtered_rows
                FilterHurriyet.debug_records] in Hkey, Hfin, Hdbg.
           split; [rewrite Hkey, <- app_assoc; reflexivity|]. split.
           ++ destruct (truthy llm_pass); cbn [andb] in Hfin.
              ** exists (r :: confirmed). rewrite Hfin, <- app_assoc.
                 split; [reflexivity|]. constructor. exact Hsub.
              ** exists confirmed. split; [exact Hfin|]. constructor. exact Hsub.
           ++ rewrite Hdbg, length_app. simpl. lia.
      * destruct (Hnr e eq_refl).
      * split; [discriminate|]. split; [|discriminate].
        exists evs1. split; [exact Etr1|]. split; [simpl; lia|]. intros Halive.
        destruct (Ha1 Halive) as (_ & _ & Hne). congruence.
    + unfold bind at 1, ret at 1 in Hrun.
      destruct (IH _ _ _ _ Hrun) as (Hnr2 & (evs2 & Etr2 & Hle2 & Ha2) & Hout).
      split; [exact Hnr2|]. split; [exists evs2; auto|].
      intros out ->. destruct (Hout out eq_refl) as (Hkey & (confirmed & Hfin & Hsub) & Hdbg).
      cbn [FilterHurriyet.keyword_filtered_rows FilterHurriyet.final_filtered_rows
           FilterHurriyet.debug_records andb] in Hkey, Hfin, Hdbg.
      split; [exact Hkey|]. split; [exists confirmed; auto|].
      rewrite Hdbg, length_app. simpl. lia.
Qed.

(** X18.  The loop of the Hurriyet filters.  The service is asked about the
    rows the keyword filter lets through and about no other row, once each
    and never again after a failure; no exception comes out of the loop.
    When it ends, the keyword list holds exactly the rows the keyword filter
    lets through, in input order; the confirmed rows are picked among them,
    in order; and the debug table has one record per input row. *)
Theorem hurriyet_loop_asks_about_keyword_passes df acc (w : World) res w' :
  FilterHurriyet.main_loop df acc w = (res, w') ->
  (forall e, res <> Raise e)
  /\ (count_calls (new_events w w') <= length (keyword_passes df))%nat
  /\ (kill w = None ->
      count_calls (new_events w w') = length (keyword_passes df) /\ res <> Killed)
  /\ (forall out, res = Ret out ->
        FilterHurriyet.keyword_filtered_rows out
        = FilterHurriyet.keyword_filtered_rows acc ++ keyword_passes df
        /\ (exists confirmed,
              FilterHurriyet.final_filtered_rows out
              = FilterHurriyet.final_filtered_rows acc ++ confirmed
              /\ sublist confirmed (keyword_passes df))
        /\ length (FilterHurriyet.debug_records out)
           = (length (FilterHurriyet.debug_records acc) + length df)%nat).
Proof.
  intros Hrun. destruct (hurriyet_loop_spec _ _ _ _ _ Hrun) as (Hnr & (evs & Etr & Hle & Ha) & Hout).
  rewrite (new_events_app _ _ _ Etr). auto.
Qed.

End HurriyetLoop.

(** ** The topics of CAMEOcode_Hurriyet_1.py *)

Section Topics.
Context `{TopicService}.

Lemma flatten_topics_pure all_topics_list (w : World) r w' :
  CameoHurriyet.flatten_topics all_topics_list w = (r, w') -> w' = w /\ r <> Killed.
Proof.
  revert r w'. induction all_topics_list as [|lst rest IH]; intros r w' Hrun; simpl in Hrun.
  - injection Hrun as <- <-. split; [reflexivity|discriminate].
  - apply bind_inv in Hrun.
    destruct Hrun as [(items & w1 & Hi & Hrun)|[(e & Hi & ->)|(Hi & ->)]];
      destruct (py_iter_pure _ _ _ _ Hi) as [-> Hnk]; try (split; [reflexivity|congruence]).
    apply bind_inv in Hrun.
    destruct Hrun as [(more & w2 & Hm & Hrun)|[(e & Hm & ->)|(Hm & ->)]];
      destruct (IH _ _ Hm) as [-> Hnk2]; try (split; [reflexivity|congruence]).
    injection Hrun as <- <-. split; [reflexivity|discriminate].
Qed.

Lemma flatten_only_markers all_topics_list (w : World) :
  Forall only_error_markers all_topics_list ->
  CameoHurriyet.flatten_topics all_topics_list w = (Ret [], w).
Proof.
  induction 1 as [|lst rest (items & -> & Hitems) _ IH]; [reflexivity|].
  simpl. unfold bind, ret. simpl. rewrite IH. f_equal. f_equal.
  rewrite app_nil_r. clear -Hitems.
  induction Hitems as [|t items Ht _ IH]; [reflexivity|]. simpl. rewrite Ht. exact IH.
Qed.

Lemma topics_retries_exhausted text (w : World) :
  topics_always_fail ->
  kill w = None ->
  exists e w',
    CameoHurriyet.run_chat_completion (topics_create text) w = (Raise e, w')
    /\ count_calls (new_events w w') = 4%nat
    /\ out_file w' = out_file w /\ processed_ids w' = processed_ids w /\ kill w' = None.
Proof.
  intros Hfail Halive.
  unfold CameoHurriyet.run_chat_completion, call_with_retries, py_range.
  change (Z.to_nat (MAX_RETRIES + 1 - 1)) with 4%nat. cbn [range_from retry_loop].
  unfold bind at 1.
  rewrite (remote_call_alive _ w Halive).
  destruct (Hfail text (remote w)) as (e1 & s1 & ->).
  change (1 =? MAX_RETRIES) with false. cbv iota.
  unfold bind at 1. rewrite sleep_alive by reflexivity. cbn [retry_loop].
  rewrite remote_call_alive by reflexivity. cbn [remote].
  match goal with |- context [topics_create text ?s] =>
    destruct (Hfail text s) as (e2 & s2 & ->) end.
  change (1 + 1 =? MAX_RETRIES) with false. cbv iota.
  unfold bind at 1. rewrite sleep_alive by reflexivity. cbn [retry_loop].
  rewrite remote_call_alive by reflexivity. cbn [remote].
  match goal with |- context [topics_create text ?s] =>
    destruct (Hfail text s) as (e3 & s3 & ->) end.
  change (1 + 1 + 1 =? MAX_RETRIES) with false. cbv iota.
  unfold bind at 1. rewrite sleep_alive by reflexivity. cbn [retry_loop].
  rewrite remote_call_alive by reflexivity. cbn [remote].
  match goal with |- context [topics_create text ?s] =>
    destruct (Hfail text s) as (e4 & s4 & ->) end.
  change (1 + 1 + 1 + 1 =? MAX_RETRIES) with true. cbv iota.
  exists e4. eexists. split; [reflexivity|]. cbn [trace out_file processed_ids kill].
  split; [|auto]. erewrite new_events_app; [|cbn [trace]; rewrite <- !app_assoc; reflexivity].
  reflexivity.
Qed.

(** X19.  Topics that could not be extracted are not clustered.  When its
    request fails at every call, [get_topics_for_single_doc_llm] returns,
    after four invocations, a list of one item, the text of the exception
    behind the word [Error]; and [cluster_topics_with_llm] drops the items
    that start with [Error]: given lists that hold nothing else (or
    nothing), it sends no request and returns [No topics available.]. *)
Theorem failed_topics_are_not_clustered (w : World) :
  (topics_always_fail -> kill w = None ->
   forall text, exists e w',
     CameoHurriyet.get_topics_for_single_doc_llm text w
     = (Ret (PList [PStr ("Error: " +:+ exn_msg e)]), w')
     /\ only_error_markers (PList [PStr ("Error: " +:+ exn_msg e)])
     /\ count_calls (new_events w w') = 4%nat)
  /\ (forall all_topics_list,
        Forall only_error_markers all_topics_list ->
        CameoHurriyet.cluster_topics_with_llm all_topics_list w
        = (Ret "No topics available.", w)).
Proof.
  split.
  - intros Hfail Halive text.
    destruct (topics_retries_exhausted text w Hfail Halive) as (e & w' & Hrun & Hc & _).
    exists e, w'. split; [|split; [|exact Hc]].
    + unfold CameoHurriyet.get_topics_for_single_doc_llm, try_except. unfold bind at 1.
      rewrite Hrun. reflexivity.
    + eexists. split; [reflexivity|]. repeat constructor.
  - intros all_topics_list Hall. unfold CameoHurriyet.cluster_topics_with_llm, bind.
    rewrite (flatten_only_markers _ _ Hall). reflexivity.
Qed.

(** A usable topic that is not a string makes the join fail. *)
Lemma py_join_rejects sep flat : forall index,
  Exists (fun t => forall s, t <> PStr s) flat ->
  exists e, CameoHurriyet.py_join sep index flat = inl e /\ exn_class e = "TypeError".
Proof.
  induction flat as [|t flat IH]; intros index Hex; [inversion Hex|].
  destruct t as [| | | |s| |]; try (eexists; split; reflexivity).
  inversion Hex as [? ? Hbad|? ? Hrest]; subst; [destruct (Hbad s); reflexivity|].
  destruct (IH (S index) Hrest) as (e & He & Hclass).
  exists e. simpl. rewrite He. auto.
Qed.

(** X20.  The topics are joined outside the [try] of
    [cluster_topics_with_llm]: when the lists can be read and a topic that
    is kept is not a string, the [TypeError] of [join] leaves the function,
    before any request is sent. *)
Theorem cluster_topics_needs_strings all_topics_list flat (w : World) :
  CameoHurriyet.flatten_topics all_topics_list w = (Ret flat, w) ->
  Exists (fun t => forall s, t <> PStr s) flat ->
  exists e,
    CameoHurriyet.cluster_topics_with_llm all_topics_list w = (Raise e, w)
    /\ exn_class e = "TypeError".
Proof.
  intros Hflat Hbad. unfold CameoHurriyet.cluster_topics_with_llm. unfold bind at 1.
  rewrite Hflat. destruct flat as [|t flat]; [inversion Hbad|].
  destruct (py_join_rejects ", " (t :: flat) 0%nat Hbad) as (e & He & Hclass).
  exists e. unfold bind at 1. rewrite He. simpl. auto.
Qed.

(** X21.  The clustering at the end of a run reads the topics back from the
    table, one list per record line.  A cell that holds no text, or text
    that does not decode, counts as the empty list (the bare [except]); a
    table whose cells give only such lists, or lists of error markers, is
    not clustered: no request is sent and the report is
    [No topics available.].  A table without the column
    [document_topics_json] raises [AttributeError]. *)
Theorem table_without_topics_is_not_clustered (df : DataFrame) (w : World) :
  (forall item,
     Filter32.is_missing item = false ->
     (forall s, item = PStr s -> exists e, json_loads s = inl e) ->
     CameoHurriyet.decode_topics item = PList [])
  /\ (forall col,
        df_column df "document_topics_json" = Some col ->
        Forall (fun item => only_error_markers (CameoHurriyet.decode_topics item)) col ->
        (all_topics <- CameoHurriyet.topics_from_results df ;;
         CameoHurriyet.cluster_topics_with_llm all_topics) w
        = (Ret "No topics available.", w))
  /\ (df_column df "document_topics_json" = None ->
      CameoHurriyet.topics_from_results df w
      = (Raise (AttributeError (PList []) "fillna"), w)).
Proof.
  split; [|split].
  - intros item Hmiss Hbad. unfold CameoHurriyet.decode_topics. rewrite Hmiss.
    destruct item; try reflexivity. destruct (Hbad s eq_refl) as (e & ->). reflexivity.
  - intros col Hcol Hall. unfold CameoHurriyet.topics_from_results. rewrite Hcol.
    unfold bind at 1, ret at 1. unfold CameoHurriyet.cluster_topics_with_llm, bind.
    rewrite flatten_only_markers; [reflexivity|].
    apply Forall_map. exact Hall.
  - intros Hcol. unfold CameoHurriyet.topics_from_results. rewrite Hcol. reflexivity.
Qed.

End Topics.

(** ** Filter-3.1.py and Filter-3.3.py *)

Section OtherFilters.
Context `{Platform}.






End OtherFilters.

(** ** Reruns and replies with many events *)

Section Rerun.
Context `{Platform}.

(** When the loop of a body that marks the rows it does not pass over has
    run to its end, every such row is marked. *)
Lemma row_loop_marks_all (body : row -> M unit) (blank : row -> bool) (id_of : row -> string) :
  (forall r (w : World) lines w1,
     out_file w = Some lines -> body r w = (Ret tt, w1) ->
     (exists lines1, out_file w1 = Some lines1)
     /\ processed_ids w ⊆ processed_ids w1
     /\ (blank r = false -> id_of r ∈ processed_ids w1)) ->
  forall rows (w : World) lines w',
  out_file w = Some lines ->
  row_loop body rows w = (Ret tt, w') ->
  processed_ids w ⊆ processed_ids w'
  /\ forall r, r ∈ rows -> blank r = false -> id_of r ∈ processed_ids w'.
Proof.
  intros Hmarks. induction rows as [|r rest IH]; intros w lines w' Hfile Hrun.
  - injection Hrun as <-. split; [reflexivity|]. intros r Hr. inversion Hr.
  - simpl in Hrun. apply bind_inv in Hrun.
    destruct Hrun as [([] & w1 & Hb & Hrest)|[(e & _ & ?)|(_ & ?)]]; try discriminate.
    destruct (Hmarks _ _ _ _ Hfile Hb) as ((lines1 & Hf1) & Hsub & Hmark).
    destruct (IH _ _ _ Hf1 Hrest) as (Hsub2 & Hall).
    split; [set_solver|]. intros r' Hr' Hblank.
    apply elem_of_cons in Hr'. destruct Hr' as [->|Hr']; [|auto].
    apply Hsub2, Hmark, Hblank.
Qed.

(** A loop all of whose rows the body passes over. *)
Lemma row_loop_all_passed (body : row -> M unit) rows (w : World) :
  (forall r, r ∈ rows -> body r w = (Ret tt, w)) ->
  row_loop body rows w = (Ret tt, w).
Proof.
  induction rows as [|r rest IH]; intros Hskip; [reflexivity|].
  simpl. unfold bind. rewrite Hskip by set_solver. apply IH.
  intros r' Hr'. apply Hskip. set_solver.
Qed.

Lemma cameo3_blank_skip r (w : World) :
  cameo3_blank r = true -> Cameo3.loop_body r w = (Ret tt, w).
Proof.
  unfold cameo3_blank. intros Hb. apply loop_body_skip. left.
  apply String.eqb_eq. exact Hb.
Qed.

Lemma societal_blank_skip r (w : World) :
  societal_blank r = true -> Societal.loop_body r w = (Ret tt, w).
Proof.
  unfold societal_blank, Societal.loop_body. intros ->. reflexivity.
Qed.

(** The table a run of CAMEO-3.py that returned leaves, and the rows it
    marked. *)
Lemma cameo3_complete_run env (w0 : World) w1 :
  processed_ids w0 = ∅ ->
  sink_table Cameo3.OUTPUT_COLUMNS (out_file w0) ->
  reads_back (out_file w0) ->
  Cameo3.script env w0 = (Ret tt, w1) ->
  reads_back (out_file w1) ->
  (exists key, OPENAI_API_KEY env = Some key /\ key <> "")
  /\ (exists rows, data_csv env = Some (inr rows))
  /\ exists body,
       out_file w1 = Some (HeaderLine Cameo3.OUTPUT_COLUMNS :: body)
       /\ forall r, r ∈ input_rows env -> cameo3_blank r = false ->
            Cameo3.row_news_id r ∈ table_ids body.
Proof.
  intros Hempty Htable Hback0 Hscript Hback1.
  pose proof (cameo3_script_set _ _ _ _ Hempty Htable Hback0 Hscript) as Hset.
  pose proof (cameo3_script_keeps_table _ _ _ _ Htable Hscript) as Hkeep.
  pose proof Hscript as Hrun. unfold Cameo3.script in Hrun.
  destruct (OPENAI_API_KEY env) as [[|c key]|] eqn:Hkey; try discriminate.
  split; [eexists; split; [reflexivity|discriminate]|].
  destruct (data_csv env) as [[e|rows]|] eqn:Hdata;
    try (unfold Cameo3.main in Hrun; rewrite Hdata in Hrun; discriminate).
  split; [eauto|].
  assert (Hmain : forall w : World,
    (exists body0, out_file w = Some (HeaderLine Cameo3.OUTPUT_COLUMNS :: body0)) ->
    Cameo3.main env w = (Ret tt, w1) ->
    (exists lines1, out_file w1 = Some lines1)
    /\ forall r, r ∈ rows -> cameo3_blank r = false -> Cameo3.row_news_id r ∈ processed_ids w1).
  { intros w (body0 & Hfile) Hm.
    rewrite (cameo3_main_on_table _ _ _ _ Hdata Hfile), cameo3_main_loop_eq in Hm.
    match type of Hm with row_loop _ _ ?wx = _ =>
      assert (Hfx : out_file wx = Some (HeaderLine Cameo3.OUTPUT_COLUMNS :: body0))
        by exact Hfile
    end.
    split.
    - destruct (appends_row_loop _ _ rows appends_cameo3_loop_body _ _ _ _ Hfx Hm)
        as (new & Hf & _). eauto.
    - eapply (row_loop_marks_all Cameo3.loop_body cameo3_blank Cameo3.row_news_id
                cameo3_body_marks); [exact Hfx|exact Hm]. }
  assert (Hdone : (exists lines1, out_file w1 = Some lines1)
    /\ forall r, r ∈ rows -> cameo3_blank r = false -> Cameo3.row_news_id r ∈ processed_ids w1).
  { destruct (out_file w0) as [lines|] eqn:Hfile.
    - destruct Htable as (body0 & -> & _). apply (Hmain w0); [eauto|exact Hrun].
    - rewrite (cameo3_main_creates _ _ _ Hdata Hfile) in Hrun.
      destruct (tick w0) as [[[]|e|] wt]; try discriminate.
      eapply Hmain; [|exact Hrun]. cbn [out_file]. eauto. }
  destruct Hdone as ((lines1 & Hf1) & Hall).
  rewrite Hf1 in Hkeep. destruct Hkeep as (body & -> & _).
  exists body. split; [exact Hf1|].
  unfold input_rows. rewrite Hdata. intros r Hr Hblank. specialize (Hall r Hr Hblank).
  destruct Hset as [Hnone|(body' & Hf & Hsub)].
  - rewrite Hnone in Hall. set_solver.
  - rewrite Hf1 in Hf. injection Hf as <-. rewrite Hf1 in Hback1.
    unfold reads_back, ids_read_back in Hback1. rewrite Hback1. apply Hsub, Hall.
Qed.

Lemma societal_complete_run env (w0 : World) w1 :
  processed_ids w0 = ∅ ->
  sink_table Societal.OUTPUT_COLUMNS (out_file w0) ->
  reads_back (out_file w0) ->
  Societal.script env w0 = (Ret tt, w1) ->
  reads_back (out_file w1) ->
  (exists key, OPENAI_API_KEY env = Some key /\ key <> "")
  /\ (exists rows, data_csv env = Some (inr rows))
  /\ exists body,
       out_file w1 = Some (HeaderLine Societal.OUTPUT_COLUMNS :: body)
       /\ forall r, r ∈ input_rows env -> societal_blank r = false ->
            Societal.row_news_id r ∈ table_ids body.
Proof.
  intros Hempty Htable Hback0 Hscript Hback1.
  pose proof (societal_script_set _ _ _ _ Hempty Htable Hback0 Hscript) as Hset.
  pose proof (societal_script_keeps_table _ _ _ _ Htable Hscript) as Hkeep.
  pose proof Hscript as Hrun. unfold Societal.script in Hrun.
  destruct (OPENAI_API_KEY env) as [[|c key]|] eqn:Hkey; try discriminate.
  split; [eexists; split; [reflexivity|discriminate]|].
  destruct (data_csv env) as [[e|rows]|] eqn:Hdata;
    try (unfold Societal.main in Hrun; rewrite Hdata in Hrun; discriminate).
  split; [eauto|].
  assert (Hmain : forall w : World,
    (exists body0, out_file w = Some (HeaderLine Societal.OUTPUT_COLUMNS :: body0)) ->
    Societal.main env w = (Ret tt, w1) ->
    (exists lines1, out_file w1 = Some lines1)
    /\ forall r, r ∈ rows -> societal_blank r = false ->
         Societal.row_news_id r ∈ processed_ids w1).
  { intros w (body0 & Hfile) Hm.
    rewrite (societal_main_on_table _ _ _ _ Hdata Hfile), societal_main_loop_eq in Hm.
    match type of Hm with row_loop _ _ ?wx = _ =>
      assert (Hfx : out_file wx = Some (HeaderLine Societal.OUTPUT_COLUMNS :: body0))
        by exact Hfile
    end.
    split.
    - destruct (appends_row_loop _ _ rows appends_societal_loop_body _ _ _ _ Hfx Hm)
        as (new & Hf & _). eauto.
    - eapply (row_loop_marks_all Societal.loop_body societal_blank Societal.row_news_id
                societal_body_marks); [exact Hfx|exact Hm]. }
  assert (Hdone : (exists lines1, out_file w1 = Some lines1)
    /\ forall r, r ∈ rows -> societal_blank r = false ->
         Societal.row_news_id r ∈ processed_ids w1).
  { destruct (out_file w0) as [lines|] eqn:Hfile.
    - destruct Htable as (body0 & -> & _). apply (Hmain w0); [eauto|exact Hrun].
    - rewrite (societal_main_creates _ _ _ Hdata Hfile) in Hrun.
      destruct (tick w0) as [[[]|e|] wt]; try discriminate.
      eapply Hmain; [|exact Hrun]. cbn [out_file]. eauto. }
  destruct Hdone as ((lines1 & Hf1) & Hall).
  rewrite Hf1 in Hkeep. destruct Hkeep as (body & -> & _).
  exists body. split; [exact Hf1|].
  unfold input_rows. rewrite Hdata. intros r Hr Hblank. specialize (Hall r Hr Hblank).
  destruct Hset as [Hnone|(body' & Hf & Hsub)].
  - rewrite Hnone in Hall. set_solver.
  - rewrite Hf1 in Hf. injection Hf as <-. rewrite Hf1 in Hback1.
    unfold reads_back, ids_read_back in Hback1. rewrite Hback1. apply Hsub, Hall.
Qed.

(** X23.  A rerun after a run that returned is silent, when the
    identifiers of the table come back as they were written.  When a run of
    a fresh process on a table the script wrote (or on no table) has returned,
    and the identifiers pandas reads from the table are the identifiers
    written in it, before that run and after it, then a new process started
    on the same input and on the table that run left returns as well, and it
    issues no call, takes no sleep and writes nothing, whatever the service
    would answer: every row with content is found in the table.  For
    CAMEO-3.py and for Societal_sentiment.py. *)
Theorem rerun_after_complete_run_is_silent env (w0 : World) w1 (w2 : World) :
  processed_ids w0 = ∅ ->
  reads_back (out_file w0) ->
  reads_back (out_file w1) ->
  out_file w2 = out_file w1 ->
  (written_file Cameo3.OUTPUT_COLUMNS (out_file w0) ->
   Cameo3.script env w0 = (Ret tt, w1) ->
   exists w3, Cameo3.script env w2 = (Ret tt, w3) /\ silent_run w2 w3)
  /\ (written_file Societal.OUTPUT_COLUMNS (out_file w0) ->
      Societal.script env w0 = (Ret tt, w1) ->
      exists w3, Societal.script env w2 = (Ret tt, w3) /\ silent_run w2 w3).
Proof.
  intros Hempty Hback0 Hback1 Hfile2.
  split; intros Htable Hrun; apply written_file_sink in Htable.
  - destruct (cameo3_complete_run _ _ _ Hempty Htable Hback0 Hrun Hback1)
      as ((key & Hkey & Hne) & (rows & Hdata) & body & Hf1 & Hall).
    assert (Hs : Cameo3.script env w2 = Cameo3.main env w2).
    { unfold Cameo3.script. rewrite Hkey. destruct key; [congruence|reflexivity]. }
    rewrite Hs, (cameo3_main_on_table _ _ _ body Hdata) by congruence.
    rewrite cameo3_main_loop_eq, row_loop_all_passed.
    + eexists. split; [reflexivity|]. repeat split.
    + intros r Hr. destruct (cameo3_blank r) eqn:Hblank.
      * apply cameo3_blank_skip, Hblank.
      * apply cameo3_body_skip. cbn [processed_ids]. apply Hall; [|exact Hblank].
        unfold input_rows. rewrite Hdata. exact Hr.
  - destruct (societal_complete_run _ _ _ Hempty Htable Hback0 Hrun Hback1)
      as ((key & Hkey & Hne) & (rows & Hdata) & body & Hf1 & Hall).
    assert (Hs : Societal.script env w2 = Societal.main env w2).
    { unfold Societal.script. rewrite Hkey. destruct key; [congruence|reflexivity]. }
    rewrite Hs, (societal_main_on_table _ _ _ body Hdata) by congruence.
    rewrite societal_main_loop_eq, row_loop_all_passed.
    + eexists. split; [reflexivity|]. repeat split.
    + intros r Hr. destruct (societal_blank r) eqn:Hblank.
      * apply societal_blank_skip, Hblank.
      * apply societal_body_skip. cbn [processed_ids]. apply Hall; [|exact Hblank].
        unfold input_rows. rewrite Hdata. exact Hr.
Qed.

(** X24.  A reply with any number of events, all of them objects: the row
    yields exactly one record per event, in the order of the reply, all with
    the identifier, source, date, title and summary of the row; then the
    identifier enters the set. *)
Theorem cameo3_one_record_per_event r content news_id (w : World) lines dicts :
  kill w = None ->
  out_file w = Some lines ->
  dicts <> [] ->
  events_answer content (fun events => events = PList (map PDict dicts)) ->
  exists summary w',
    Cameo3.process_row r content news_id w = (Ret tt, w')
    /\ out_file w' = Some (lines ++ cameo3_event_lines r news_id summary dicts)
    /\ length (cameo3_event_lines r news_id summary dicts) = length dicts
    /\ processed_ids w' = {[news_id]} ∪ processed_ids w.
Proof.
  intros Halive Hfile Hne Hans.
  destruct (cameo3_events_answered _ _ w Hans Halive) as (d & w1 & Hev & Hlist & Hf1 & Hp1 & Hk1).
  destruct (client_returns _ w1 (frames_get_summary content)
              (get_summary_never_raises content) Hk1) as (summary & w2 & Hsum & Hf2 & Hp2 & Hk2).
  exists summary. unfold Cameo3.process_row. unfold bind at 1. rewrite Hev.
  unfold bind at 1. rewrite Hsum. simpl py_get. unfold ret at 1. unfold bind at 1.
  rewrite Hlist.
  assert (Htruthy : truthy (PList (map PDict dicts)) = true).
  { simpl. destruct dicts; [congruence|reflexivity]. }
  rewrite Htruthy. change (negb true) with false. cbv iota.
  unfold bind at 1. unfold bind at 1. unfold py_iter, ret at 1.
  destruct (write_events_dicts r news_id summary dicts w2 lines Hk2 ltac:(congruence) [])
    as (w3 & Hrun & Hf3 & Hp3 & _).
  rewrite app_nil_r in Hrun. rewrite Hrun. cbn [Cameo3.write_events]. unfold ret at 1.
  eexists. split; [reflexivity|]. cbn [out_file processed_ids].
  split; [exact Hf3|]. split; [apply length_map|]. congruence.
Qed.

End Rerun.

(** ** The statements on the test doubles *)

Lemma calls_bounded_by_input_witness :
  let env := demo_env [demo_row "A" "quiet day"; demo_row "B" "busy day"] in
  let w := Demo.start Demo.failing tt None None in
  (count_calls (new_events w (snd (@Cameo3.script Demo.failing env w))) <= 16)%nat
  /\ (count_calls (new_events w (snd (@Societal.script Demo.failing env w))) <= 16)%nat
  /\ (count_calls (new_events w (snd (@Filter32.script Demo.failing env w))) <= 2)%nat.
Proof.
  intros env w.
  split; [|split].
  - apply (proj1 (@calls_bounded_by_input Demo.failing env w
                    (fst (@Cameo3.script Demo.failing env w))
                    (snd (@Cameo3.script Demo.failing env w)))).
    apply surjective_pairing.
  - apply (proj1 (proj2 (@calls_bounded_by_input Demo.failing env w
                    (fst (@Societal.script Demo.failing env w))
                    (snd (@Societal.script Demo.failing env w))))).
    apply surjective_pairing.
  - apply (proj2 (proj2 (@calls_bounded_by_input Demo.failing env w
                    (fst (@Filter32.script Demo.failing env w))
                    (snd (@Filter32.script Demo.failing env w))))).
    apply surjective_pairing.
Defined.

Lemma failing_row_costs_full_budget_witness :
  let r := demo_row "B" "busy day" in
  let w := Demo.start Demo.failing tt (Some [HeaderLine Cameo3.OUTPUT_COLUMNS]) None in
  (exists a1 a2 a3 a4 b1 b2 b3 b4 w',
     @Cameo3.loop_body Demo.failing r w = (Ret tt, w')
     /\ new_events w w' = exhausted_request a1 a2 a3 a4 ++ exhausted_request b1 b2 b3 b4
     /\ count_calls (new_events w w') = 8%nat
     /\ (total_sleep (new_events w w') == 60)%Q)
  /\ (exists a1 a2 a3 a4 b1 b2 b3 b4 w',
        @Societal.loop_body Demo.failing r w = (Ret tt, w')
        /\ new_events w w'
           = exhausted_request a1 a2 a3 a4 ++ exhausted_request b1 b2 b3 b4 ++ [EvSleep (1 # 2)]
        /\ count_calls (new_events w w') = 8%nat
        /\ (total_sleep (new_events w w') == 121 # 2)%Q).
Proof.
  intros r w.
  destruct (@failing_row_costs_full_budget Demo.failing failing_service_always_fails r w
              [HeaderLine Cameo3.OUTPUT_COLUMNS] eq_refl eq_refl) as [Hc Hs].
  split.
  - apply Hc; [discriminate|apply not_elem_of_empty].
  - apply Hs; [discriminate|discriminate|apply not_elem_of_empty].
Defined.

Lemma reply_without_content_is_not_retried_witness :
  let w := Demo.start Demo.scripted [inr None] None None in
  (exists w',
     @Cameo3.get_cameo_events_with_llm Demo.scripted "news" w
     = (Ret (events_error loads_None_error), w')
     /\ new_events w w' = [EvCall None] /\ remote w' = [])
  /\ (exists w',
        @Cameo3.get_summary_with_llm Demo.scripted "news" w
        = (Ret "Error: 'NoneType' object has no attribute 'strip'", w')
        /\ new_events w w' = [EvCall None] /\ remote w' = [])
  /\ (exists w',
        @Societal.get_societal_sentiment_with_llm Demo.scripted "news" w
        = (Ret (Societal.error_result ""), w')
        /\ new_events w w' = [EvCall None] /\ remote w' = [])
  /\ (exists w',
        @Societal.get_summary_with_llm Demo.scripted "news" w = (Ret "", w')
        /\ new_events w w' = [EvCall None] /\ remote w' = []).
Proof.
  intros w.
  destruct (@reply_without_content_is_not_retried Demo.scripted "news" w [] eq_refl)
    as (H1 & H2 & H3 & H4).
  split; [apply H1; reflexivity|]. split; [apply H2; reflexivity|].
  split; [apply H3; reflexivity|]. apply H4; reflexivity.
Defined.

Lemma cameo3_reply_must_be_an_object_witness :
  let r := demo_row "L" "a list" in
  let w := Demo.start Replies.by_text tt (Some [HeaderLine Cameo3.OUTPUT_COLUMNS]) None in
  exists w',
    @Cameo3.main_loop Replies.by_text [r; demo_row "B" "busy day"] w
    = (Raise (AttributeError (PList []) "get"), w')
    /\ out_file w' = out_file w
    /\ processed_ids w' = processed_ids w
    /\ (2 <= count_calls (new_events w w') <= 5)%nat.
Proof.
  intros r w.
  apply (@cameo3_reply_must_be_an_object Replies.by_text r [demo_row "B" "busy day"] w
           "a-list" (PList []) tt).
  - reflexivity.
  - discriminate.
  - apply not_elem_of_empty.
  - reflexivity.
  - reflexivity.
  - intros d. discriminate.
Defined.

Lemma cameo3_events_must_be_objects_witness :
  let r := demo_row "B" "busy day" in
  let w := Demo.start Replies.by_text tt (Some [HeaderLine Cameo3.OUTPUT_COLUMNS]) None in
  exists summary w',
    @Cameo3.process_row Replies.by_text r "busy day" "B" w
    = (Raise (AttributeError (PStr "and more") "get"), w')
    /\ out_file w'
       = Some ([HeaderLine Cameo3.OUTPUT_COLUMNS]
               ++ cameo3_event_lines r "B" summary [Demo.first_event])
    /\ processed_ids w' = processed_ids w.
Proof.
  intros r w.
  apply (@cameo3_events_must_be_objects Replies.by_text r "busy day" "B" w
           [HeaderLine Cameo3.OUTPUT_COLUMNS] [Demo.first_event] (PStr "and more")
           [PDict Demo.second_event]).
  - reflexivity.
  - reflexivity.
  - intros s. exists "mixed-events", s. eexists. repeat split; reflexivity.
  - intros d. discriminate.
Defined.

Lemma sentiment_result_is_well_formed_witness :
  let w := Demo.start Replies.by_text tt None None in
  let run := @Societal.get_societal_sentiment_with_llm Replies.by_text "news" w in
  exists d, fst run = Ret d
    /\ map fst d = SENTIMENT_KEYS
    /\ exists score, lookup_key "sentiment_score" d = Some (PFloat score).
Proof.
  intros w run.
  assert (Hrun : exists d, run = (Ret d, snd run)).
  { eexists. vm_compute. reflexivity. }
  destruct Hrun as (d & Hrun). exists d. split; [rewrite Hrun; reflexivity|].
  exact (proj2 (@sentiment_result_is_well_formed Replies.by_text "news" w) d (snd run) Hrun).
Defined.

Lemma sentiment_score_conversion_witness :
  let w := Demo.start Replies.by_text tt None None in
  let d := [ ("sentiment_score", PFloat 0.5%float); ("sentiment_label", PStr "Positive") ] in
  exists w',
    new_events w w' = [EvCall None]
    /\ @Societal.get_societal_sentiment_with_llm Replies.by_text "news" w
       = (Ret (sentiment_fields d 0.5%float), w').
Proof.
  intros w d.
  destruct (@sentiment_score_conversion Replies.by_text "news" w "sentiment" tt d)
    as (w' & Hev & Hok & _).
  - reflexivity.
  - reflexivity.
  - discriminate.
  - reflexivity.
  - exists w'. split; [exact Hev|]. apply Hok. reflexivity.
Defined.

Lemma runs_append_full_width_records_witness :
  let env := demo_env [demo_row "A" "quiet day"; demo_row "B" "busy day"] in
  let w := Demo.start Demo.by_request tt (Some [HeaderLine Cameo3.OUTPUT_COLUMNS]) None in
  let run := @Cameo3.script Demo.by_request env w in
  exists new,
    out_file (snd run) = Some ([HeaderLine Cameo3.OUTPUT_COLUMNS] ++ new)
    /\ Forall (record_of_width 13) new.
Proof.
  intros env w run.
  apply (proj1 (proj1 (@runs_append_full_width_records Demo.by_request env w
                         (fst run) (snd run)) (surjective_pairing run))).
  reflexivity.
Defined.


Lemma repeated_identifiers_are_passed_over_witness :
  let rows := [demo_row "A" "quiet day"; demo_row "A" "busy day"; demo_row "B" "busy day"] in
  let w := Demo.start Demo.by_request tt (Some [HeaderLine Cameo3.OUTPUT_COLUMNS]) None in
  @Cameo3.main_loop Demo.by_request rows w
  = @Cameo3.main_loop Demo.by_request
      (first_occurrences (@cameo3_blank Demo.by_request) (@Cameo3.row_news_id Demo.by_request)
         ∅ rows) w
  /\ @Societal.main_loop Demo.by_request rows w
     = @Societal.main_loop Demo.by_request
         (first_occurrences (@societal_blank Demo.by_request)
            (@Societal.row_news_id Demo.by_request) ∅ rows) w.
Proof.
  intros rows w.
  apply (@repeated_identifiers_are_passed_over Demo.by_request rows w
           [HeaderLine Cameo3.OUTPUT_COLUMNS]).
  reflexivity.
Defined.



Lemma filter32_without_rows_witness :
  let w := Demo.start Demo.failing tt (Some [HeaderLine FILTER32_COLUMNS]) None in
  @Filter32.script Demo.failing (mkEnv (Some "sk-test") None) w = (Ret tt, w)
  /\ @Filter32.script Demo.failing (demo_env []) w
     = (Raise (Exn "KeyError" "'Is_Relevant'"),
        Demo.start Demo.failing tt (Some [HeaderLine []]) None).
Proof.
  intros w. split.
  - apply (@filter32_without_rows Demo.failing (mkEnv (Some "sk-test") None) w).
    + exists "sk-test". split; [reflexivity|discriminate].
    + reflexivity.
  - apply (@filter32_without_rows Demo.failing (demo_env []) w).
    + exists "sk-test". split; [reflexivity|discriminate].
    + reflexivity.
    + reflexivity.
Defined.

Lemma cheap_keyword_filter_needs_a_country_witness :
  @FilterHurriyet.cheap_keyword_filter Replies.ascii_text
    "Breaking: the Prime Minister of Israel spoke in Ankara today" = true.
Proof.
  apply (proj2 (@cheap_keyword_filter_needs_a_country Replies.ascii_text "Israel spoke in Ankara")).
  - discriminate.
  - vm_compute. reflexivity.
  - vm_compute. reflexivity.
Defined.

Lemma hurriyet_loop_asks_about_keyword_passes_witness :
  let df := [ Replies.article "N1" "headline" "Israel and Turkey sign a trade deal";
              Replies.article "N2" "other" "Rain is expected in the north" ] in
  let w := Demo.start Replies.by_text tt None None in
  let run := @FilterHurriyet.main_loop Replies.by_text Replies.ascii_text df
               (FilterHurriyet.mkCollected [] [] []) w in
  let passes := @keyword_passes Replies.by_text Replies.ascii_text df in
  (forall e, fst run <> Raise e)
  /\ (count_calls (new_events w (snd run)) <= length passes)%nat
  /\ (kill w = None ->
      count_calls (new_events w (snd run)) = length passes /\ fst run <> Killed)
  /\ (forall out, fst run = Ret out ->
        FilterHurriyet.keyword_filtered_rows out = [] ++ passes
        /\ (exists confirmed,
              FilterHurriyet.final_filtered_rows out = [] ++ confirmed
              /\ sublist confirmed passes)
        /\ length (FilterHurriyet.debug_records out) = (0 + length df)%nat).
Proof.
  intros df w run passes.
  apply (@hurriyet_loop_asks_about_keyword_passes Replies.by_text Replies.ascii_text df
           (FilterHurriyet.mkCollected [] [] []) w (fst run) (snd run)).
  apply surjective_pairing.
Defined.

Lemma failed_topics_are_not_clustered_witness :
  let w := Demo.start Demo.failing tt None None in
  (exists e w',
     @CameoHurriyet.get_topics_for_single_doc_llm Demo.failing Replies.no_topics "news" w
     = (Ret (PList [PStr ("Error: " +:+ exn_msg e)]), w')
     /\ @only_error_markers Demo.failing (PList [PStr ("Error: " +:+ exn_msg e)])
     /\ count_calls (new_events w w') = 4%nat)
  /\ @CameoHurriyet.cluster_topics_with_llm Demo.failing Replies.no_topics
       [PList [PStr "Error: Connection error."]; PList []] w
     = (Ret "No topics available.", w).
Proof.
  intros w.
  destruct (@failed_topics_are_not_clustered Demo.failing Replies.no_topics w) as [Hfail Hnone].
  split.
  - apply Hfail; [|reflexivity]. intros text s. eexists _, _. reflexivity.
  - apply Hnone. repeat constructor.
    + eexists. split; [reflexivity|]. repeat constructor.
    + eexists. split; [reflexivity|]. constructor.
Defined.

Lemma cluster_topics_needs_strings_witness :
  let w := Demo.start Demo.failing tt None None in
  exists e,
    @CameoHurriyet.cluster_topics_with_llm Demo.failing Replies.no_topics
      [PList [PStr "trade"; PInt 3]] w = (Raise e, w)
    /\ exn_class e = "TypeError".
Proof.
  intros w.
  apply (@cluster_topics_needs_strings Demo.failing Replies.no_topics
           [PList [PStr "trade"; PInt 3]] [PStr "trade"; PInt 3] w).
  - reflexivity.
  - apply Exists_cons_tl, Exists_cons_hd. intros s. discriminate.
Defined.

Lemma table_without_topics_is_not_clustered_witness :
  let w := Demo.start Demo.failing tt None None in
  let with_column := mkDataFrame ["NewsID"; "document_topics_json"]
                       [[PStr "A"; PStr "not json"]; [PStr "B"; PStr "neither"]] in
  let without := mkDataFrame ["NewsID"] [[PStr "A"]] in
  (all_topics <- @CameoHurriyet.topics_from_results Demo.failing with_column ;;
   @CameoHurriyet.cluster_topics_with_llm Demo.failing Replies.no_topics all_topics) w
  = (Ret "No topics available.", w)
  /\ @CameoHurriyet.topics_from_results Demo.failing without w
     = (Raise (AttributeError (PList []) "fillna"), w).
Proof.
  intros w with_column without.
  destruct (@table_without_topics_is_not_clustered Demo.failing Replies.no_topics
              with_column w) as (Hdecode & Hcol & _).
  destruct (@table_without_topics_is_not_clustered Demo.failing Replies.no_topics
              without w) as (_ & _ & Hmissing).
  split; [|apply Hmissing; reflexivity].
  apply (Hcol [PStr "not json"; PStr "neither"]); [reflexivity|].
  repeat constructor.
  - rewrite Hdecode.
    + eexists. split; [reflexivity|]. constructor.
    + reflexivity.
    + intros s Hs. injection Hs as <-. eexists. reflexivity.
  - rewrite Hdecode.
    + eexists. split; [reflexivity|]. constructor.
    + reflexivity.
    + intros s Hs. injection Hs as <-. eexists. reflexivity.
Defined.


Lemma rerun_after_complete_run_is_silent_witness :
  let env := demo_env [demo_row "A" "quiet day"; demo_row "B" "busy day"] in
  let w0 := Demo.start Demo.by_request tt None None in
  let w1 := snd (@Cameo3.script Demo.by_request env w0) in
  let w2 := Demo.start Demo.by_request tt (out_file w1) None in
  exists w3,
    @Cameo3.script Demo.by_request env w2 = (Ret tt, w3)
    /\ @silent_run Demo.by_request w2 w3.
Proof.
  intros env w0 w1 w2.
  assert (Hback : @reads_back Demo.by_request (out_file w1)) by (vm_compute; reflexivity).
  apply (proj1 (@rerun_after_complete_run_is_silent Demo.by_request env w0 w1 w2
                  eq_refl I Hback eq_refl)).
  - exact I.
  - vm_compute. reflexivity.
Defined.

Lemma cameo3_one_record_per_event_witness :
  let r := demo_row "B" "busy day" in
  let events := [Demo.first_event; Demo.second_event] in
  let w := Demo.start Demo.by_request tt (Some [HeaderLine Cameo3.OUTPUT_COLUMNS]) None in
  exists summary w',
    @Cameo3.process_row Demo.by_request r "busy day" "B" w = (Ret tt, w')
    /\ out_file w'
       = Some ([HeaderLine Cameo3.OUTPUT_COLUMNS] ++ cameo3_event_lines r "B" summary events)
    /\ length (cameo3_event_lines r "B" summary events) = length events
    /\ processed_ids w' = {[ "B" ]} ∪ processed_ids w.
Proof.
  intros r events w.
  apply (@cameo3_one_record_per_event Demo.by_request r "busy day" "B" w
           [HeaderLine Cameo3.OUTPUT_COLUMNS] events).
  - reflexivity.
  - reflexivity.
  - discriminate.
  - intros s. exists "two-events", s. eexists. repeat split; reflexivity.
Defined.
